(** * Fusion fsync and the Fusion HTTP filesystem: a shallow embedding

  The development follows the two Python modules [fusion/fs_sync.py] and
  [fusion/fusion_filesystem.py].  Library objects the modules use
  (hashlib, base64, file objects, pandas frames, asyncio) are modelled by
  their documented behaviour; collaborators defined in other modules of the
  package ([validate_file_names], [path_to_url], [upload_files], the HTTP
  session) are section variables. *)

From Stdlib Require Import ZArith List Lia Bool.
From Stdlib.Strings Require Import String Ascii Byte.
From Equations Require Import Equations.
From stdpp Require Import base option list gmap strings pretty sorting.

Import ListNotations.
Local Open Scope Z_scope.

(** ** hashlib.md5 (RFC 1321) over byte lists *)

Module Hashlib.

Definition mask32 : Z := 4294967295.

Definition add32 (x y : Z) : Z := Z.land (x + y) mask32.

Definition not32 (x : Z) : Z := Z.lxor x mask32.

Definition rotl32 (x : Z) (c : Z) : Z :=
  Z.land (Z.lor (Z.shiftl x c) (Z.shiftr x (32 - c))) mask32.

Definition K : list Z :=
  [ 3614090360; 3905402710; 606105819; 3250441966;
    4118548399; 1200080426; 2821735955; 4249261313;
    1770035416; 2336552879; 4294925233; 2304563134;
    1804603682; 4254626195; 2792965006; 1236535329;
    4129170786; 3225465664; 643717713; 3921069994;
    3593408605; 38016083; 3634488961; 3889429448;
    568446438; 3275163606; 4107603335; 1163531501;
    2850285829; 4243563512; 1735328473; 2368359562;
    4294588738; 2272392833; 1839030562; 4259657740;
    2763975236; 1272893353; 4139469664; 3200236656;
    681279174; 3936430074; 3572445317; 76029189;
    3654602809; 3873151461; 530742520; 3299628645;
    4096336452; 1126891415; 2878612391; 4237533241;
    1700485571; 2399980690; 4293915773; 2240044497;
    1873313359; 4264355552; 2734768916; 1309151649;
    4149444226; 3174756917; 718787259; 3951481745 ].

Definition shift_amounts : list Z :=
  [ 7; 12; 17; 22; 7; 12; 17; 22; 7; 12; 17; 22; 7; 12; 17; 22;
    5; 9; 14; 20; 5; 9; 14; 20; 5; 9; 14; 20; 5; 9; 14; 20;
    4; 11; 16; 23; 4; 11; 16; 23; 4; 11; 16; 23; 4; 11; 16; 23;
    6; 10; 15; 21; 6; 10; 15; 21; 6; 10; 15; 21; 6; 10; 15; 21 ].

Definition byteZ (b : byte) : Z := Z.of_N (Byte.to_N b).

Definition Zbyte (z : Z) : byte :=
  match Byte.of_N (Z.to_N (Z.land z 255)) with
  | Some b => b
  | None => x00
  end.

(** Little-endian encoding of the low [n] bytes of [z]. *)
Fixpoint le_bytes (n : nat) (z : Z) : list byte :=
  match n with
  | O => []
  | S n' => Zbyte z :: le_bytes n' (Z.shiftr z 8)
  end.

Fixpoint le_word (bs : list byte) : Z :=
  match bs with
  | [] => 0
  | b :: bs' => byteZ b + 256 * le_word bs'
  end.

(** Message padding: a single 1 bit, zeros up to 56 mod 64, then the
    bit length as a 64-bit little-endian integer. *)
Definition pad (msg : list byte) : list byte :=
  let len := Z.of_nat (length msg) in
  let zeros := Z.to_nat ((55 - len) mod 64) in
  msg ++ x80 :: repeat x00 zeros ++ le_bytes 8 (Z.land (8 * len) 18446744073709551615).

Fixpoint words (n : nat) (block : list byte) : list Z :=
  match n with
  | O => []
  | S n' => le_word (firstn 4 block) :: words n' (skipn 4 block)
  end.

Record state := State { sA : Z; sB : Z; sC : Z; sD : Z }.

Definition init : state :=
  State 1732584193 4023233417 2562383102 271733878.

Definition round (M : list Z) (st : state) (i : nat) : state :=
  let '(State a b c d) := st in
  let iz := Z.of_nat i in
  let '(f, g) :=
    if iz <? 16 then (Z.lor (Z.land b c) (Z.land (not32 b) d), iz)
    else if iz <? 32 then (Z.lor (Z.land d b) (Z.land (not32 d) c), (5 * iz + 1) mod 16)
    else if iz <? 48 then (Z.lxor (Z.lxor b c) d, (3 * iz + 5) mod 16)
    else (Z.lxor c (Z.lor b (not32 d)), (7 * iz) mod 16) in
  let f' := add32 (add32 (add32 f a) (nth i K 0)) (nth (Z.to_nat g) M 0) in
  State d (add32 b (rotl32 f' (nth i shift_amounts 0))) b c.

Definition compress (st : state) (block : list byte) : state :=
  let M := words 16 block in
  let st' := fold_left (round M) (seq 0 64) st in
  State (add32 (sA st) (sA st')) (add32 (sB st) (sB st'))
        (add32 (sC st) (sC st')) (add32 (sD st) (sD st')).

Fixpoint blocks (n : nat) (bs : list byte) (st : state) : state :=
  match n with
  | O => st
  | S n' => blocks n' (skipn 64 bs) (compress st (firstn 64 bs))
  end.

(** [md5 data] is [hashlib.md5(data).digest()]. *)
Definition md5 (msg : list byte) : list byte :=
  let p := pad msg in
  let st := blocks (length p / 64)%nat p init in
  le_bytes 4 (sA st) ++ le_bytes 4 (sB st) ++ le_bytes 4 (sC st) ++ le_bytes 4 (sD st).

(** A hash object is the data fed so far: [update] is documented as
    equivalent to one call on the concatenation of all the arguments. *)
Definition hash_obj : Type := list byte.

Definition new : hash_obj := [].

Definition update (h : hash_obj) (data : list byte) : hash_obj := h ++ data.

Definition digest (h : hash_obj) : list byte := md5 h.

Definition hexdigit (z : Z) : ascii :=
  ascii_of_nat (Z.to_nat (if z <? 10 then 48 + z else 87 + z)).

Fixpoint hexdigest_of (bs : list byte) : string :=
  match bs with
  | [] => EmptyString
  | b :: bs' =>
      String (hexdigit (byteZ b / 16)) (String (hexdigit (byteZ b mod 16)) (hexdigest_of bs'))
  end.

End Hashlib.

(** ** base64.b64encode *)

Module Base64.

Definition alphabet : string :=
  "ABCDEFGHIJKLMNOPQRSTUVWXYZabcdefghijklmnopqrstuvwxyz0123456789+/".

Definition sextet (z : Z) : ascii :=
  match String.get (Z.to_nat (Z.land z 63)) alphabet with
  | Some c => c
  | None => "="%char
  end.

Fixpoint b64encode (bs : list byte) : string :=
  match bs with
  | [] => EmptyString
  | [a] =>
      let n := Hashlib.byteZ a * 65536 in
      String (sextet (Z.shiftr n 18)) (String (sextet (Z.shiftr n 12)) "==")
  | [a; b] =>
      let n := Hashlib.byteZ a * 65536 + Hashlib.byteZ b * 256 in
      String (sextet (Z.shiftr n 18)) (String (sextet (Z.shiftr n 12))
        (String (sextet (Z.shiftr n 6)) "="))
  | a :: b :: c :: rest =>
      let n := Hashlib.byteZ a * 65536 + Hashlib.byteZ b * 256 + Hashlib.byteZ c in
      String (sextet (Z.shiftr n 18)) (String (sextet (Z.shiftr n 12))
        (String (sextet (Z.shiftr n 6)) (String (sextet n) (b64encode rest))))
  end.

End Base64.

Definition bytes_of (s : string) : list byte := list_byte_of_string s.

(** ** Python values, exceptions and strings *)

Module Py.

Inductive exn_class :=
| AssertionError | ValueError | TypeError | KeyError | IndexError
| FileNotFoundError | OSError | EOFError | ClientResponseError
| KeyboardInterrupt | SystemExit | CancelledError.

#[global] Instance exn_class_eq_dec : EqDecision exn_class.
Proof. solve_decision. Defined.

(** An exception object: its class and [str(ex)]. *)
Record exn := Exn { exn_class_of : exn_class; str : string }.

(** [KeyboardInterrupt], [SystemExit] and [asyncio.CancelledError] derive
    from [BaseException] only, so an [except Exception] clause lets them
    through. *)
Definition is_Exception (e : exn) : bool :=
  match exn_class_of e with
  | KeyboardInterrupt | SystemExit | CancelledError => false
  | _ => true
  end.

(** State and exceptions: a statement runs in a state and either raises or
    returns, keeping the effects it had until then. *)
Definition M (St A : Type) : Type := St → (exn + A) * St.

Definition ret {St A} (a : A) : M St A := λ s, (inr a, s).

Definition bind {St A B} (c : M St A) (k : A → M St B) : M St B :=
  λ s, match c s with
       | (inl e, s') => (inl e, s')
       | (inr a, s') => k a s'
       end.

Definition raise {St A} (e : exn) : M St A := λ s, (inl e, s).

Definition gets {St A} (f : St → A) : M St A := λ s, (inr (f s), s).

Definition modify {St} (f : St → St) : M St unit := λ s, (inr tt, f s).

Definition lift {St A} (r : exn + A) : M St A :=
  match r with
  | inl e => raise e
  | inr a => ret a
  end.

(** [try: body except Exception as ex: handler(ex)]. *)
Definition try_except {St A} (body : M St A) (handler : exn → M St A) : M St A :=
  λ s, match body s with
       | (inl e, s') => if is_Exception e then handler e s' else (inl e, s')
       | r => r
       end.

(** [assert cond, msg]. *)
Definition assert {St} (cond : bool) (msg : string) : M St unit :=
  if cond then ret tt else raise (Exn AssertionError msg).

#[global] Instance M_ret {St} : MRet (M St) := λ A, @ret St A.
#[global] Instance M_bind {St} : MBind (M St) := λ A B k c, @bind St A B c k.

(** [for x in xs: body(x)], the loop variable state threaded by hand. *)
Fixpoint for_each {St A} (xs : list A) (body : A → M St unit) : M St unit :=
  match xs with
  | [] => ret tt
  | x :: xs' => bind (body x) (λ _, for_each xs' body)
  end.

(** [sub in s]. *)
Definition contains (sub s : string) : bool :=
  match String.index 0 sub s with
  | Some _ => true
  | None => false
  end.

(** [s.find(sub)]: the lowest index, or -1. *)
Definition find (s sub : string) : Z :=
  match String.index 0 sub s with
  | Some i => Z.of_nat i
  | None => if String.eqb sub EmptyString then 0 else -1
  end.

(** [s[k:]], a negative [k] counting from the end. *)
Definition slice_from (s : string) (k : Z) : string :=
  let len := Z.of_nat (String.length s) in
  let start := if k <? 0 then Z.max 0 (len + k) else Z.min k len in
  String.substring (Z.to_nat start) (String.length s) s.

(** A [string] stands for a [str] whose code points are below 256.
    [c.lower()]: the letters A to Z, and the capital letters of Latin-1
    (U+00C0 to U+00DE without the multiplication sign). *)
Definition lower_char (c : ascii) : ascii :=
  let n := nat_of_ascii c in
  if ((65 <=? n)%nat && (n <=? 90)%nat
      || (192 <=? n)%nat && (n <=? 222)%nat && negb (n =? 215)%nat)%bool
  then ascii_of_nat (n + 32) else c.

Fixpoint lower (s : string) : string :=
  match s with
  | EmptyString => EmptyString
  | String c s' => String (lower_char c) (lower s')
  end.

(** [repr(s)] of a [str]: the string in single quotes, or in double quotes
    when it holds a single quote and no double one; the quote and the
    backslash are escaped, tab, newline and carriage return are written
    with their letters, and every other character that is not printable
    as [\xNN]. *)
Definition double_quote : ascii := ascii_of_nat 34.

Definition printable (n : nat) : bool :=
  ((32 <=? n)%nat && (n <? 127)%nat || (161 <=? n)%nat && negb (n =? 173)%nat)%bool.

Definition repr_char (quote c : ascii) : string :=
  let n := nat_of_ascii c in
  if (Ascii.eqb c quote || Ascii.eqb c "\")%bool then String "\" (String c EmptyString)
  else if (n =? 9)%nat then "\t"
  else if (n =? 10)%nat then "\n"
  else if (n =? 13)%nat then "\r"
  else if printable n then String c EmptyString
  else String "\" (String "x"
         (String (Hashlib.hexdigit (Z.of_nat (n / 16)))
            (String (Hashlib.hexdigit (Z.of_nat (n mod 16))) EmptyString))).

Fixpoint repr_body (quote : ascii) (s : string) : string :=
  match s with
  | EmptyString => String quote EmptyString
  | String c s' => repr_char quote c +:+ repr_body quote s'
  end.

Definition repr (s : string) : string :=
  let quote :=
    if (contains "'" s && negb (contains (String double_quote EmptyString) s))%bool
    then double_quote else "'"%char in
  String quote (repr_body quote s).

(** [s.replace(a, b)] for one-character [a] and [b]. *)
Fixpoint replace_char (a b : ascii) (s : string) : string :=
  match s with
  | EmptyString => EmptyString
  | String c s' => String (if Ascii.eqb c a then b else c) (replace_char a b s')
  end.

(** [s.split(sep)] for a one-character separator; [cur] is the piece
    being read. *)
Fixpoint split_from (sep : ascii) (cur : string) (s : string) : list string :=
  match s with
  | EmptyString => [cur]
  | String c s' =>
      if Ascii.eqb c sep then cur :: split_from sep EmptyString s'
      else split_from sep (cur +:+ String c EmptyString) s'
  end.

Definition split (sep : ascii) (s : string) : list string := split_from sep EmptyString s.

(** [xs[k]] with Python's negative indices. *)
Definition index {St A} (xs : list A) (k : Z) : M St A :=
  let n := Z.of_nat (length xs) in
  let i := if k <? 0 then n + k else k in
  if ((0 <=? i) && (i <? n))%bool then
    match xs !! Z.to_nat i with
    | Some x => ret x
    | None => raise (Exn IndexError "list index out of range")
    end
  else raise (Exn IndexError "list index out of range").

End Py.

(** ** Binary file objects *)

Module FileObj.

Record file := File { content : list byte; pos : nat }.

Definition remaining (f : file) : list byte := drop (pos f) (content f).

(** [f.read(size)]: up to [size] bytes from the current position, all the
    rest when [size] is -1.  A size below -1 is read like -1, which is what
    [io.BytesIO] and the buffered files of fsspec do; a file object of
    [open(path, "rb")] raises [ValueError] there instead.  The program
    itself reads with 4096, with 5 MiB and with no size. *)
Definition read (size : Z) (f : file) : list byte * file :=
  let rest := remaining f in
  let data := if size <? 0 then rest else take (Z.to_nat size) rest in
  (data, File (content f) (pos f + length data)).

Definition seek (offset : nat) (f : file) : file := File (content f) offset.

Definition inspect {A} (a : A) : {b | a = b} := exist _ a eq_refl.

(** [iter(lambda: f.read(size), bytes())] run to exhaustion: the blocks read
    until the first empty one, and the file object afterwards. *)
Equations? iter_read (size : Z) (f : file) : list (list byte) * file
  by wf (length (remaining f)) lt :=
  iter_read size f with inspect (read size f) := {
    | exist _ ([], f') _ => ([], f');
    | exist _ (b :: chunk, f') Heq =>
        let r := iter_read size f' in ((b :: chunk) :: r.1, r.2) }.
Proof.
  clear iter_read. revert Heq. unfold read, remaining. intros [= Hd <-]. simpl.
  rewrite <- drop_drop. set (rest := drop (pos f) (content f)) in *.
  rewrite Hd, length_drop.
  assert (length (b :: chunk) ≤ length rest)%nat.
  { rewrite <- Hd. destruct (size <? 0); [done|]. rewrite length_take. lia. }
  simpl in *. lia.
Qed.

End FileObj.

(** ** fusion/fusion_filesystem.py *)

Module FusionFilesystem.
Import Py FileObj.

(** Header dictionaries are mutable objects held by reference: the object
    store is the list of the dictionaries allocated so far, a reference is
    an index into it. *)
Abbreviation dict := (gmap string string).

Definition new_dict (d : dict) (h : list dict) : nat * list dict :=
  (length h, h ++ [d]).

(** [copy.deepcopy(d)]: a fresh object with the contents of [d]. *)
Definition deepcopy (r : nat) (h : list dict) : nat * list dict :=
  new_dict (default ∅ (h !! r)) h.

(** [d[k] = v]. *)
Definition setitem (r : nat) (k v : string) (h : list dict) : list dict :=
  alter (insert k v) r h.

Definition DEFAULT_CHUNK_SIZE : Z := 5 * 2 ^ 20.

(** The variables the loop of [_construct_headers] updates. *)
Record headers_loop := HeadersLoop {
  hash_md5 : Hashlib.hash_obj;
  headers_chunks : nat;
  headers_chunk_lst : list nat;
  heap : list dict
}.

Definition digest_header (h : Hashlib.hash_obj) : string :=
  "md5=" +:+ Base64.b64encode (Hashlib.digest h).

(** One iteration of [for i, chunk in enumerate(iter(...))]. *)
Definition headers_step (st : headers_loop) (chunk : list byte) : headers_loop :=
  let hash_md5_chunk := Hashlib.update Hashlib.new chunk in
  let hash_md5' := Hashlib.update (hash_md5 st) chunk in
  let '(copy, h) := deepcopy (headers_chunks st) (heap st) in
  let h := setitem copy "Digest" (digest_header hash_md5') h in
  HeadersLoop hash_md5' copy (headers_chunk_lst st ++ [copy]) h.

Definition _construct_headers {U : Type} (file_local : file) (dt_iso : string) (url : U)
    (operation_id : option string) (chunk_size : Z) (h : list dict)
  : (nat * list nat) * file * list dict :=
  let '(headers, h) :=
    new_dict (<["Content-Type" := "application/octet-stream"]>
             (<["x-jpmc-distribution-created-date" := dt_iso]>
             (<["x-jpmc-distribution-from-date" := dt_iso]>
             (<["x-jpmc-distribution-to-date" := dt_iso]>
             (<["Digest" := EmptyString]> ∅))))) h in
  let '(headers_chunks0, h) :=
    new_dict (<["Content-Type" := "application/octet-stream"]>
             (<["Digest" := EmptyString]> ∅)) h in
  let '(chunks, file_local) := iter_read chunk_size file_local in
  let st := fold_left headers_step chunks (HeadersLoop Hashlib.new headers_chunks0 [] h) in
  let file_local := seek 0 file_local in
  let h := setitem headers "Digest" (digest_header (hash_md5 st)) (heap st) in
  ((headers, headers_chunk_lst st), file_local, h).

(** *** The HTTP session *)

Inductive body :=
| NoBody
| Bytes (data : list byte)
| Parts (n : nat).

(** A request as it goes on the wire; the headers are the contents of the
    header dictionary when the request is made. *)
Record request := Request {
  rq_method : string;
  rq_url : string;
  rq_headers : option dict;
  rq_data : body
}.

Record response := Response {
  status : Z;
  json : exn + dict
}.

(** The session and the URL helpers come from other modules ([get_client],
    [urllib.parse.urljoin], [pandas.Timestamp]). *)
Class Session := {
  root_url : string;
  urljoin : string → string → string;
  timestamp_strftime : string → exn + string;
  send : request → response
}.

(** The state of one [put]: the local file object, the object store and
    the requests made so far. *)
Record pst := Pst {
  p_file : file;
  p_heap : list dict;
  p_sent : list request
}.

(** What [asyncio.gather] may be handed.  Calling an [async def] function
    whose body contains [yield] gives an async generator object and runs
    none of its body. *)
Inductive awaitable (A : Type) :=
| Coroutine (run : M pst A)
| AsyncGenerator (items : M pst (list A)).
Arguments Coroutine {A} run.
Arguments AsyncGenerator {A} items.

Definition is_awaitable {A} (a : awaitable A) : bool :=
  match a with
  | Coroutine _ => true
  | AsyncGenerator _ => false
  end.

Fixpoint run_all {A} (aws : list (awaitable A)) : M pst (list A) :=
  match aws with
  | [] => ret []
  | Coroutine c :: rest => bind c (λ a, bind (run_all rest) (λ r, ret (a :: r)))
  | AsyncGenerator _ :: rest => run_all rest
  end.

(** [await asyncio.gather(aws...)].  Every argument is passed to
    [ensure_future] first, which raises [TypeError] for an object that is
    neither a future, nor a coroutine, nor an awaitable. *)
Definition asyncio_gather {A} (aws : list (awaitable A)) : M pst (list A) :=
  if forallb is_awaitable aws then run_all aws
  else raise (Exn TypeError "An asyncio.Future, a coroutine or an awaitable is required").

Section WithSession.
Context `{Session}.

Definition _decorate_url (url : string) : string :=
  if negb (contains "http" url) then urljoin (root_url +:+ "catalogs/") url else url.

(** [async with session.<method>(url, data=..., headers=...) as resp]. *)
Definition http (method url : string) (headers : option nat) (data : body) : M pst response :=
  λ s,
    let rq := Request method url (hd ← headers; p_heap s !! hd) data in
    (inr (send rq), Pst (p_file s) (p_heap s) (p_sent s ++ [rq])).

(** [self._raise_not_found_for_status(resp, url)] of fsspec. *)
Definition _raise_not_found_for_status (resp : response) (url : string) : M pst unit :=
  if status resp =? 404 then raise (Exn FileNotFoundError url)
  else if 400 <=? status resp then raise (Exn ClientResponseError url)
  else ret tt.

(** The body of the async generator [put_data]: the requests it would
    yield if it were iterated.  [i] is set to 0 and never advanced. *)
Definition put_data (rpath : string) (chunk_size : option Z) (method : string)
    (operation_id : string) (chunk_headers_lst : list nat) : M pst (list request) :=
  match chunk_size with
  | None | Some 0 => ret []
  | Some size =>
      f ← gets p_file;
      let '(chunks, f') := iter_read size f in
      _ ← modify (λ s, Pst f' (p_heap s) (p_sent s));
      mapM (λ chunk,
              let i := 0%nat in
              let url := rpath +:+ "/operations/upload?operationId=" +:+ operation_id
                               +:+ "&partNumber=" +:+ pretty (i + 1)%nat in
              hdr ← index chunk_headers_lst (Z.of_nat i);
              h ← gets p_heap;
              mret (Request method url (h !! hdr) (Bytes chunk))) chunks
  end.

Definition _put_file (rpath : string) (chunk_size : option Z) (method : string)
    (multipart : bool) (headers : nat) (chunk_headers_lst : list nat) : M pst unit :=
  let method := lower method in
  if negb (bool_decide (method ∈ ["post"; "put"])) then
    raise (Exn ValueError ("method has to be either 'post' or 'put', not: " +:+ repr method))
  else if negb multipart then
    f ← gets p_file;
    let '(data, f') := read (-1) f in
    _ ← modify (λ s, Pst f' (p_heap s) (p_sent s));
    resp ← http method rpath (Some headers) (Bytes data);
    _raise_not_found_for_status resp rpath
  else
    resp ← http "post" (rpath +:+ "/operations?operationType=upload") None NoBody;
    _ ← _raise_not_found_for_status resp rpath;
    js ← lift (json resp);
    operation_id ← match js !! "operationId" with
                   | Some v => mret v
                   | None => raise (Exn KeyError "operationId")
                   end;
    resp ← asyncio_gather
             [AsyncGenerator (put_data rpath chunk_size method operation_id chunk_headers_lst)];
    resp ← http "post"
             (rpath +:+ "/operations?operationType=upload&operationId=" +:+ operation_id)
             (Some headers) (Parts (length resp));
    _raise_not_found_for_status resp rpath.

(** [put]: [chunk_size] reaches [_construct_headers] as its third
    positional parameter, [url]. *)
Definition put (rpath : string) (chunk_size : Z) (method : string) (multipart : bool)
  : M pst unit :=
  seg ← index (split "/" rpath) (-3);
  dt_iso ← lift (timestamp_strftime seg);
  f ← gets p_file;
  h ← gets p_heap;
  let '((headers, chunk_headers_lst), f', h') :=
    _construct_headers f dt_iso chunk_size None DEFAULT_CHUNK_SIZE h in
  _ ← modify (λ s, Pst f' h' (p_sent s));
  let rpath := _decorate_url rpath in
  if multipart then _put_file rpath (Some chunk_size) method multipart headers chunk_headers_lst
  else _put_file rpath None method multipart headers [].

End WithSession.

End FusionFilesystem.

(** ** fusion/fs_sync.py *)

Module FsSync.
Import Py FileObj.

Definition VERBOSE_LVL : Z := 25.
Definition DEFAULT_CHUNK_SIZE : Z := 2 ^ 16.

(** *** Frames *)

(** A row of the local frame, columns [path], [url], [md5]; a cell is
    [None] where pandas has a null. *)
Record local_row := LocalRow {
  l_path : option string;
  l_url : option string;
  l_md5 : option string
}.

(** A row of the remote frame, columns [path], [url], [size], [md5]. *)
Record fusion_row := FusionRow {
  f_path : string;
  f_url : string;
  f_size : Z;
  f_md5 : string
}.

#[global] Instance local_row_eq_dec : EqDecision local_row.
Proof. solve_decision. Defined.

#[global] Instance fusion_row_eq_dec : EqDecision fusion_row.
Proof. solve_decision. Defined.

(** The columns [merge] and the executors read from a frame. *)
Class Row (A : Type) := {
  row_path : A → option string;
  row_url : A → option string;
  row_md5 : A → option string
}.

#[global] Instance local_Row : Row local_row :=
  {| row_path := l_path; row_url := l_url; row_md5 := l_md5 |}.

#[global] Instance fusion_Row : Row fusion_row :=
  {| row_path := λ r, Some (f_path r);
     row_url := λ r, Some (f_url r);
     row_md5 := λ r, Some (f_md5 r) |}.

(** The dtype of the columns of a frame.  It shows where a frame has no
    row: a frame made of empty lists has [float64] columns; a frame made
    with the names of its columns alone, or one that lost its rows to a
    filter, has [object] columns, like every frame that holds strings. *)
Inductive dtype := float64 | object.

#[global] Instance dtype_eq_dec : EqDecision dtype.
Proof. solve_decision. Defined.

Definition dtype_name (d : dtype) : string :=
  match d with
  | float64 => "float64"
  | object => "object"
  end.

(** A frame: the dtype of its columns, and its rows. *)
Record frame (A : Type) := Frame { df_dtype : dtype; df_rows : list A }.
Arguments Frame {A} df_dtype df_rows.
Arguments df_dtype {A} f.
Arguments df_rows {A} f.

#[global] Instance frame_eq_dec {A} `{EqDecision A} : EqDecision (frame A).
Proof. solve_decision. Defined.

(** An operation on the rows, which keeps the columns as they are. *)
Definition on_rows {A} (f : list A → list A) (df : frame A) : frame A :=
  Frame (df_dtype df) (f (df_rows df)).

(** The rows of a local frame keep their index labels: [sort_values] and
    [drop_duplicates] carry them along and [equals] compares them. *)
Abbreviation indexed_rows := (list (nat * local_row)).
Abbreviation local_frame := (frame (nat * local_row)).
Abbreviation fusion_frame := (frame fusion_row).

(** [pd.DataFrame()] or a scanned local frame. *)
Inductive dataframe :=
| EmptyDataFrame
| LocalState (df : local_frame).

#[global] Instance dataframe_eq_dec : EqDecision dataframe.
Proof. solve_decision. Defined.

(** A row of a merged frame: the columns of the left frame and those of the
    right frame, one side null where the key had no match. *)
Definition joined (A B : Type) : Type := option A * option B.

Definition md5_local {A B} `{Row A} (j : joined A B) : option string := j.1 ≫= row_md5.
Definition md5_fusion {A B} `{Row B} (j : joined A B) : option string := j.2 ≫= row_md5.
Definition path_fusion {A B} `{Row B} (j : joined A B) : option string := j.2 ≫= row_path.

(** The merged key column [url]. *)
Definition url {A B} `{Row A, Row B} (j : joined A B) : option string :=
  match j with
  | (Some l, _) => row_url l
  | (None, Some r) => row_url r
  | (None, None) => None
  end.

(** [left.merge(right, on="url", how="left")]: the rows of [left] in order,
    each with every row of [right] of the same key, or alone. *)
Definition merge_left {A B} `{Row A, Row B} (left : list A) (right : list B)
  : list (joined A B) :=
  l ← left;
  match filter (λ r, row_url r = row_url l) right with
  | [] => [(Some l, None)]
  | matches => (λ r, (Some l, Some r)) <$> matches
  end.

(** [left.merge(right, on="url", how="right")]. *)
Definition merge_right {A B} `{Row A, Row B} (left : list A) (right : list B)
  : list (joined A B) :=
  r ← right;
  match filter (λ l, row_url l = row_url r) left with
  | [] => [(None, Some r)]
  | matches => (λ l, (Some l, Some r)) <$> matches
  end.

(** Element-wise [!=] on two object columns: a null on either side compares
    as different. *)
Definition ne (a b : option string) : bool :=
  match a, b with
  | Some x, Some y => negb (String.eqb x y)
  | _, _ => true
  end.

(** [join_df] of [_synchronize], for the two directions. *)
Definition join_df_upload {A B} `{Row A, Row B} (df_local : list A) (df_fusion : list B)
  : list (joined A B) :=
  List.filter (λ j, ne (md5_local j) (md5_fusion j)) (merge_left df_local df_fusion).

Definition join_df_download {A B} `{Row A, Row B} (df_local : list A) (df_fusion : list B)
  : list (joined A B) :=
  List.filter (λ j, ne (md5_local j) (md5_fusion j)) (merge_right df_local df_fusion).

(** The transfer plan [_synchronize] hands to the executor, [None] where it
    raises [ValueError]. *)
Definition join_df {A B} `{Row A, Row B} (direction : string)
    (df_local : list A) (df_fusion : list B) : option (list (joined A B)) :=
  if String.eqb direction "upload" then Some (join_df_upload df_local df_fusion)
  else if String.eqb direction "download" then Some (join_df_download df_local df_fusion)
  else None.

(** The logical keys of a plan. *)
Definition keys {A B} `{Row A, Row B} (plan : list (joined A B)) : list (option string) :=
  url <$> plan.

(** The rows of [DataFrame([a, b, c]).T] with columns [path], [url], [md5]:
    row [i] holds the [i]-th element of each list, null where the list is
    shorter. *)
Definition rows_of_columns (a b c : list string) : indexed_rows :=
  (λ i, (i, LocalRow (a !! i) (b !! i) (c !! i)))
    <$> seq 0 (length a `max` (length b `max` length c)).

(** [DataFrame([a, b, c]).T]: of three empty lists it has no row and
    [float64] columns. *)
Definition frame_of_columns (a b c : list string) : local_frame :=
  let rows := rows_of_columns a b c in
  Frame (if (length rows =? 0)%nat then float64 else object) rows.

(** [len(df) == 0]. *)
Definition no_rows {A} (df : frame A) : bool := (length (df_rows df) =? 0)%nat.

(** The check [merge] makes of the key columns before it joins
    ([_maybe_coerce_merge_keys] of pandas): where one side alone has no row
    the key columns are not compared; otherwise a [float64] key column and
    an [object] key column are refused with a [ValueError]. *)
Definition merge_refused {A B} (left : frame A) (right : frame B) : bool :=
  (negb (xorb (no_rows left) (no_rows right))
   && negb (bool_decide (df_dtype left = df_dtype right)))%bool.

Definition check_merge_keys {St A B} (left : frame A) (right : frame B) : M St unit :=
  if merge_refused left right then
    raise (Exn ValueError
             ("You are trying to merge on " +:+ dtype_name (df_dtype left) +:+ " and "
              +:+ dtype_name (df_dtype right)
              +:+ " columns for key 'url'. If you wish to proceed you should use pd.concat"))
  else ret tt.

(** [df.url.str.split("/").str[-1] == dataset_format]. *)
Definition has_format (dataset_format : string) (row : nat * local_row) : bool :=
  match l_url row.2 with
  | Some u => bool_decide (last (split "/" u) = Some dataset_format)
  | None => false
  end.

(** Order of the [path] column, nulls last. *)
Definition path_le (a b : option string) : bool :=
  match a, b with
  | Some x, Some y => String.leb x y
  | Some _, None => true
  | None, Some _ => false
  | None, None => true
  end.

Fixpoint insert_sorted (r : nat * local_row) (l : indexed_rows) : indexed_rows :=
  match l with
  | [] => [r]
  | x :: l' => if path_le (l_path r.2) (l_path x.2) then r :: l else x :: insert_sorted r l'
  end.

(** [df.sort_values("path")]; rows of equal path keep their order. *)
Definition sort_values (df : indexed_rows) : indexed_rows := foldr insert_sorted [] df.

Fixpoint drop_duplicates_from (seen : list local_row) (df : indexed_rows) : indexed_rows :=
  match df with
  | [] => []
  | x :: df' =>
      if bool_decide (x.2 ∈ seen) then drop_duplicates_from seen df'
      else x :: drop_duplicates_from (x.2 :: seen) df'
  end.

(** [df.drop_duplicates()]: the first of every group of equal rows. *)
Definition drop_duplicates (df : indexed_rows) : indexed_rows := drop_duplicates_from [] df.

(** [a.equals(b)]: the same columns, of the same dtype, with the same index
    and the same rows. *)
Definition equals (a b : dataframe) : bool := bool_decide (a = b).

(** *** The content digest *)

(** The loop of [_generate_md5_token], the size of the blocks a parameter. *)
Definition md5_token_of_blocks (block_size : Z) (file : file) : string :=
  let '(chunks, _) := iter_read block_size file in
  let hash_md5 :=
    fold_left (λ hash_md5 chunk,
                 let hash_md5_chunk := Hashlib.update Hashlib.new chunk in
                 Hashlib.update hash_md5 chunk) chunks Hashlib.new in
  Base64.b64encode (Hashlib.digest hash_md5).

(** *** Outcomes, events, the world *)

(** [(succeeded, path, message)]. *)
Definition outcome : Type := bool * string * option string.

Definition succeeded (o : outcome) : bool := o.1.1.

(** The calls made to the filesystems, the catalog and the operator. *)
Inductive event :=
| EvCat (url : string)
| EvExists (path : string)
| EvMkdir (path : string)
| EvFind (dir : string)
| EvOpen (path : string)
| EvValidate (paths : list string)
| EvFusionDf (datasets : list string)
| EvGet (url path : string)
| EvUploadFiles (urls : list (option string))
| EvSleep (seconds : Z)
| EvInput (prompt : string).

(** The local filesystem, the remote catalog and the helpers of
    [fusion.utils], [os.path] and [pathlib], over a state of the world [W]. *)
Class World (W : Type) := {
  fs_exists : W → string → bool;
  fs_mkdir : string → W → (exn + unit) * W;
  fs_find : W → string → list string;
  fs_open : W → string → exn + list byte;
  validate_file_names : W → list string → exn + list bool;
  path_to_url : string → exn + string;
  relpath : string → string → string;
  path_parent : string → string;
  cat_resources : W → string → exn + list string;
  fusion_get : string → string → W → (exn + unit) * W;
  upload_files : list (joined local_row fusion_row) → bool → W → (exn + list outcome) * W;
  _get_fusion_df : W → list string → string → bool → option string → exn + fusion_frame
}.

(** What happens at a prompt: the operator types a line, or reading the
    line raises. *)
Inductive typed :=
| Line (text : string)
| Fails (e : exn).

(** The operator interrupts the prompt. *)
Definition CtrlC : typed := Fails (Exn KeyboardInterrupt EmptyString).

(** The state [fsync] runs in: the world, the list objects allocated so far
    (a reference is an index), the calls made, and what the operator will
    type. *)
Record st (W : Type) := St {
  world : W;
  lists : list (list string);
  trace : list event;
  stdin : list typed
}.
Arguments St {W} world lists trace stdin.
Arguments world {W} s.
Arguments lists {W} s.
Arguments trace {W} s.
Arguments stdin {W} s.

Section WithWorld.
Context {W : Type} `{World W}.

Definition emit (ev : event) : M (st W) unit :=
  modify (λ s, St (world s) (lists s) (trace s ++ [ev]) (stdin s)).

(** A call that only reads the world. *)
Definition query {A} (ev : event) (f : W → exn + A) : M (st W) A :=
  _ ← emit ev;
  w ← gets world;
  lift (f w).

(** A call that changes the world. *)
Definition command {A} (ev : event) (f : W → (exn + A) * W) : M (st W) A :=
  bind (emit ev)
       (λ _ s, let '(r, w) := f (world s) in (r, St w (lists s) (trace s) (stdin s))).

(** [os.path.join(a, b)] on POSIX. *)
Definition os_path_join (a b : string) : string :=
  if String.prefix "/" b then b
  else if (String.eqb a EmptyString || String.eqb (slice_from a (-1)) "/")%bool then a +:+ b
  else a +:+ "/" +:+ b.

Definition _get_loop {A} (df : list A) (show_progress : bool) : list A := df.

Definition _download_files (row : joined local_row fusion_row) : M (st W) outcome :=
  match path_fusion row with
  | None => raise (Exn TypeError "expected str, bytes or os.PathLike object")
  | Some p_path =>
      there ← query (EvExists p_path) (λ w, inr (fs_exists w p_path));
      _ ← (if negb there then
             try_except (command (EvMkdir (path_parent p_path)) (fs_mkdir (path_parent p_path)))
                        (λ ex, mret tt)
           else mret tt);
      try_except
        (match url row with
         | None => raise (Exn TypeError "expected str")
         | Some u =>
             _ ← command (EvGet u p_path) (fusion_get u p_path);
             mret (true, p_path, None)
         end)
        (λ ex, let msg := str ex in mret (false, p_path, Some msg))
  end.

(** [Parallel(n_jobs=n_par)] returns the results in the order of the tasks.
    In which order the workers of joblib make the calls of several tasks,
    and what they still do once a task has raised, the program does not
    fix; here the tasks are run one after the other, as joblib runs them
    with one worker. *)
Definition _download (df : list (joined local_row fusion_row)) (show_progress : bool)
  : M (st W) (list outcome) :=
  let loop := _get_loop df show_progress in
  if (1 <? length df)%nat then mapM _download_files loop
  else mapM _download_files loop.

Definition _upload (df : list (joined local_row fusion_row)) (show_progress : bool)
  : M (st W) (list outcome) :=
  let loop := _get_loop df show_progress in
  let parallel := (1 <? length df)%nat in
  command (EvUploadFiles (url <$> loop)) (upload_files loop parallel).

Definition _generate_md5_token (path : string) : M (st W) string :=
  content ← query (EvOpen path) (λ w, fs_open w path);
  mret (md5_token_of_blocks 4096 (File content 0)).

(** One iteration of [for local_dir in local_dirs]; the pair is
    [(local_files, local_files_rel)]. *)
Definition local_dir_step (acc : list string * list string) (local_dir : string)
  : M (st W) (list string * list string) :=
  let local_files_rel := acc.2 in
  there ← query (EvExists local_dir) (λ w, inr (fs_exists w local_dir));
  _ ← (if negb there then command (EvMkdir local_dir) (fs_mkdir local_dir) else mret tt);
  local_files ← query (EvFind local_dir) (λ w, inr (fs_find w local_dir));
  let local_rel_path := (λ i, slice_from i (find i local_dir)) <$> local_files in
  local_file_validation ←
    query (EvValidate local_rel_path) (λ w, validate_file_names w local_rel_path);
  let local_files :=
    local_files ++ (snd <$> List.filter fst (zip local_file_validation local_files)) in
  let local_files_rel :=
    local_files_rel ++
    ((λ i, replace_char "\" "/" (os_path_join local_dir (relpath i local_dir)))
       <$> local_files) in
  mret (local_files, local_files_rel).

Fixpoint for_dirs (local_dirs : list string) (acc : list string * list string)
  : M (st W) (list string * list string) :=
  match local_dirs with
  | [] => mret acc
  | local_dir :: rest => acc' ← local_dir_step acc local_dir; for_dirs rest acc'
  end.

Definition truthy (s : option string) : bool :=
  match s with
  | Some (String _ _) => true
  | _ => false
  end.

Definition _get_local_state (datasets : list string) (catalog : string)
    (dataset_format : option string) : M (st W) local_frame :=
  let local_dirs :=
    if (0 <? length datasets)%nat then (λ i, catalog +:+ "/" +:+ i) <$> datasets
    else [catalog] in
  '(local_files, local_files_rel) ← for_dirs local_dirs ([], []);
  local_md5 ← mapM _generate_md5_token local_files;
  local_url_eqiv ← mapM (λ i, lift (path_to_url i) : M (st W) string) local_files;
  let df_local := frame_of_columns local_files_rel local_url_eqiv local_md5 in
  let df_local :=
    match dataset_format with
    | Some fmt =>
        if (truthy dataset_format && (0 <? length (df_rows df_local))%nat)%bool
        then on_rows (List.filter (has_format fmt)) df_local else df_local
    | None => df_local
    end in
  mret (on_rows drop_duplicates (on_rows sort_values df_local)).

Definition _synchronize (df_local : local_frame) (df_fusion : fusion_frame)
    (direction : string) (show_progress : bool) : M (st W) (list outcome) :=
  if String.eqb direction "upload" then
    _ ← check_merge_keys df_local df_fusion;
    _upload (join_df_upload (snd <$> df_rows df_local) (df_rows df_fusion)) show_progress
  else if String.eqb direction "download" then
    _ ← check_merge_keys df_local df_fusion;
    _download (join_df_download (snd <$> df_rows df_local) (df_rows df_fusion)) show_progress
  else raise (Exn ValueError "Unknown direction of operation.").

(** *** [fsync] *)

Definition new_list (l : list string) : M (st W) nat :=
  λ s, (inr (length (lists s)), St (world s) (lists s ++ [l]) (trace s) (stdin s)).

Definition deref (r : nat) : M (st W) (list string) :=
  gets (λ s, default [] (lists s !! r)).

(** [l += xs] on a list object. *)
Definition extend (r : nat) (xs : list string) : M (st W) unit :=
  modify (λ s, St (world s) (alter (λ l, l ++ xs) r (lists s)) (trace s) (stdin s)).

(** [datasets = [] if not datasets else datasets]: the caller's list object
    when it is not empty, a new empty list otherwise. *)
Definition datasets_or_new (datasets : option nat) : M (st W) nat :=
  given ← match datasets with
          | Some r => deref r
          | None => mret []
          end;
  match datasets, given with
  | Some r, _ :: _ => mret r
  | _, _ => new_list []
  end.

(** The body of [for product in products]. *)
Definition expand_product (datasets : nat) (product : string) : M (st W) unit :=
  res ← query (EvCat ("common/products/" +:+ product)) (λ w, cat_resources w product);
  extend datasets res.

(** The assertions of [fsync] and the expansion of the products between
    them. *)
Definition fsync_checks (products : list string) (datasets : nat) (direction : string)
  : M (st W) unit :=
  ds ← deref datasets;
  _ ← assert ((0 <? length products)%nat || (0 <? length ds)%nat)
        "At least one list products or datasets should be non-empty.";
  _ ← assert (bool_decide (direction ∈ ["upload"; "download"]))
        "The direction must be either upload or download.";
  _ ← for_each products (expand_product datasets);
  ds ← deref datasets;
  assert (0 <? length ds)%nat "The supplied products did not contain any datasets.".

(** The statements of [fsync] before its loop, from the defaults of the
    arguments on; the set-up of the logger that precedes them is left out.
    [datasets] is a reference to the caller's list (or [None]); [products]
    is read only and passed by value.  The result is the catalog and the
    list object the loop uses. *)
Definition fsync_startup (products : option (list string)) (datasets : option nat)
    (catalog : option string) (direction : string) : M (st W) (string * nat) :=
  let catalog := if truthy catalog then default "common" catalog else "common" in
  datasets ← datasets_or_new datasets;
  let products := default [] products in
  _ ← fsync_checks products datasets direction;
  mret (catalog, datasets).

(** The statements of the [try] block of one iteration; the result is the
    new value of [local_state].  [time.sleep] is recorded as a call that
    returns. *)
Definition cycle_body (datasets : nat) (catalog direction : string) (flatten : bool)
    (dataset_format : option string) (show_progress : bool) (local_state : dataframe)
  : M (st W) dataframe :=
  ds ← deref datasets;
  local_state_temp ← _get_local_state ds catalog dataset_format;
  if negb (equals (LocalState local_state_temp) local_state) then
    fusion_state ← query (EvFusionDf ds)
                         (λ w, _get_fusion_df w ds catalog flatten dataset_format);
    res ← _synchronize local_state_temp fusion_state direction show_progress;
    if ((length res =? 0)%nat || forallb succeeded res)%bool
    then mret (LocalState local_state_temp)
    else mret local_state
  else
    _ ← emit (EvSleep 10);
    mret local_state.

(** [input(prompt)]: the line the operator types; [EOFError] where there is
    no input left; what reading the line raises otherwise, which is a
    [KeyboardInterrupt] where the operator interrupts the prompt. *)
Definition input (prompt : string) : M (st W) string :=
  bind (emit (EvInput prompt))
       (λ _ s, match stdin s with
               | [] => (inl (Exn EOFError "EOF when reading a line"), s)
               | Line text :: rest => (inr text, St (world s) (lists s) (trace s) rest)
               | Fails e :: rest => (inl e, St (world s) (lists s) (trace s) rest)
               end).

(** What one iteration of [while True] leaves: the loop goes on with a
    value of [local_state], or it was left by [break]. *)
Inductive iteration :=
| Continue (local_state : dataframe)
| Break.

(** One iteration of [while True].  What the [try] block raises goes to
    the clause [except KeyboardInterrupt], to the clause [except Exception],
    or to neither; what the prompt raises is raised inside a handler and
    leaves the loop. *)
Definition fsync_cycle (datasets : nat) (catalog direction : string) (flatten : bool)
    (dataset_format : option string) (show_progress : bool) (local_state : dataframe)
  : M (st W) iteration :=
  λ s,
    match cycle_body datasets catalog direction flatten dataset_format show_progress
            local_state s with
    | (inr local_state', s') => (inr (Continue local_state'), s')
    | (inl ex, s') =>
        if bool_decide (exn_class_of ex = KeyboardInterrupt) then
          (answer ← input "Type exit to exit: ";
           if negb (String.eqb answer "exit") then mret (Continue local_state)
           else mret Break) s'
        else if is_Exception ex then (inr (Continue local_state), s')
        else (inl ex, s')
    end.

(** What is known of a run of [fsync] after a number of iterations. *)
Inductive run :=
| Exited
| Running (local_state : dataframe).

Fixpoint fsync_loop (iterations : nat) (datasets : nat) (catalog direction : string)
    (flatten : bool) (dataset_format : option string) (show_progress : bool)
    (local_state : dataframe) : M (st W) run :=
  match iterations with
  | O => mret (Running local_state)
  | S n =>
      it ← fsync_cycle datasets catalog direction flatten dataset_format show_progress
             local_state;
      match it with
      | Continue local_state' =>
          fsync_loop n datasets catalog direction flatten dataset_format show_progress
            local_state'
      | Break => mret Exited
      end
  end.

Definition fsync (iterations : nat) (products : option (list string))
    (datasets : option nat) (catalog : option string) (direction : string)
    (flatten : bool) (dataset_format : option string) (show_progress : bool)
  : M (st W) run :=
  '(catalog, datasets) ← fsync_startup products datasets catalog direction;
  fsync_loop iterations datasets catalog direction flatten dataset_format show_progress
    EmptyDataFrame.

End WithWorld.

End FsSync.

(** ** A small concrete world *)

Module Demo.
Import Py FileObj FsSync.

(** Local files by path, the datasets of each product, and the remote
    inventory. *)
Record demo_world := DemoWorld {
  files : list (string * list byte);
  products : list (string * list string);
  remote : list fusion_row
}.

(** The one distribution whose download fails. *)
Definition unreachable (u : string) : bool := String.eqb u "common/datasets/ds/b/csv".

Fixpoint assoc {V} (k : string) (l : list (string * V)) : option V :=
  match l with
  | [] => None
  | (k', v) :: l' => if String.eqb k k' then Some v else assoc k l'
  end.

Definition strip_prefix (p s : string) : string :=
  if String.prefix p s then slice_from s (Z.of_nat (String.length p)) else s.

(** A file name is accepted when it has the form
    [dataset__catalog__date.format]. *)
Definition well_named (path : string) : bool :=
  match last (split "/" path) with
  | Some name => contains "__" name
  | None => false
  end.

Definition parent (path : string) : string :=
  match reverse (split "/" path) with
  | _ :: (_ :: _) as dirs => String.concat "/" (reverse dirs)
  | _ => "."
  end.

#[global] Instance demo_World : World demo_world := {|
  fs_exists w p :=
    (bool_decide (p ∈ (files w).*1) || existsb (String.prefix (p +:+ "/")) (files w).*1)%bool;
  fs_mkdir p w := (inr tt, w);
  fs_find w dir := List.filter (String.prefix (dir +:+ "/")) (files w).*1;
  fs_open w p :=
    match assoc p (files w) with
    | Some content => inr content
    | None => inl (Exn FileNotFoundError p)
    end;
  validate_file_names w paths := inr (well_named <$> paths);
  path_to_url p := inr p;
  relpath i dir := strip_prefix (dir +:+ "/") i;
  path_parent := parent;
  cat_resources w product :=
    match assoc product (products w) with
    | Some ids => inr ids
    | None => inl (Exn FileNotFoundError product)
    end;
  fusion_get u p w :=
    if unreachable u then (inl (Exn OSError "connection reset"), w)
    else (inr tt, DemoWorld ((p, []) :: files w) (products w) (remote w));
  upload_files rows parallel w :=
    (inr ((λ j, (true, default EmptyString (j.1 ≫= l_path), None)) <$> rows), w);
  _get_fusion_df w ds catalog flatten fmt := inr (Frame object (remote w))
|}.

Definition start (w : demo_world) (objects : list (list string)) : st demo_world :=
  St w objects [] [].

(** One dataset directory with a well-named file and a stray one. *)
Definition two_files : demo_world :=
  DemoWorld [ ("common/ds/ds__common__20240105.csv", bytes_of "a,b");
              ("common/ds/notes.txt", bytes_of "todo") ] [] [].

(** A product without datasets. *)
Definition empty_product : demo_world :=
  DemoWorld [] [("p", [])] [].

(** A product with two datasets. *)
Definition one_product : demo_world :=
  DemoWorld [] [("p", ["x"; "y"])] [].

(** Three remote distributions, the second of which cannot be fetched. *)
Definition three_remote : demo_world :=
  DemoWorld [] []
    [ FusionRow "common/ds/a.csv" "common/datasets/ds/a/csv" 3 "X";
      FusionRow "common/ds/b.csv" "common/datasets/ds/b/csv" 3 "Y";
      FusionRow "common/ds/c.csv" "common/datasets/ds/c/csv" 3 "Z" ].

#[global] Instance demo_Session : FusionFilesystem.Session := {|
  FusionFilesystem.root_url := "https://fusion-api.jpmorgan.com/fusion/v1/";
  FusionFilesystem.urljoin base rel := base +:+ rel;
  FusionFilesystem.timestamp_strftime seg := inr "2024-01-05";
  FusionFilesystem.send rq :=
    FusionFilesystem.Response 200 (inr (<["operationId" := "op1"]> ∅))
|}.

End Demo.

(** ** Vocabulary of the statements *)

Module Spec.
Import Py FileObj FusionFilesystem FsSync.

(** The header dictionary of block [i]: [base] with the digest of [pre] and
    the blocks up to [i]. *)
Definition chunk_header (base : dict) (pre : list byte) (chunks : list (list byte))
    (i : nat) (_ : list byte) : dict :=
  <["Digest" := digest_header (pre ++ concat (take (S i) chunks))]> base.

(** The upload-initiation request. *)
Definition negotiate (rpath : string) : request :=
  Request "post" (rpath +:+ "/operations?operationType=upload") None NoBody.

(** The [Digest] entry of the dictionary behind a reference. *)
Definition digest_of (h : list dict) (r : nat) : option string :=
  d ← h !! r; d !! "Digest".

(** A download task, seen from the remote row it fetches. *)
Definition fetches {A} `{Row A} (row : joined A fusion_row) (r : fusion_row) : Prop :=
  row.2 = Some r ∧ url row = Some (f_url r).

(** The transfer of a remote row raises an error with message [msg],
    whenever it is tried. *)
Definition transfer_fails {W} `{World W} (r : fusion_row) (msg : string) : Prop :=
  ∀ w, ∃ e w',
    fusion_get (f_url r) (f_path r) w = (inl e, w') ∧
    is_Exception e = true ∧ str e = msg.

Definition transfer_succeeds {W} `{World W} (r : fusion_row) : Prop :=
  ∀ w, ∃ w', fusion_get (f_url r) (f_path r) w = (inr tt, w').

(** Creating a directory raises nothing that [except Exception] lets
    through. *)
Definition mkdir_uninterrupted {W} `{World W} : Prop :=
  ∀ p w e w', fs_mkdir p w = (inl e, w') → is_Exception e = true.

(** The state after one more call was recorded. *)
Definition logged {W} (ev : event) (s : st W) : st W :=
  St (world s) (lists s) (trace s ++ [ev]) (stdin s).

(** A result batch without a failure: it is empty, or the first component
    of every outcome is [True]. *)
Definition committable (res : list outcome) : Prop :=
  res = [] ∨ Forall (λ '(ok, _, _), ok = true) res.

(** The outcome [_download_files] should report for a remote row. *)
Definition reported (failing : nat → bool) (msg : string) (j : nat) (r : fusion_row)
  : outcome :=
  if failing j then (false, f_path r, Some msg) else (true, f_path r, None).

(** The catalog lookups the expansion of a list of products makes. *)
Definition lookups (products : list string) : list event :=
  (λ p, EvCat ("common/products/" +:+ p)) <$> products.

(** The state after the products were expanded into the list object [r]. *)
Definition expanded {W} (products : list string) (ids : list string) (r : nat) (s : st W)
  : st W :=
  St (world s) (alter (λ l, l ++ ids) r (lists s)) (trace s ++ lookups products) (stdin s).

(** The segment [rpath.split("/")[-3]], when there are three segments. *)
Definition third_from_end (rpath : string) : option string :=
  let segs := split "/" rpath in
  if (3 <=? length segs)%nat then segs !! (length segs - 3)%nat else None.

(** The request of a single-shot upload. *)
Definition single_shot (method url : string) (headers : dict) (payload : list byte)
  : request :=
  Request (lower method) url (Some headers) (Bytes payload).

(** The downloads requested in a trace, in order. *)
Definition gets_of (t : list event) : list (string * string) :=
  omap (λ ev, match ev with EvGet u p => Some (u, p) | _ => None end) t.

(** The download a remote row asks for. *)
Definition task_of (r : fusion_row) : string * string := (f_url r, f_path r).

(** Every exception a call to the world raises satisfies [P]. *)
Definition world_raises {W} `{World W} (P : exn → Prop) : Prop :=
  (∀ p w e w', fs_mkdir p w = (inl e, w') → P e) ∧
  (∀ w p e, fs_open w p = inl e → P e) ∧
  (∀ w ps e, validate_file_names w ps = inl e → P e) ∧
  (∀ u p w e w', fusion_get u p w = (inl e, w') → P e) ∧
  (∀ rows par w e w', upload_files rows par w = (inl e, w') → P e) ∧
  (∀ w ds c fl fmt e, _get_fusion_df w ds c fl fmt = inl e → P e) ∧
  (∀ p e, path_to_url p = inl e → P e).

(** No call to the world raises anything that [except Exception] lets
    through. *)
Definition uninterrupted {W} `{World W} : Prop :=
  world_raises (λ e, is_Exception e = true).

(** A computation that leaves the list objects and the operator's input
    alone, and raises only exceptions that satisfy [P]. *)
Definition calm {W A} (P : exn → Prop) (c : M (st W) A) : Prop :=
  ∀ s r s', c s = (r, s') →
    lists s' = lists s ∧ stdin s' = stdin s ∧
    match r with
    | inl e => P e
    | inr _ => True
    end.

(** Two rows of a local frame in the order of their paths, nulls last. *)
Definition path_order (a b : nat * local_row) : Prop :=
  path_le (l_path a.2) (l_path b.2) = true.

End Spec.

(** ** A world in which the operator interrupts *)

Module Interrupted.
Import Py FileObj FsSync Demo.

(** A world like [demo_world], except that fetching the second distribution
    is interrupted from the keyboard. *)
Record interrupted_world := InterruptedWorld { inner : demo_world }.

#[global] Instance interrupted_World : World interrupted_world := {|
  fs_exists w p := fs_exists (inner w) p;
  fs_mkdir p w := (inr tt, w);
  fs_find w dir := fs_find (inner w) dir;
  fs_open w p := fs_open (inner w) p;
  validate_file_names w paths := validate_file_names (inner w) paths;
  path_to_url p := inr p;
  relpath i dir := strip_prefix (dir +:+ "/") i;
  path_parent := parent;
  cat_resources w product := cat_resources (inner w) product;
  fusion_get u p w :=
    if unreachable u then (inl (Exn KeyboardInterrupt EmptyString), w)
    else (inr tt, InterruptedWorld
                    (DemoWorld ((p, []) :: files (inner w)) (products (inner w))
                       (remote (inner w))));
  upload_files rows parallel w :=
    (inr ((λ j, (true, default EmptyString (j.1 ≫= l_path), None)) <$> rows), w);
  _get_fusion_df w ds catalog flatten fmt := inr (Frame object (remote (inner w)))
|}.

End Interrupted.

(** ** The remote inventory *)

Module FusionDf.
Import Py FsSync.

(** Computations that return or raise, without a state. *)
Definition result (A : Type) : Type := exn + A.

#[global] Instance result_ret : MRet result := λ A x, inr x.

#[global] Instance result_bind : MBind result :=
  λ A B k x, match x with
             | inl e => inl e
             | inr a => k a
             end.

(** [xs[k]] for a literal index [k] that is not negative. *)
Definition item {A} (xs : list A) (k : nat) : result A :=
  match xs !! k with
  | Some x => inr x
  | None => inl (Exn IndexError "list index out of range")
  end.

(** [s.replace(old, new)] for a non-empty [old]: the occurrences of [old]
    are found from the left and do not overlap.  [skip] counts the
    characters of an occurrence that are still to be passed over. *)
Fixpoint replace_from (old new : string) (skip : nat) (s : string) : string :=
  match s with
  | EmptyString => EmptyString
  | String c s' =>
      match skip with
      | S k => replace_from old new k s'
      | O =>
          if String.prefix old s
          then new +:+ replace_from old new (String.length old - 1) s'
          else String c (replace_from old new 0 s')
      end
  end.

Definition replace (old new s : string) : string := replace_from old new 0 s.

(** [s.split(sep)] for a non-empty [sep] of any length; [cur] is the piece
    being read. *)
Fixpoint split_str_from (sep : string) (skip : nat) (cur : string) (s : string)
  : list string :=
  match s with
  | EmptyString => [cur]
  | String c s' =>
      match skip with
      | S k => split_str_from sep k cur s'
      | O =>
          if String.prefix sep s
          then cur :: split_str_from sep (String.length sep - 1) EmptyString s'
          else split_str_from sep 0 (cur +:+ String c EmptyString) s'
      end
  end.

Definition split_str (sep s : string) : list string :=
  split_str_from sep 0 EmptyString s.

(** One entry of the [distributions] of a change set: its [key] and its
    [values], taken as strings. *)
Record distribution := Distribution {
  key : string;
  values : list string
}.

(** What [_get_fusion_df] calls: [fs_fusion.info(path)["changes"]["datasets"]]
    with each change set given by its [distributions], the built-in [int],
    and [distribution_to_filename] of [fusion.utils]. *)
Class Remote := {
  info_changes : string → result (list (list distribution));
  py_int : string → result Z;
  distribution_to_filename : string → string → string → string → string → result string
}.

(** The three list comprehensions that turn the key of a distribution into
    its URL. *)
Definition url_of_key (catalog key : string) : string :=
  let i := catalog +:+ "/datasets/" +:+ String.concat "/" (split "." key) in
  let i := replace "distribution" "distributions" i in
  if negb (contains "datasetseries" i) then
    String.concat "/" (take 3 (split "/" i) ++ ["datasetseries"] ++ drop 3 (split "/" i))
  else i.

(** [v.split("md5=")[-1]]; a split has at least one piece. *)
Definition md5_of_value (v : string) : string :=
  default EmptyString (last (split_str "md5=" v)).

(** ["/".join(k.split("/")[:2] + k.split("/")[-1:])]. *)
Definition flatten_key (k : string) : string :=
  let segs := split "/" k in
  String.concat "/" (take 2 segs ++ drop (length segs - 1) segs).

(** [pd.DataFrame([keys, urls, sz, md]).T] for four lists of one length, as
    they are here: one row for each position. *)
Definition frame_rows (keys urls : list string) (sz : list Z) (md : list string)
  : list fusion_row :=
  zip_with (λ ku sm, FusionRow ku.1 ku.2 sm.1 sm.2) (zip keys urls) (zip sz md).

(** A name that can stand for one part of a key and one segment of a URL:
    without a slash or a dot, and without the two words the comprehensions
    look for. *)
Definition plain (x : string) : Prop :=
  contains "/" x = false ∧ contains "." x = false ∧
  contains "distribution" x = false ∧ contains "datasetseries" x = false.

Section WithRemote.
Context `{Remote}.

Definition _url_to_path (x : string) : result string :=
  let segs := split "/" x in
  dataset ← item segs 2;
  series ← item segs 4;
  file_format ← item segs 6;
  catalog ← item segs 0;
  file_name ← distribution_to_filename EmptyString dataset series file_format catalog;
  mret (catalog +:+ "/" +:+ dataset +:+ "/" +:+ series +:+ "/" +:+ file_name).

(** The body of the loop of [_get_fusion_df] for the changes of one
    dataset. *)
Definition dataset_frame (catalog : string) (flatten : bool)
    (dataset_format : option string) (changes : list (list distribution))
  : result (list fusion_row) :=
  match changes with
  | [] => mret []
  | changes :: _ =>
      let urls := (λ i, url_of_key catalog (key i)) <$> changes in
      sz ← mapM (λ i, v ← item (values i) 1; py_int v) changes;
      md ← mapM (λ i, v ← item (values i) 2; mret (md5_of_value v)) changes;
      keys ← mapM _url_to_path urls;
      let keys := if flatten then flatten_key <$> keys else keys in
      let df := frame_rows keys urls sz md in
      mret (if (truthy dataset_format && (0 <? length df)%nat)%bool
            then List.filter
                   (λ r, bool_decide (last (split "/" (f_url r)) = dataset_format)) df
            else df)
  end.

(** [pd.concat] raises for an empty list of frames. *)
Definition _get_fusion_df (datasets_lst : list string) (catalog : string) (flatten : bool)
    (dataset_format : option string) : result (list fusion_row) :=
  df_lst ← mapM (λ dataset,
                   changes ← info_changes (catalog +:+ "/datasets/" +:+ dataset);
                   dataset_frame catalog flatten dataset_format changes) datasets_lst;
  match df_lst with
  | [] => inl (Exn ValueError "No objects to concatenate")
  | _ => mret (concat df_lst)
  end.

End WithRemote.

End FusionDf.

(** ** A sample of the remote catalog *)

Module DemoRemote.
Import Py FsSync FusionDf.

(** The changes of a dataset with two distributions, and an older change
    set. *)
Definition two_distributions : list (list distribution) :=
  [ [ Distribution "ds.20240105.distribution.csv"
        ["2024-01-05"; "3"; "md5=kAFQmDzST7DWlj99KOF/cg=="];
      Distribution "ds.20240105.distribution.parquet"
        ["2024-01-05"; "3"; "md5=XrY7u+Ae7tCTyyK7j1rNww=="] ];
    [ Distribution "ds.20240104.distribution.csv"
        ["2024-01-04"; "3"; "md5=1B2M2Y8AsgTpgAmY7PhCfg=="] ] ].

Definition one_distribution : list (list distribution) :=
  [ [ Distribution "ds.20240105.distribution.csv"
        ["2024-01-05"; "3"; "md5=kAFQmDzST7DWlj99KOF/cg=="] ];
    [ Distribution "ds.20240104.distribution.csv"
        ["2024-01-04"; "3"; "md5=1B2M2Y8AsgTpgAmY7PhCfg=="] ] ].

(** A key without a format. *)
Definition without_format : list (list distribution) :=
  [ [ Distribution "ds.20240105.distribution"
        ["2024-01-05"; "3"; "md5=kAFQmDzST7DWlj99KOF/cg=="] ] ].

#[global] Instance demo_Remote : Remote := {|
  info_changes path :=
    if String.eqb path "common/datasets/ds" then inr two_distributions
    else if String.eqb path "common/datasets/one" then inr one_distribution
    else if String.eqb path "common/datasets/short" then inr without_format
    else inl (Exn FileNotFoundError path);
  py_int v := if String.eqb v "3" then inr 3 else inl (Exn ValueError v);
  distribution_to_filename root_folder dataset datasetseries file_format catalog :=
    inr (root_folder +:+ "/" +:+ dataset +:+ "__" +:+ catalog +:+ "__" +:+ datasetseries
         +:+ "." +:+ file_format)
|}.

End DemoRemote.

(** * Properties *)

(** ** Block-wise reading *)

Section IterRead.
Import FileObj.

Lemma read_nonneg_data (size : Z) (f : file) :
  0 <= size → (read size f).1 = take (Z.to_nat size) (remaining f).
Proof.
  intros Hs. unfold read. simpl.
  destruct (size <? 0) eqn:E; [apply Z.ltb_lt in E; lia | reflexivity].
Qed.

Lemma read_remaining (size : Z) (f : file) :
  remaining (read size f).2 = drop (length (read size f).1) (remaining f).
Proof. unfold read, remaining. simpl. by rewrite drop_drop. Qed.

Lemma read_prefix (size : Z) (f : file) :
  (read size f).1 ++ remaining (read size f).2 = remaining f.
Proof.
  rewrite read_remaining. unfold read. simpl.
  destruct (size <? 0).
  - by rewrite drop_all, app_nil_r.
  - rewrite length_take.
    destruct (decide (Z.to_nat size ≤ length (remaining f))%nat).
    + rewrite Nat.min_l by done. apply take_drop.
    + rewrite Nat.min_r by lia. rewrite take_ge by lia.
      by rewrite drop_all, app_nil_r.
Qed.

Lemma read_empty (size : Z) (f : file) :
  size ≠ 0 → (read size f).1 = [] → remaining f = [].
Proof.
  unfold read. simpl. destruct (size <? 0) eqn:E; [done|].
  intros Hs Ht. apply Z.ltb_ge in E.
  destruct (remaining f) as [|b rest]; [done|].
  destruct (Z.to_nat size) eqn:En; [lia | discriminate].
Qed.

#[local] Opaque read.

Lemma iter_read_eq (size : Z) (f : file) :
  iter_read size f =
  match read size f with
  | ([], f') => ([], f')
  | (b :: chunk, f') => ((b :: chunk) :: (iter_read size f').1, (iter_read size f').2)
  end.
Proof.
  funelim (iter_read size f);
    match goal with E : read _ _ = _ |- _ => rewrite E end; reflexivity.
Qed.

(** Induction along the reads of the loop: the file after a non-empty read
    has strictly less left to read. *)
Lemma iter_read_ind (size : Z) (P : file → Prop) :
  (∀ f, (∀ b chunk f', read size f = (b :: chunk, f') → P f') → P f) →
  ∀ f, P f.
Proof.
  intros Hstep f.
  remember (length (remaining f)) as n eqn:Hn.
  revert f Hn. induction (lt_wf n) as [n _ IH]. intros f ->.
  apply Hstep. intros b chunk f' Hr.
  apply (IH (length (remaining f'))); [|done].
  pose proof (read_prefix size f) as Hp. rewrite Hr in Hp. simpl in Hp.
  rewrite <- Hp. simpl. rewrite length_app. lia.
Qed.

(** The blocks read are a partition of what was left to read. *)
Lemma iter_read_concat (size : Z) (f : file) :
  size ≠ 0 → concat (iter_read size f).1 = remaining f.
Proof.
  intros Hs. induction f as [f IH] using (iter_read_ind size).
  rewrite iter_read_eq. destruct (read size f) as [[|b chunk] f'] eqn:Hr.
  - simpl. symmetry. apply (read_empty size f Hs). by rewrite Hr.
  - simpl. rewrite (IH b chunk f' eq_refl).
    pose proof (read_prefix size f) as Hp. by rewrite Hr in Hp.
Qed.

Lemma iter_read_zero (f : file) : (iter_read 0 f).1 = [].
Proof.
  rewrite iter_read_eq.
  pose proof (read_nonneg_data 0 f ltac:(lia)) as Hd.
  destruct (read 0 f) as [[|b chunk] f']; [done|].
  simpl in Hd. by rewrite take_0 in Hd.
Qed.

(** Block [i] is the [i]-th slice of [size] bytes, and is not empty. *)
Lemma iter_read_lookup (size : Z) (f : file) (i : nat) (c : list byte) :
  0 < size → (iter_read size f).1 !! i = Some c →
  c = take (Z.to_nat size) (drop (i * Z.to_nat size) (remaining f)) ∧ c ≠ [].
Proof.
  intros Hs. revert i c. induction f as [f IH] using (iter_read_ind size).
  intros i c. rewrite iter_read_eq.
  pose proof (read_nonneg_data size f ltac:(lia)) as Hd.
  pose proof (read_remaining size f) as Hr.
  destruct (read size f) as [[|b chunk] f'] eqn:Hrd; [done|].
  simpl in Hd, Hr |- *. intros Hl.
  destruct i as [|j]; simpl in Hl.
  - injection Hl as <-. rewrite Hd. simpl. split; [done|]. by rewrite <- Hd.
  - destruct (IH b chunk f' eq_refl j c Hl) as [Hc Hne]. split; [|done].
    rewrite Hr in Hc.
    destruct (decide (length (b :: chunk) = Z.to_nat size)) as [Hlen|Hlen].
    + rewrite drop_drop in Hc. rewrite Hc. f_equal. f_equal. simpl in Hlen. lia.
    + exfalso. apply Hne. rewrite Hc.
      assert (length (b :: chunk) = length (remaining f))%nat as Hall.
      { rewrite Hd in Hlen |- *. rewrite length_take in *. lia. }
      simpl in Hall. rewrite Hall. rewrite (drop_all (remaining f)).
      by rewrite drop_nil, take_nil.
Qed.

Lemma iter_read_block_length (size : Z) (f : file) (i : nat) (c : list byte) :
  0 < size → (iter_read size f).1 !! i = Some c →
  (0 < length c ≤ Z.to_nat size)%nat ∧
  (S i < length (iter_read size f).1 → length c = Z.to_nat size)%nat.
Proof.
  intros Hs Hl. destruct (iter_read_lookup size f i c Hs Hl) as [Hc Hne].
  split.
  - split; [destruct c; [done | simpl; lia] |]. rewrite Hc, length_take. lia.
  - intros Hlt. destruct (lookup_lt_is_Some_2 _ _ Hlt) as [c' Hl'].
    destruct (iter_read_lookup size f (S i) c' Hs Hl') as [Hc' Hne'].
    rewrite Hc, length_take, length_drop.
    destruct (decide (S i * Z.to_nat size < length (remaining f))%nat); [lia|].
    exfalso. apply Hne'. rewrite Hc'. rewrite drop_ge by lia. by rewrite take_nil.
Qed.

End IterRead.

(** ** The chunk headers of [_construct_headers] *)

Section ConstructHeaders.
Import FileObj FusionFilesystem Spec.

(** One iteration allocates one dictionary, a copy of the previous one with
    its own digest, and touches no dictionary allocated earlier. *)
Lemma headers_step_spec (st : headers_loop) (chunk : list byte) (d0 : dict) :
  heap st !! headers_chunks st = Some d0 →
  headers_step st chunk =
  HeadersLoop (hash_md5 st ++ chunk) (length (heap st))
    (headers_chunk_lst st ++ [length (heap st)])
    (heap st ++ [<["Digest" := digest_header (hash_md5 st ++ chunk)]> d0]).
Proof.
  intros Hd. unfold headers_step, deepcopy, new_dict, setitem, Hashlib.update.
  rewrite Hd. simpl. f_equal.
  rewrite <- (Nat.add_0_r (length (heap st))) at 1.
  by rewrite alter_app_r.
Qed.

Lemma headers_fold (chunks : list (list byte)) :
  ∀ (st : headers_loop) (base : dict) (v : string),
    heap st !! headers_chunks st = Some (<["Digest" := v]> base) →
    let st' := fold_left headers_step chunks st in
    hash_md5 st' = hash_md5 st ++ concat chunks ∧
    headers_chunk_lst st' =
      headers_chunk_lst st ++ seq (length (heap st)) (length chunks) ∧
    heap st' = heap st ++ imap (chunk_header base (hash_md5 st) chunks) chunks.
Proof.
  induction chunks as [|c cs IH]; intros st base v Hd; simpl.
  - by rewrite !app_nil_r.
  - rewrite (headers_step_spec st c _ Hd). rewrite insert_insert_eq.
    set (st1 := HeadersLoop _ _ _ _).
    destruct (IH st1 base (digest_header (hash_md5 st ++ c))) as (Hh & Hl & Hp).
    { subst st1. simpl. rewrite lookup_app_r by lia. by rewrite Nat.sub_diag. }
    subst st1. simpl in *. rewrite Hh, Hl, Hp. rewrite length_app. simpl.
    repeat split.
    + by rewrite <- app_assoc.
    + rewrite <- app_assoc. simpl. do 3 f_equal. lia.
    + rewrite <- app_assoc. simpl. f_equal. unfold chunk_header at 2. simpl.
      rewrite app_nil_r. f_equal.
      apply imap_ext. intros i x _. unfold chunk_header. simpl.
      by rewrite <- app_assoc.
Qed.

(** The result of [_construct_headers] written out: the two initial
    dictionaries, then one dictionary per block. *)
Lemma construct_headers_spec {U} (f : file) (dt_iso : string) (url : U)
    (op : option string) (size : Z) (h0 : list dict) :
  let chunks := (iter_read size f).1 in
  let hdr0 : dict :=
    <["Content-Type" := "application/octet-stream"]>
    (<["x-jpmc-distribution-created-date" := dt_iso]>
    (<["x-jpmc-distribution-from-date" := dt_iso]>
    (<["x-jpmc-distribution-to-date" := dt_iso]> (<["Digest" := EmptyString]> ∅)))) in
  let base : dict := <["Content-Type" := "application/octet-stream"]> ∅ in
  _construct_headers f dt_iso url op size h0 =
  ((length h0, seq (S (S (length h0))) (length chunks)),
   seek 0 (iter_read size f).2,
   h0 ++ <["Digest" := digest_header (concat chunks)]> hdr0
      :: <["Digest" := EmptyString]> base
      :: imap (chunk_header base [] chunks) chunks).
Proof.
  intros chunks hdr0 base. unfold _construct_headers, new_dict.
  destruct (iter_read size f) as [cs f'] eqn:Hit. subst chunks. simpl.
  set (st0 := HeadersLoop _ _ _ _).
  destruct (headers_fold cs st0 base EmptyString) as (Hh & Hl & Hp).
  { subst st0. simpl. rewrite lookup_app_r; rewrite length_app; simpl; [|lia].
    replace (length h0 + 1 - (length h0 + 1))%nat with 0%nat by lia. simpl.
    f_equal. }
  simpl in Hh, Hl, Hp. rewrite Hh, Hl, Hp.
  subst st0. simpl. rewrite !length_app. simpl.
  f_equal; [f_equal; f_equal; f_equal; lia |].
  unfold setitem, Hashlib.new. simpl.
  rewrite <- !app_assoc. simpl.
  rewrite <- (Nat.add_0_r (length h0)) at 1. rewrite alter_app_r. simpl.
  reflexivity.
Qed.

End ConstructHeaders.

Section CumulativeDigest.
Import FileObj FusionFilesystem Spec.

(** C1.  [_construct_headers] reads the payload in blocks of [chunk_size]
    bytes (every block but the last has exactly that size, and the blocks
    concatenated are the payload).  The list it returns has one header
    dictionary per block; the [Digest] entry of the dictionary of block [i]
    is ["md5="] followed by the base64 encoding of the MD5 of blocks [0]
    to [i] concatenated, not of block [i] alone.  The dictionary of the last
    block carries the same digest as the headers returned for the whole
    file, which is the digest of the whole payload. *)
Theorem C1_cumulative_digest (payload : list byte) (dt_iso : string)
    (chunk_size : Z) (h0 : list dict) :
  0 < chunk_size →
  let chunks := (iter_read chunk_size (File payload 0)).1 in
  let '((headers, lst), _, h) :=
    _construct_headers (File payload 0) dt_iso tt None chunk_size h0 in
  concat chunks = payload ∧
  length lst = length chunks ∧
  (∀ i c, chunks !! i = Some c →
     (S i < length chunks → length c = Z.to_nat chunk_size)%nat ∧
     ∃ r d, lst !! i = Some r ∧ h !! r = Some d ∧
       d !! "Digest" =
         Some ("md5=" +:+ Base64.b64encode (Hashlib.md5 (concat (take (S i) chunks))))) ∧
  (∃ d, h !! headers = Some d ∧
     d !! "Digest" = Some ("md5=" +:+ Base64.b64encode (Hashlib.md5 payload))) ∧
  (∀ r, last lst = Some r →
     ∃ d, h !! r = Some d ∧
       d !! "Digest" = Some ("md5=" +:+ Base64.b64encode (Hashlib.md5 payload))).
Proof.
  intros Hs chunks. rewrite construct_headers_spec. fold chunks.
  assert (concat chunks = payload) as Hcat.
  { subst chunks. rewrite iter_read_concat by lia. reflexivity. }
  assert (∀ i c, chunks !! i = Some c →
            (h0 ++ <["Digest" := digest_header (concat chunks)]>
                     (<["Content-Type" := "application/octet-stream"]>
                     (<["x-jpmc-distribution-created-date" := dt_iso]>
                     (<["x-jpmc-distribution-from-date" := dt_iso]>
                     (<["x-jpmc-distribution-to-date" := dt_iso]> (<["Digest" := EmptyString]> ∅)))))
                :: <["Digest" := EmptyString]> (<["Content-Type" := "application/octet-stream"]> ∅)
                :: imap (chunk_header (<["Content-Type" := "application/octet-stream"]> ∅)
                           [] chunks) chunks) !! (S (S (length h0)) + i)%nat
            = Some (chunk_header (<["Content-Type" := "application/octet-stream"]> ∅)
                      [] chunks i c)) as Hheap.
  { intros i c Hc. rewrite lookup_app_r by lia.
    replace (S (S (length h0)) + i - length h0)%nat with (S (S i)) by lia. simpl.
    by rewrite list_lookup_imap, Hc. }
  split; [done|]. split; [by rewrite length_seq|]. split; [|split].
  - intros i c Hc. split.
    + intros Hlt. by apply (iter_read_block_length chunk_size (File payload 0) i c Hs Hc).
    + eexists _, _. split; [|split].
      * apply lookup_seq. split; [reflexivity|]. by apply lookup_lt_Some in Hc.
      * by apply Hheap.
      * unfold chunk_header. by rewrite lookup_insert_eq.
  - eexists. split.
    + rewrite lookup_app_r by lia. rewrite Nat.sub_diag. reflexivity.
    + rewrite lookup_insert_eq. unfold digest_header, Hashlib.digest. by rewrite Hcat.
  - intros r Hlast.
    destruct (decide (length chunks = 0)%nat) as [Hz|Hnz].
    { rewrite Hz in Hlast. discriminate. }
    rewrite last_lookup, length_seq in Hlast.
    apply lookup_seq in Hlast as [-> Hlt].
    destruct (lookup_lt_is_Some_2 chunks (Nat.pred (length chunks)) ltac:(lia)) as [c Hc].
    eexists. split; [by apply Hheap|].
    unfold chunk_header. rewrite lookup_insert_eq.
    replace (S (Nat.pred (length chunks))) with (length chunks) by lia.
    rewrite firstn_all. simpl. unfold digest_header, Hashlib.digest. by rewrite Hcat.
Qed.

End CumulativeDigest.

(** ** The multipart branch of [_put_file] *)

Section Multipart.
Import Py FileObj FusionFilesystem Spec.
Context `{Session}.

(** [put_data()] is an async generator object: [asyncio.gather] refuses it
    before any of its body runs. *)
Lemma gather_put_data (g : M pst (list request)) (s : pst) :
  asyncio_gather [AsyncGenerator g] s =
  (inl (Exn TypeError "An asyncio.Future, a coroutine or an awaitable is required"), s).
Proof. reflexivity. Qed.

(** Whatever the server answers, the multipart branch raises, and the only
    request it can have made by then is the initiation request. *)
Lemma put_file_multipart (rpath : string) (chunk_size : option Z) (method : string)
    (headers : nat) (lst : list nat) (s : pst) :
  ∃ e s',
    _put_file rpath chunk_size method true headers lst s = (inl e, s') ∧
    p_file s' = p_file s ∧ p_heap s' = p_heap s ∧
    (p_sent s' = p_sent s ∨ p_sent s' = p_sent s ++ [negotiate rpath]).
Proof.
  unfold _put_file.
  destruct (negb (bool_decide (lower method ∈ ["post"; "put"]))).
  { eexists _, s. split; [reflexivity|]. auto. }
  cbn [negb]. unfold mbind, M_bind, bind, http at 1. cbn [p_file p_heap p_sent].
  set (s1 := Pst _ _ _).
  unfold _raise_not_found_for_status at 1.
  destruct (status (send _) =? 404).
  { eexists _, s1. split; [reflexivity|]. subst s1. simpl. auto. }
  destruct (400 <=? status (send _)).
  { eexists _, s1. split; [reflexivity|]. subst s1. simpl. auto. }
  cbn [raise ret]. unfold lift.
  destruct (json (send _)) as [e|js].
  { eexists _, s1. split; [reflexivity|]. subst s1. simpl. auto. }
  cbn [ret]. destruct (js !! "operationId") as [op|].
  - unfold mret, M_ret, ret. rewrite gather_put_data.
    eexists _, s1. split; [reflexivity|]. subst s1. simpl. auto.
  - eexists _, s1. split; [reflexivity|]. subst s1. simpl. auto.
Qed.

End Multipart.

Section ZeroLength.
Import Py FileObj FusionFilesystem Spec.
Context `{Session}.

Lemma index_state {A} (xs : list A) (k : Z) (s : pst) :
  (index xs k s).2 = s.
Proof.
  unfold index. destruct (_ && _)%bool; [|reflexivity].
  destruct (xs !! _); reflexivity.
Qed.

Lemma construct_headers_empty {U} (dt_iso : string) (url : U) (size : Z) (h0 : list dict) :
  ∃ hdr h,
    _construct_headers (File [] 0) dt_iso url None size h0 =
      ((length h0, []), File [] 0, h) ∧
    h !! length h0 = Some hdr ∧
    hdr !! "Digest" = Some "md5=1B2M2Y8AsgTpgAmY7PhCfg==".
Proof.
  assert (iter_read size (File [] 0) = ([], File [] 0)) as Hit.
  { rewrite iter_read_eq.
    assert (read size (File [] 0) = ([], File [] 0)) as ->; [|reflexivity].
    unfold read, remaining. simpl.
    destruct (size <? 0); [reflexivity|]. by rewrite take_nil. }
  rewrite construct_headers_spec, Hit. simpl.
  eexists _, _. split; [reflexivity|]. split.
  - rewrite lookup_app_r by lia. rewrite Nat.sub_diag. reflexivity.
  - rewrite lookup_insert_eq. f_equal.
Qed.

(** C9.  For a zero-length payload [put] computes no chunk header and a
    whole-file [Digest] that is the digest of the empty byte sequence, but
    the multipart upload does not reach its completion request: [put]
    raises, and by then it has made either no request or the initiation
    request alone. *)
Theorem C9_zero_length_multipart_stops_after_negotiate
    (rpath method : string) (chunk_size : Z) (h0 : list dict) :
  (∀ dt_iso, ∃ hdr h,
     _construct_headers (File [] 0) dt_iso chunk_size None DEFAULT_CHUNK_SIZE h0 =
       ((length h0, []), File [] 0, h) ∧
     h !! length h0 = Some hdr ∧
     hdr !! "Digest" = Some "md5=1B2M2Y8AsgTpgAmY7PhCfg==") ∧
  ∃ e s,
    put rpath chunk_size method true (Pst (File [] 0) h0 []) = (inl e, s) ∧
    (p_sent s = [] ∨ p_sent s = [negotiate (_decorate_url rpath)]).
Proof.
  split; [intros dt_iso; apply construct_headers_empty|].
  unfold put. unfold mbind, M_bind, bind at 1.
  set (s0 := Pst _ _ _).
  pose proof (index_state (split "/" rpath) (-3) s0) as Hst.
  destruct (index (split "/" rpath) (-3) s0) as [[e|seg] s1]; simpl in Hst; subst s1.
  { eexists _, _. split; [reflexivity|]. by left. }
  unfold bind at 1, lift.
  destruct (timestamp_strftime seg) as [e|dt_iso].
  { eexists _, _. split; [reflexivity|]. by left. }
  cbn [ret bind gets]. subst s0. cbn [p_file p_heap p_sent].
  destruct (construct_headers_empty dt_iso chunk_size DEFAULT_CHUNK_SIZE h0)
    as (hdr & h & -> & _ & _).
  unfold bind at 1, modify. cbn [p_sent].
  destruct (put_file_multipart (_decorate_url rpath) (Some chunk_size) method
              (length h0) [] (Pst (File [] 0) h [])) as (e & s' & -> & _ & _ & Hs).
  eexists _, _. split; [reflexivity|]. exact Hs.
Qed.

End ZeroLength.

(** ** The content digest *)

Section ContentDigest.
Import Py FileObj FsSync.

Lemma fold_update (chunks : list (list byte)) (h : Hashlib.hash_obj) :
  fold_left (λ hash_md5 chunk,
               let hash_md5_chunk := Hashlib.update Hashlib.new chunk in
               Hashlib.update hash_md5 chunk) chunks h = h ++ concat chunks.
Proof.
  revert h. induction chunks as [|c cs IH]; intros h; simpl.
  - by rewrite app_nil_r.
  - rewrite IH. unfold Hashlib.update. by rewrite <- app_assoc.
Qed.

(** Reading in blocks of any non-zero size hashes the whole content. *)
Lemma md5_token_of_blocks_whole (block_size : Z) (content : list byte) :
  block_size ≠ 0 →
  md5_token_of_blocks block_size (File content 0) =
  Base64.b64encode (Hashlib.md5 content).
Proof.
  intros Hb. unfold md5_token_of_blocks.
  pose proof (iter_read_concat block_size (File content 0) Hb) as Hc.
  destruct (iter_read block_size (File content 0)) as [chunks f'].
  simpl in Hc. rewrite fold_update. unfold Hashlib.new, Hashlib.digest. simpl.
  by rewrite Hc.
Qed.

Context {W : Type} `{World W}.

(** C7.  For a stream that can be opened, [_generate_md5_token] returns the
    base64 encoding of the MD5 of the whole content of the stream, and the
    loop it runs gives that same value for every positive block size, not
    only for 4096. *)
Theorem C7_md5_token_whole_content (path : string) (content : list byte) (s : st W) :
  fs_open (world s) path = inr content →
  (_generate_md5_token path s).1 = inr (Base64.b64encode (Hashlib.md5 content)) ∧
  ∀ block_size, 0 < block_size →
    md5_token_of_blocks block_size (File content 0) =
    Base64.b64encode (Hashlib.md5 content).
Proof.
  intros Ho. split.
  - unfold _generate_md5_token, query, emit.
    unfold mbind, M_bind, bind, modify, gets, lift. simpl. rewrite Ho. simpl.
    unfold mret, M_ret, ret. simpl. f_equal.
    by apply md5_token_of_blocks_whole.
  - intros bs Hbs. apply md5_token_of_blocks_whole. lia.
Qed.

End ContentDigest.

(** ** Reconciliation *)

Section Reconcile.
Import Py FsSync.

Lemma elem_of_merge_left {A B} `{Row A, Row B} (L : list A) (R : list B) (j : joined A B) :
  j ∈ merge_left L R ↔
  ∃ l, l ∈ L ∧
    ((j = (Some l, None) ∧ ∀ r, r ∈ R → row_url r ≠ row_url l) ∨
     (∃ r, r ∈ R ∧ row_url r = row_url l ∧ j = (Some l, Some r))).
Proof.
  unfold merge_left. rewrite list_elem_of_bind. split.
  - intros (l & Hj & Hl). exists l. split; [done|].
    destruct (filter _ R) as [|m ms] eqn:Hf.
    + left. apply list_elem_of_singleton in Hj. split; [done|].
      intros r Hr Hu.
      assert (r ∈ filter (λ r, row_url r = row_url l) R) as Hin
        by (apply list_elem_of_filter; done).
      rewrite Hf in Hin. by apply elem_of_nil in Hin.
    + right. apply list_elem_of_fmap in Hj as (r & -> & Hr).
      rewrite <- Hf in Hr. apply list_elem_of_filter in Hr as [Hu Hr]. eauto.
  - intros (l & Hl & Hcase). exists l. split; [|done].
    destruct Hcase as [[-> Hno] | (r & Hr & Hu & ->)].
    + destruct (filter _ R) as [|m ms] eqn:Hf; [apply list_elem_of_singleton; done|].
      exfalso. assert (m ∈ filter (λ r, row_url r = row_url l) R) as Hin
        by (rewrite Hf; left).
      apply list_elem_of_filter in Hin as [Hu Hm]. by apply (Hno m).
    + assert (r ∈ filter (λ r, row_url r = row_url l) R) as Hin
        by (apply list_elem_of_filter; done).
      destruct (filter _ R) as [|m ms]; [by apply elem_of_nil in Hin|].
      apply list_elem_of_fmap. eauto.
Qed.

Lemma ne_sym (a b : option string) : ne a b = ne b a.
Proof.
  destruct a as [x|], b as [y|]; simpl; try reflexivity.
  by rewrite String.eqb_sym.
Qed.

Lemma ne_false (a b : option string) :
  ne a b = false ↔ ∃ d, a = Some d ∧ b = Some d.
Proof.
  destruct a as [x|], b as [y|]; simpl; split; try done;
    try (intros (d & ? & ?); done).
  - intros Hn. apply negb_false_iff, String.eqb_eq in Hn. subst. eauto.
  - intros (d & [= ->] & [= ->]). by rewrite String.eqb_refl.
Qed.


(** A right join is the left join with the two frames, and the two sides of
    every row, exchanged. *)
Lemma merge_mirror {A B} `{Row A, Row B} (L : list A) (R : list B) :
  merge_right R L = prod_swap <$> merge_left L R.
Proof.
  unfold merge_right, merge_left.
  induction L as [|l L IH]; [reflexivity|].
  rewrite !bind_cons, fmap_app, IH. f_equal.
  destruct (filter _ R) as [|m ms]; [reflexivity|].
  rewrite <- list_fmap_compose. reflexivity.
Qed.

Lemma filter_fmap_swap {A B} (f : B * A → bool) (l : list (A * B)) :
  List.filter f (prod_swap <$> l) = prod_swap <$> List.filter (f ∘ prod_swap) l.
Proof.
  induction l as [|x l IH]; [reflexivity|].
  rewrite fmap_cons. cbn [List.filter]. rewrite IH. unfold compose.
  destruct (f (prod_swap x)); reflexivity.
Qed.

Lemma join_df_mirror {A B} `{Row A, Row B} (L : list A) (R : list B) :
  join_df_download R L = prod_swap <$> join_df_upload L R.
Proof.
  unfold join_df_download, join_df_upload. rewrite merge_mirror.
  rewrite (filter_fmap_swap (A := option A) (B := option B)).
  f_equal. apply filter_ext. intros [a b]. unfold md5_local, md5_fusion. simpl.
  apply ne_sym.
Qed.

(** In a joined row the key is the same whichever side it is read from. *)
Lemma merge_left_url {A B} `{Row A, Row B} (L : list A) (R : list B) (j : joined A B) :
  j ∈ merge_left L R → url (prod_swap j) = url j.
Proof.
  intros Hj. apply elem_of_merge_left in Hj as (l & _ & [[-> _] | (r & _ & Hu & ->)]);
    simpl; done.
Qed.

Lemma keys_mirror {A B} `{Row A, Row B} (L : list A) (R : list B) :
  keys (join_df_download R L) = keys (join_df_upload L R).
Proof.
  rewrite join_df_mirror. unfold keys. rewrite <- list_fmap_compose.
  apply Forall_fmap_ext_1. apply Forall_forall. intros j Hj. simpl.
  apply (merge_left_url L R). unfold join_df_upload in Hj.
  apply list_elem_of_In, filter_In in Hj as [Hj _]. by apply list_elem_of_In.
Qed.




(** C6.  The Download plan of the exchanged inventories is the Upload plan
    with the two sides of every task exchanged; the two plans have the same
    logical keys. *)
Theorem C6_direction_symmetry {A B} `{Row A, Row B} (L : list A) (R : list B) :
  ∃ up down,
    join_df "upload" L R = Some up ∧ join_df "download" R L = Some down ∧
    down = prod_swap <$> up ∧ keys down = keys up.
Proof.
  exists (join_df_upload L R), (join_df_download R L).
  split; [reflexivity|]. split; [reflexivity|].
  split; [apply join_df_mirror | apply keys_mirror].
Qed.

(** Where [merge] accepts the key columns, [_synchronize] hands these plans
    to the executors. *)
Lemma synchronize_plan {W} `{World W} (df_local : local_frame) (df_fusion : fusion_frame)
    (show_progress : bool) :
  merge_refused df_local df_fusion = false →
  _synchronize df_local df_fusion "upload" show_progress =
    _upload (join_df_upload (snd <$> df_rows df_local) (df_rows df_fusion)) show_progress ∧
  _synchronize df_local df_fusion "download" show_progress =
    _download (join_df_download (snd <$> df_rows df_local) (df_rows df_fusion))
      show_progress.
Proof.
  intros Hm. unfold _synchronize, check_merge_keys. rewrite Hm. split; reflexivity.
Qed.

(** Where it refuses them, [_synchronize] raises in both directions, and no
    executor is called. *)
Lemma synchronize_refused {W} `{World W} (df_local : local_frame) (df_fusion : fusion_frame)
    (direction : string) (show_progress : bool) (s : st W) :
  merge_refused df_local df_fusion = true →
  direction = "upload" ∨ direction = "download" →
  ∃ msg, _synchronize df_local df_fusion direction show_progress s =
         (inl (Exn ValueError msg), s).
Proof.
  intros Hm [-> | ->]; unfold _synchronize, check_merge_keys; rewrite Hm;
    eexists; reflexivity.
Qed.

End Reconcile.

(** ** Downloads *)

Section Download.
Import Py FsSync Spec.
Context {W : Type} `{World W}.

(** The attempt to create the parent directory never escapes. *)
Lemma guarded_mkdir (there : bool) (p : string) (s : st W) :
  mkdir_uninterrupted →
  ∃ s',
    (if negb there
     then try_except (command (EvMkdir (path_parent p)) (fs_mkdir (path_parent p)))
                     (λ ex, mret tt)
     else mret tt) s = (inr tt, s').
Proof.
  intros Hm. destruct there; simpl; [by eexists|].
  unfold try_except, command, emit, bind, modify. simpl.
  destruct (fs_mkdir (path_parent p) (world s)) as [[e|[]] w'] eqn:Hmk; simpl.
  - rewrite (Hm _ _ _ _ Hmk). by eexists.
  - by eexists.
Qed.

Lemma download_files_reported (failing : bool) (msg : string)
    (row : joined local_row fusion_row) (r : fusion_row) (s : st W) :
  fetches row r → mkdir_uninterrupted →
  (if failing then transfer_fails r msg else transfer_succeeds r) →
  ∃ s', _download_files row s = (inr (reported (λ _, failing) msg 0 r), s').
Proof.
  intros [Hr Hu] Hm Hget. unfold _download_files, path_fusion.
  rewrite Hr, Hu. simpl.
  unfold mbind, M_bind. unfold bind at 1.
  unfold query, emit, mbind, M_bind, bind, modify, gets, lift, ret. simpl.
  set (s1 := St _ _ _ _).
  destruct (guarded_mkdir (fs_exists (world s) (f_path r)) (f_path r) s1 Hm) as [s2 ->].
  unfold try_except, command, emit, bind, modify. simpl.
  unfold reported. destruct failing.
  - destruct (Hget (world s2)) as (e & w' & -> & He & <-). simpl. rewrite He.
    by eexists.
  - destruct (Hget (world s2)) as (w' & ->). simpl. by eexists.
Qed.

Lemma mapM_cons {St A B} (f : A → M St B) (x : A) (xs : list A) (s : St) :
  mapM f (x :: xs) s =
  match f x s with
  | (inl e, s') => (inl e, s')
  | (inr y, s') =>
      match mapM f xs s' with
      | (inl e, s'') => (inl e, s'')
      | (inr ys, s'') => (inr (y :: ys), s'')
      end
  end.
Proof. reflexivity. Qed.

Lemma download_each (df : list (joined local_row fusion_row)) :
  ∀ (rows : list fusion_row) (failing : nat → bool) (msg : string) (s : st W),
    Forall2 fetches df rows → mkdir_uninterrupted →
    (∀ j r, rows !! j = Some r →
       if failing j then transfer_fails r msg else transfer_succeeds r) →
    ∃ s', mapM _download_files df s = (inr (imap (reported failing msg) rows), s').
Proof.
  induction df as [|row df IH]; intros rows failing msg s Hf Hm Hget.
  - apply Forall2_nil_inv_l in Hf as ->. by eexists.
  - apply Forall2_cons_inv_l in Hf as (r & rows' & Hrow & Hf & ->).
    destruct (download_files_reported (failing 0%nat) msg row r s Hrow Hm (Hget 0%nat r eq_refl))
      as [s1 Hs1].
    destruct (IH rows' (failing ∘ S) msg s1 Hf Hm (λ j r' Hj, Hget (S j) r' Hj)) as [s2 Hs2].
    exists s2. rewrite mapM_cons, Hs1, Hs2. reflexivity.
Qed.

(** C5.  In a download batch whose task [k] raises an error with message
    [msg] and whose other tasks succeed, [_download] returns one outcome per
    task, in the order of the tasks: [(False, path, msg)] for task [k] and
    [(True, path, None)] for every other task.  The failure neither aborts
    the batch nor changes the outcome of another task. *)
Theorem C5_partial_failure_isolated (df : list (joined local_row fusion_row))
    (rows : list fusion_row) (k : nat) (msg : string) (show_progress : bool) (s : st W) :
  Forall2 fetches df rows →
  mkdir_uninterrupted →
  (∀ r, rows !! k = Some r → transfer_fails r msg) →
  (∀ j r, j ≠ k → rows !! j = Some r → transfer_succeeds r) →
  ∃ res s',
    _download df show_progress s = (inr res, s') ∧
    length res = length df ∧
    ∀ j r, rows !! j = Some r →
      res !! j = Some (if decide (j = k) then (false, f_path r, Some msg)
                       else (true, f_path r, None)).
Proof.
  intros Hf Hm Hk Hother.
  destruct (download_each df rows (λ j, bool_decide (j = k)) msg s Hf Hm) as [s' Hrun].
  { intros j r Hj. case_bool_decide as Hjk; [subst j; by apply Hk | by apply (Hother j)]. }
  exists (imap (reported (λ j, bool_decide (j = k)) msg) rows), s'.
  split; [|split].
  - unfold _download, _get_loop. by destruct (1 <? length df)%nat.
  - rewrite length_imap. symmetry. by eapply Forall2_length.
  - intros j r Hj. rewrite list_lookup_imap, Hj. simpl. unfold reported.
    by rewrite (bool_decide_decide (j = k)); destruct (decide (j = k)).
Qed.

Lemma mapM_length {St A B} (f : A → M St B) (xs : list A) :
  ∀ (s s' : St) (res : list B), mapM f xs s = (inr res, s') → length res = length xs.
Proof.
  induction xs as [|x xs IH]; intros s s' res.
  - by intros [= <- _].
  - rewrite mapM_cons. destruct (f x s) as [[e|y] s1]; [done|].
    destruct (mapM f xs s1) as [[e|ys] s2] eqn:Hrest; [done|].
    intros [= <- _]. simpl. f_equal. by eapply IH.
Qed.

(** A download batch that returns has one outcome per task: it is empty
    exactly when the plan is. *)
Lemma download_one_outcome_per_task (df : list (joined local_row fusion_row))
    (show_progress : bool) (s s' : st W) (res : list outcome) :
  _download df show_progress s = (inr res, s') → length res = length df.
Proof.
  unfold _download, _get_loop. destruct (1 <? length df)%nat; apply mapM_length.
Qed.

(** The rows of a Download plan are tasks of this form. *)
Lemma download_plan_fetches (df_local : list local_row) (df_fusion : list fusion_row) :
  Forall (λ row, ∃ r, fetches row r) (join_df_download df_local df_fusion).
Proof.
  apply Forall_forall. intros row Hrow.
  unfold join_df_download in Hrow.
  apply list_elem_of_In, filter_In in Hrow as [Hrow _].
  rewrite merge_mirror in Hrow.
  apply list_elem_of_In, list_elem_of_fmap in Hrow as (j & -> & Hj).
  apply elem_of_merge_left in Hj as (r & _ & [[-> _] | (l & _ & Hu & ->)]);
    exists r; split; simpl; try done.
Qed.

End Download.

(** ** The committed baseline *)

Section Baseline.
Import Py FsSync Spec.
Context {W : Type} `{World W}.

Lemma committable_test (res : list outcome) :
  ((length res =? 0)%nat || forallb succeeded res)%bool = true ↔ committable res.
Proof.
  unfold committable. rewrite orb_true_iff, Nat.eqb_eq, forallb_forall, Forall_forall.
  split; (intros [Hl|Ha]; [left | right]).
  - by destruct res.
  - intros [[ok p] m] Ho. by apply (Ha (ok, p, m)), list_elem_of_In.
  - by subst.
  - intros [[ok p] m] Ho. by apply (Ha (ok, p, m)), list_elem_of_In.
Qed.

(** X23.  In a cycle whose scan returns a local state different from the
    committed one, and whose transfer returns the result batch [res], the
    loop goes on with a baseline that is the scanned state if and only if
    [res] is empty or the first component of every outcome of [res] is
    [True]; otherwise, and so whenever an outcome reports failure, the
    baseline is the one the cycle started with. *)
Theorem cycle_commits_iff_batch_succeeded
    (datasets : nat) (catalog direction : string) (flatten : bool)
    (dataset_format : option string) (show_progress : bool)
    (local_state : dataframe) (s s1 s3 : st W)
    (local_state_temp : local_frame) (fusion_state : fusion_frame)
    (res : list outcome) :
  let ds := default [] (lists s !! datasets) in
  _get_local_state ds catalog dataset_format s = (inr local_state_temp, s1) →
  LocalState local_state_temp ≠ local_state →
  _get_fusion_df (world s1) ds catalog flatten dataset_format = inr fusion_state →
  _synchronize local_state_temp fusion_state direction show_progress
    (logged (EvFusionDf ds) s1) = (inr res, s3) →
  ∃ local_state',
    fsync_cycle datasets catalog direction flatten dataset_format show_progress
      local_state s = (inr (Continue local_state'), s3) ∧
    (local_state' = LocalState local_state_temp ↔
     res = [] ∨ Forall (λ '(ok, _, _), ok = true) res) ∧
    (Exists (λ '(ok, _, _), ok = false) res → local_state' = local_state).
Proof.
  intros ds Hscan Hne Hfus Hsync.
  assert (fsync_cycle datasets catalog direction flatten dataset_format show_progress
            local_state s =
          (inr (Continue (if ((length res =? 0)%nat || forallb succeeded res)%bool
                          then LocalState local_state_temp else local_state)), s3)) as Hrun.
  { unfold fsync_cycle, cycle_body, deref.
    unfold mbind, M_bind. unfold bind at 1. unfold gets at 1. fold ds.
    unfold bind at 1. rewrite Hscan.
    unfold equals. rewrite bool_decide_eq_false_2 by done. cbn [negb].
    unfold bind at 1. unfold query, emit, mbind, M_bind, bind, modify, gets, lift. simpl.
    rewrite Hfus. simpl. unfold logged in Hsync. rewrite Hsync.
    by destruct (_ || _)%bool. }
  eexists. split; [exact Hrun|].
  destruct ((length res =? 0)%nat || forallb succeeded res)%bool eqn:Hc.
  - apply committable_test in Hc. split; [done|].
    intros Hex. exfalso. apply Exists_exists in Hex as ([[ok p] m] & Ho & Hfail).
    destruct Hc as [->|Hall]; [by apply elem_of_nil in Ho|].
    rewrite Forall_forall in Hall. specialize (Hall _ Ho). simpl in *. congruence.
  - assert (¬ committable res) as Hn.
    { intros Hc'. apply committable_test in Hc'. congruence. }
    split; [|done]. split; [|done]. intros Heq. by symmetry in Heq.
Qed.

(** C4.  A dataset without local files whose remote inventory has no
    distribution: the scan returns a frame without rows whose columns are
    [float64], the remote frame has no row and [object] columns, and the
    transfer plan of the two inventories is empty.  The cycle does not
    commit the scanned state: [merge] refuses the key columns, the
    [ValueError] is caught by the loop, no executor is called, and the loop
    goes on with the baseline it had. *)
Theorem C4_empty_inventories_do_not_commit
    (datasets : nat) (catalog direction : string) (flatten : bool)
    (dataset_format : option string) (show_progress : bool)
    (local_state : dataframe) (s s1 : st W) :
  let ds := default [] (lists s !! datasets) in
  direction = "upload" ∨ direction = "download" →
  _get_local_state ds catalog dataset_format s = (inr (Frame float64 []), s1) →
  _get_fusion_df (world s1) ds catalog flatten dataset_format = inr (Frame object []) →
  local_state ≠ LocalState (Frame float64 []) →
  join_df direction ([] : list local_row) ([] : list fusion_row) = Some [] ∧
  fsync_cycle datasets catalog direction flatten dataset_format show_progress
    local_state s = (inr (Continue local_state), logged (EvFusionDf ds) s1).
Proof.
  intros ds Hdir Hscan Hfus Hne. split.
  { by destruct Hdir as [-> | ->]. }
  destruct (synchronize_refused (Frame float64 []) (Frame object []) direction
              show_progress (logged (EvFusionDf ds) s1) eq_refl Hdir) as [msg Hsync].
  unfold fsync_cycle, cycle_body, deref.
  unfold mbind, M_bind. unfold bind at 1. unfold gets at 1. fold ds.
  unfold bind at 1. rewrite Hscan.
  unfold equals. rewrite bool_decide_eq_false_2 by (by intros Heq; apply Hne).
  cbn [negb].
  unfold bind at 1. unfold query, emit, mbind, M_bind, bind, modify, gets, lift. simpl.
  rewrite Hfus. simpl. unfold logged in Hsync. rewrite Hsync. reflexivity.
Qed.

(** Whatever happens in a cycle, the baseline it leaves is the one it
    started with or the state it scanned. *)
Lemma cycle_baseline_old_or_scanned
    (datasets : nat) (catalog direction : string) (flatten : bool)
    (dataset_format : option string) (show_progress : bool)
    (local_state local_state' : dataframe) (s s' : st W) :
  fsync_cycle datasets catalog direction flatten dataset_format show_progress
    local_state s = (inr (Continue local_state'), s') →
  local_state' = local_state ∨
  ∃ tmp s1,
    _get_local_state (default [] (lists s !! datasets)) catalog dataset_format s
      = (inr tmp, s1) ∧
    local_state' = LocalState tmp.
Proof.
  unfold fsync_cycle.
  destruct (cycle_body _ _ _ _ _ _ _ s) as [[e|new] s2] eqn:Hbody.
  - destruct (bool_decide _).
    + unfold input, emit, mbind, M_bind, bind, modify. simpl.
      destruct (stdin s2) as [|[line|] rest]; [done| |done]. simpl.
      destruct (negb _); [intros [= <- _]; by left | done].
    + destruct (is_Exception e); [intros [= <- _]; by left|done].
  - intros [= <- <-]. revert Hbody. unfold cycle_body, deref.
    unfold mbind, M_bind. unfold bind at 1. unfold gets at 1.
    unfold bind at 1.
    destruct (_get_local_state _ _ _ s) as [[e|tmp] s1] eqn:Hscan; [done|].
    destruct (negb _).
    + unfold bind at 1.
      destruct (query _ _ s1) as [[e|fus] s2']; [done|].
      unfold bind at 1.
      destruct (_synchronize _ _ _ _ s2') as [[e|res] s3']; [done|].
      destruct (_ || _)%bool; intros [= <- _]; [right; eauto | by left].
    + unfold bind at 1, emit, modify. simpl. intros [= <- _]. by left.
Qed.

End Baseline.

(** ** Startup *)

Section Startup.
Import Py FsSync Spec.
Context {W : Type} `{World W}.

(** Expanding the products appends the identifiers of each to the list
    object, in order, and changes nothing else. *)
Lemma expand_products (products : list string) :
  ∀ (idss : list (list string)) (r : nat) (s : st W),
    Forall2 (λ p ids, cat_resources (world s) p = inr ids) products idss →
    for_each products (expand_product r) s = (inr tt, expanded products (concat idss) r s).
Proof.
  induction products as [|p ps IH]; intros idss r s Hall.
  - apply Forall2_nil_inv_l in Hall as ->. simpl. unfold ret, expanded, lookups. simpl.
    f_equal. destruct s as [w ls tr inp]. simpl. f_equal.
    + symmetry. apply list_alter_id. intros x. apply app_nil_r.
    + by rewrite app_nil_r.
  - apply Forall2_cons_inv_l in Hall as (ids & idss' & Hp & Hps & ->).
    cbn [for_each]. unfold bind at 1.
    unfold expand_product, query, extend, emit, mbind, M_bind, bind, modify, gets, lift.
    simpl. rewrite Hp. simpl.
    rewrite (IH idss' r) by done. unfold expanded, lookups. simpl. f_equal. f_equal.
    + rewrite list_alter_alter_eq. apply list_alter_ext; [|done].
      intros x _. simpl. by rewrite app_assoc.
    + by rewrite <- app_assoc.
Qed.

(** An expansion that fails part of the way has made catalog lookups
    only. *)
Lemma expand_products_trace (products : list string) :
  ∀ (r : nat) (s s' : st W) (res : exn + unit),
    for_each products (expand_product r) s = (res, s') →
    world s' = world s ∧ stdin s' = stdin s ∧
    ∃ done_, trace s' = trace s ++ lookups done_.
Proof.
  induction products as [|p ps IH]; intros r s s' res.
  - simpl. intros [= <- <-]. repeat split. exists []. by rewrite app_nil_r.
  - cbn [for_each]. unfold bind at 1.
    unfold expand_product, query, extend, emit, mbind, M_bind, bind, modify, gets, lift.
    simpl. destruct (cat_resources (world s) p) as [e|ids]; simpl.
    + intros [= <- <-]. simpl. repeat split. by exists [p].
    + intros Hrest. apply IH in Hrest as (Hw & Hi & done_ & Ht). simpl in *.
      repeat split; [done..|]. exists (p :: done_). rewrite Ht.
      by rewrite <- app_assoc.
Qed.

Lemma concat_all_nil {A} (xs : list (list A)) :
  Forall (λ x, x = []) xs → concat xs = [].
Proof. induction 1 as [|x xs -> _ IH]; [done|]. by simpl. Qed.

Lemma direction_test (direction : string) :
  bool_decide (direction ∈ ["upload"; "download"]) = true ↔
  direction = "upload" ∨ direction = "download".
Proof.
  rewrite bool_decide_eq_true. rewrite !elem_of_cons. split.
  - intros [?|[?|?%elem_of_nil]]; [by left | by right | done].
  - intros [?|?]; [by left | right; by left].
Qed.

(** The checks raise an [AssertionError], after catalog lookups only, when
    the selections are both empty, or the direction is unknown, or the list
    of datasets is empty and every product expands to nothing. *)
Lemma checks_fail (products : list string) (r : nat) (direction : string) (s : st W) :
  let ds := default [] (lists s !! r) in
  (products = [] ∧ ds = []) ∨
  ¬ (direction = "upload" ∨ direction = "download") ∨
  (ds = [] ∧ Forall (λ p, cat_resources (world s) p = inr []) products) →
  ∃ msg s',
    fsync_checks products r direction s = (inl (Exn AssertionError msg), s') ∧
    world s' = world s ∧ stdin s' = stdin s ∧
    ∃ done_, trace s' = trace s ++ lookups done_.
Proof.
  intros ds Hcase. unfold fsync_checks, deref.
  unfold mbind, M_bind. unfold bind at 1. unfold gets at 1. fold ds.
  unfold bind at 1.
  destruct ((0 <? length products)%nat || (0 <? length ds)%nat)%bool eqn:Hne; simpl.
  2:{ eexists _, s. split; [reflexivity|]. repeat split. exists []. by rewrite app_nil_r. }
  unfold bind at 1.
  destruct (bool_decide (direction ∈ ["upload"; "download"])) eqn:Hdir; simpl.
  2:{ eexists _, s. split; [reflexivity|]. repeat split. exists []. by rewrite app_nil_r. }
  apply direction_test in Hdir.
  destruct Hcase as [[-> Hds] | [Hbad | [Hds Hall]]].
  - rewrite Hds in Hne. discriminate.
  - done.
  - unfold bind at 1.
    rewrite (expand_products products ((λ _, []) <$> products) r s).
    2:{ apply Forall2_fmap_r, Forall_Forall2_diag. done. }
    rewrite concat_all_nil by (apply Forall_fmap, Forall_true; done).
    unfold bind at 1, gets at 1, expanded. simpl.
    rewrite list_lookup_alter_eq. fold ds. 
    assert (default [] ((λ l, l ++ []) <$> lists s !! r) = []) as ->.
    { subst ds. destruct (lists s !! r) as [l|]; simpl in *; [|done].
      by rewrite Hds. }
    simpl. eexists _, _. split; [reflexivity|]. simpl. repeat split. by exists products.
Qed.

(** When the checks pass, the list object holds what it held, followed by
    the identifiers of every product, and nothing else has changed. *)
Lemma checks_pass (products : list string) (idss : list (list string)) (r : nat)
    (direction : string) (s : st W) :
  direction = "upload" ∨ direction = "download" →
  Forall2 (λ p ids, cat_resources (world s) p = inr ids) products idss →
  default [] (lists s !! r) ++ concat idss ≠ [] →
  (r < length (lists s))%nat →
  fsync_checks products r direction s = (inr tt, expanded products (concat idss) r s).
Proof.
  intros Hdir Hall Hne Hr. unfold fsync_checks, deref.
  unfold mbind, M_bind. unfold bind at 1. unfold gets at 1.
  destruct (lookup_lt_is_Some_2 _ _ Hr) as [l Hl]. rewrite Hl in Hne |- *. simpl in Hne |- *.
  assert (((0 <? length products)%nat || (0 <? length l)%nat)%bool = true) as ->.
  { apply orb_true_iff. rewrite !Nat.ltb_lt.
    destruct products as [|p ps]; [|left; simpl; lia]. right.
    apply Forall2_nil_inv_l in Hall as ->. simpl in Hne. rewrite app_nil_r in Hne.
    destruct l; [done | simpl; lia]. }
  unfold bind at 1. simpl.
  apply direction_test in Hdir. rewrite Hdir. unfold bind at 1. simpl.
  unfold bind at 1. rewrite (expand_products products idss r s Hall).
  unfold bind at 1, gets at 1, expanded. simpl.
  rewrite list_lookup_alter_eq, Hl. simpl.
  destruct (l ++ concat idss) eqn:E; [done|]. reflexivity.
Qed.

End Startup.

Section StartupClaims.
Import Py FsSync Spec.
Context {W : Type} `{World W}.

(** C10.  When the caller passes a non-empty list of datasets and a
    non-empty list of products, the direction is valid and every product
    can be looked up, the statements before the loop complete and the loop
    works on the caller's own list object: no list is allocated, the
    caller's list holds what it held followed by the dataset identifiers of
    every product, in order, and no other list object changes. *)
Theorem C10_caller_datasets_list_extended (products : list string)
    (idss : list (list string)) (r : nat) (l : list string)
    (catalog : option string) (direction : string) (s : st W) :
  lists s !! r = Some l → l ≠ [] → products ≠ [] →
  direction = "upload" ∨ direction = "download" →
  Forall2 (λ p ids, cat_resources (world s) p = inr ids) products idss →
  ∃ c s',
    fsync_startup (Some products) (Some r) catalog direction s = (inr (c, r), s') ∧
    lists s' !! r = Some (l ++ concat idss) ∧
    length (lists s') = length (lists s) ∧
    ∀ r', r' ≠ r → lists s' !! r' = lists s !! r'.
Proof.
  intros Hl Hne _ Hdir Hall.
  unfold fsync_startup, datasets_or_new, deref.
  unfold mbind, M_bind. unfold bind at 1. unfold bind at 1, gets at 1.
  rewrite Hl. simpl. destruct l as [|x l']; [done|]. unfold mret, M_ret, ret at 1.
  unfold bind at 1. simpl.
  rewrite (checks_pass products idss r direction s Hdir Hall).
  - eexists _, _. split; [reflexivity|]. unfold expanded. simpl.
    split; [by rewrite list_lookup_alter_eq, Hl|].
    split; [by rewrite length_alter|].
    intros r' Hr'. by rewrite list_lookup_alter_ne.
  - rewrite Hl. simpl. done.
  - by apply lookup_lt_Some in Hl.
Qed.

(** C8.  [fsync] raises an [AssertionError] before its first cycle when the
    two selections are both empty, or the direction is neither upload nor
    download, or no dataset was given and every product expands to no
    dataset.  By then it has made catalog lookups of products only: no
    scan, no remote inventory and no transfer. *)
Theorem C8_startup_preconditions (iterations : nat) (products : option (list string))
    (datasets : option nat) (catalog : option string) (direction : string)
    (flatten : bool) (dataset_format : option string) (show_progress : bool) (s : st W) :
  let ps := default [] products in
  let given := default [] (datasets ≫= λ r, lists s !! r) in
  (ps = [] ∧ given = []) ∨
  ¬ (direction = "upload" ∨ direction = "download") ∨
  (given = [] ∧ Forall (λ p, cat_resources (world s) p = inr []) ps) →
  ∃ msg s',
    fsync iterations products datasets catalog direction flatten dataset_format
      show_progress s = (inl (Exn AssertionError msg), s') ∧
    world s' = world s ∧ stdin s' = stdin s ∧
    ∃ done_, trace s' = trace s ++ lookups done_.
Proof.
  intros ps given Hcase.
  assert (∃ r s0, datasets_or_new datasets s = (inr r, s0) ∧
            world s0 = world s ∧ stdin s0 = stdin s ∧ trace s0 = trace s ∧
            default [] (lists s0 !! r) = given) as (r & s0 & Hnorm & Hw & Hi & Ht & Hg).
  { unfold datasets_or_new, deref, given.
    unfold mbind, M_bind, bind, gets, new_list, mret, M_ret, ret.
    destruct datasets as [r|]; simpl.
    - destruct (lists s !! r) as [[|x l]|] eqn:Hl; simpl.
      + eexists _, _. split; [reflexivity|]. simpl. repeat split.
        rewrite lookup_app_r by lia. by rewrite Nat.sub_diag.
      + eexists _, _. split; [reflexivity|]. repeat split. by rewrite Hl.
      + eexists _, _. split; [reflexivity|]. simpl. repeat split.
        rewrite lookup_app_r by lia. by rewrite Nat.sub_diag.
    - eexists _, _. split; [reflexivity|]. simpl. repeat split.
      rewrite lookup_app_r by lia. by rewrite Nat.sub_diag. }
  destruct (checks_fail ps r direction s0) as (msg & s' & Hrun & Hw' & Hi' & done_ & Ht').
  { rewrite Hg, Hw. exact Hcase. }
  exists msg, s'. split; [|repeat split; [congruence.. | exists done_; congruence]].
  unfold fsync, fsync_startup. unfold mbind, M_bind. unfold bind at 1. unfold bind at 1.
  rewrite Hnorm. unfold bind at 1. fold ps. rewrite Hrun. reflexivity.
Qed.

End StartupClaims.

(** ** The local scan *)

Section Scan.
Import Py FileObj FsSync Spec.
Context {W : Type} `{World W}.

Lemma query_run {A} (ev : event) (f : W → exn + A) (s : st W) :
  query ev f s = (f (world s), logged ev s).
Proof.
  unfold query, emit, mbind, M_bind, bind, modify, gets, lift, logged. simpl.
  by destruct (f (world s)).
Qed.

Lemma query_pure {A} (ev : event) (g : W → A) (s : st W) :
  query ev (λ w, inr (g w)) s = (inr (g (world s)), logged ev s).
Proof. apply query_run. Qed.

Lemma elem_of_insert_sorted (r x : nat * local_row) (l : indexed_rows) :
  x ∈ insert_sorted r l ↔ x = r ∨ x ∈ l.
Proof.
  induction l as [|y l IH]; simpl.
  - rewrite list_elem_of_singleton. split; [by left | intros [?|?%elem_of_nil]; done].
  - destruct (path_le _ _); rewrite !elem_of_cons; [done|].
    rewrite IH. tauto.
Qed.

Lemma elem_of_sort_values (x : nat * local_row) (df : indexed_rows) :
  x ∈ sort_values df ↔ x ∈ df.
Proof.
  unfold sort_values. induction df as [|y df IH]; simpl; [done|].
  rewrite elem_of_insert_sorted, elem_of_cons, IH. done.
Qed.

(** [drop_duplicates] drops rows, never the last copy of one. *)
Lemma drop_duplicates_from_keeps (df : indexed_rows) :
  ∀ (seen : list local_row) (row : local_row),
    row ∈ (snd <$> df) → row ∉ seen → row ∈ (snd <$> drop_duplicates_from seen df).
Proof.
  induction df as [|x df IH]; intros seen row Hin Hseen; simpl in *.
  - by apply elem_of_nil in Hin.
  - apply elem_of_cons in Hin. case_bool_decide as Hx.
    + destruct Hin as [->|Hin]; [done|]. by apply IH.
    + simpl. destruct (decide (row = x.2)) as [->|Hne]; [by left|].
      right. destruct Hin as [?|Hin]; [done|].
      apply IH; [done|]. by intros [?|?]%elem_of_cons.
Qed.

Lemma generate_md5_token_run (path : string) (content : list byte) (s : st W) :
  fs_open (world s) path = inr content →
  _generate_md5_token path s =
  (inr (md5_token_of_blocks 4096 (File content 0)), logged (EvOpen path) s).
Proof.
  intros Hc. unfold _generate_md5_token.
  unfold mbind, M_bind. unfold bind at 1. by rewrite query_run, Hc.
Qed.

(** Every file that opens gets its digest, and the world is as before. *)
Lemma digests_of_files (paths : list string) :
  ∀ s : st W,
    Forall (λ f, ∃ c, fs_open (world s) f = inr c) paths →
    ∃ md5s s',
      mapM _generate_md5_token paths s = (inr md5s, s') ∧
      length md5s = length paths ∧ world s' = world s.
Proof.
  induction paths as [|f paths IH]; intros s Hall.
  - by exists [], s.
  - apply Forall_cons in Hall as [[c Hc] Hall].
    rewrite mapM_cons, (generate_md5_token_run f c s Hc).
    destruct (IH (logged (EvOpen f) s) Hall) as (md5s & s' & -> & Hlen & Hw).
    eexists _, _. split; [reflexivity|]. simpl. by rewrite Hlen.
Qed.

Lemma mbind_run {St A B} (c : M St A) (k : A → M St B) (s s' : St) (a : A) :
  c s = (inr a, s') → (c ≫= k) s = k a s'.
Proof. intros Hc. unfold mbind, M_bind, bind. by rewrite Hc. Qed.

(** One directory that exists: [local_files] is every file found, followed
    by the accepted ones once more. *)
Lemma local_dir_step_run (acc : list string * list string) (local_dir : string)
    (flags : list bool) (s : st W) :
  let found := fs_find (world s) local_dir in
  let local_rel_path := (λ i, slice_from i (find i local_dir)) <$> found in
  let local_files := found ++ (snd <$> List.filter fst (zip flags found)) in
  fs_exists (world s) local_dir = true →
  validate_file_names (world s) local_rel_path = inr flags →
  local_dir_step acc local_dir s =
  (inr (local_files,
        acc.2 ++ ((λ i, replace_char "\" "/" (os_path_join local_dir (relpath i local_dir)))
                    <$> local_files)),
   logged (EvValidate local_rel_path) (logged (EvFind local_dir)
     (logged (EvExists local_dir) s))).
Proof.
  intros found local_rel_path local_files Hex Hval. unfold local_dir_step.
  erewrite mbind_run by apply (query_pure _ (λ w, fs_exists w local_dir)).
  cbn [world logged]. rewrite Hex.
  cbn [negb]. erewrite mbind_run by reflexivity.
  erewrite mbind_run by apply (query_pure _ (λ w, fs_find w local_dir)).
  cbn [world logged]. fold found local_rel_path.
  erewrite mbind_run by (rewrite query_run; cbn [world logged]; rewrite Hval; reflexivity).
  reflexivity.
Qed.

(** Every path that has a URL gets it, and the state is as before. *)
Lemma urls_of_files (paths : list string) (s : st W) :
  Forall (λ f, ∃ u, path_to_url f = inr u) paths →
  ∃ urls,
    mapM (λ i, lift (path_to_url i) : M (st W) string) paths s = (inr urls, s) ∧
    length urls = length paths.
Proof.
  induction paths as [|f paths IH]; intros Hall.
  - by exists [].
  - apply Forall_cons in Hall as [[u Hu] Hall].
    destruct (IH Hall) as (urls & Hrun & Hlen).
    exists (u :: urls). rewrite mapM_cons, Hu. simpl. rewrite Hrun. simpl.
    by rewrite Hlen.
Qed.

(** The scan of one existing directory, without a format filter, lists
    every file found there, whatever the validator answered, when every
    file opens and has a URL. *)
Lemma scan_keeps_every_file (dataset catalog : string) (flags : list bool) (s : st W) :
  let local_dir := catalog +:+ "/" +:+ dataset in
  let found := fs_find (world s) local_dir in
  fs_exists (world s) local_dir = true →
  validate_file_names (world s) ((λ i, slice_from i (find i local_dir)) <$> found)
    = inr flags →
  Forall (λ f, ∃ c, fs_open (world s) f = inr c) found →
  Forall (λ f, ∃ u, path_to_url f = inr u) found →
  ∃ df s',
    _get_local_state [dataset] catalog None s = (inr df, s') ∧
    ∀ f, f ∈ found →
      Some (replace_char "\" "/" (os_path_join local_dir (relpath f local_dir)))
        ∈ (l_path ∘ snd <$> df_rows df).
Proof.
  intros local_dir found Hex Hval Hopen Hurl.
  set (valid := snd <$> List.filter fst (zip flags found)).
  set (g := λ i, replace_char "\" "/" (os_path_join local_dir (relpath i local_dir))).
  pose proof (local_dir_step_run ([], []) local_dir flags s Hex Hval) as Hstep.
  cbv zeta in Hstep. fold found valid g in Hstep. simpl in Hstep.
  set (s1 := logged _ (logged _ (logged _ s))) in Hstep.
  assert (Forall (λ f, ∃ c, fs_open (world s1) f = inr c) (found ++ valid)) as Hall.
  { apply Forall_app. split; [done|]. apply Forall_forall. intros f Hf.
    rewrite Forall_forall in Hopen. apply Hopen.
    subst valid. apply list_elem_of_fmap in Hf as ([b f'] & -> & Hf).
    apply list_elem_of_In, filter_In in Hf as [Hf _].
    apply list_elem_of_In, elem_of_zip_r in Hf. done. }
  destruct (digests_of_files (found ++ valid) s1 Hall) as (md5s & s2 & Hrun & Hlen & _).
  assert (Forall (λ f, ∃ u, path_to_url f = inr u) (found ++ valid)) as Hall'.
  { apply Forall_app. split; [done|]. apply Forall_forall. intros f Hf.
    rewrite Forall_forall in Hurl. apply Hurl.
    subst valid. apply list_elem_of_fmap in Hf as ([b f'] & -> & Hf).
    apply list_elem_of_In, filter_In in Hf as [Hf _].
    apply list_elem_of_In, elem_of_zip_r in Hf. done. }
  destruct (urls_of_files (found ++ valid) s2 Hall') as (urls & Hurls & Hulen).
  unfold _get_local_state. cbn [length Nat.ltb Nat.leb fmap list_fmap for_dirs].
  fold local_dir.
  erewrite mbind_run
    by (erewrite mbind_run by exact Hstep; reflexivity).
  cbv beta iota zeta. erewrite mbind_run by exact Hrun.
  erewrite mbind_run by exact Hurls.
  eexists _, _. split; [reflexivity|].
  intros f Hf. apply list_elem_of_lookup in Hf as [i Hi].
  assert (i < length found)%nat as Hlt by (by apply lookup_lt_Some in Hi).
  set (row := LocalRow (Some (g f)) (urls !! i) (md5s !! i)).
  assert (row ∈ (snd <$> drop_duplicates
                   (sort_values (rows_of_columns (g <$> (found ++ valid)) urls md5s))))
    as Hrow.
  { apply drop_duplicates_from_keeps; [|apply not_elem_of_nil].
    apply list_elem_of_fmap. exists (i, row). split; [done|].
    apply elem_of_sort_values. unfold rows_of_columns.
    apply list_elem_of_fmap. exists i. split.
    - subst row. rewrite !list_lookup_fmap. rewrite lookup_app_l by done.
      by rewrite Hi.
    - apply elem_of_seq. rewrite !length_fmap, length_app. lia. }
  apply list_elem_of_fmap in Hrow as (x & Hx & Hin).
  apply list_elem_of_fmap. exists x. split; [|done]. simpl. by rewrite <- Hx.
Qed.

End Scan.

(** ** More on the header dictionaries and on [put] *)

Section Headers.
Import Py FileObj FusionFilesystem Spec.

Lemma iter_read_end (size : Z) (f : file) :
  content (iter_read size f).2 = content f.
Proof.
  induction f as [f IH] using (iter_read_ind size).
  rewrite iter_read_eq. destruct (read size f) as [[|b chunk] f'] eqn:Hr.
  - unfold read in Hr. by injection Hr as _ <-.
  - simpl. rewrite (IH b chunk f' eq_refl). unfold read in Hr. by injection Hr as _ <-.
Qed.

(** A negative size reads everything that is left in one block. *)
Lemma iter_read_negative (size : Z) (f : file) :
  size < 0 → remaining f ≠ [] → (iter_read size f).1 = [remaining f].
Proof.
  intros Hs Hne.
  assert ((size <? 0) = true) as Hneg by (by apply Z.ltb_lt).
  set (f' := File (content f) (pos f + length (remaining f))).
  assert (read size f = (remaining f, f')) as Hr.
  { unfold read. simpl. by rewrite Hneg. }
  assert (read size f' = ([], f')) as Hr'.
  { unfold read. rewrite Hneg.
    assert (remaining f' = []) as ->.
    { unfold remaining, f'. simpl. rewrite <- drop_drop. by apply drop_all. }
    simpl. unfold f'. simpl. by rewrite Nat.add_0_r. }
  rewrite iter_read_eq, Hr. destruct (remaining f) as [|b rest]; [done|].
  simpl. by rewrite iter_read_eq, Hr'.
Qed.


(** X2.  The chunk headers are fresh objects: the references returned are
    pairwise distinct, none is the reference of the file headers, none
    existed before the call, and no dictionary that existed before the call
    is changed.  Every chunk header has the two entries [Content-Type] and
    [Digest] and no other. *)
Theorem construct_headers_fresh {U : Type} (f : file) (dt_iso : string) (url : U)
    (op : option string) (chunk_size : Z) (h0 : list dict) :
  let '((headers, lst), _, h) := _construct_headers f dt_iso url op chunk_size h0 in
  NoDup lst ∧ (headers ∉ lst) ∧
  (∀ r, r ∈ lst → length h0 ≤ r)%nat ∧
  (∀ r, r < length h0 → h !! r = h0 !! r)%nat ∧
  (∀ r, r ∈ lst → ∃ d, h !! r = Some d ∧
     dom d = ({[ "Content-Type"; "Digest" ]} : gset string) ∧
     d !! "Content-Type" = Some "application/octet-stream").
Proof.
  rewrite construct_headers_spec.
  set (chunks := (iter_read chunk_size f).1).
  split; [apply NoDup_seq|]. split; [intros Hin%elem_of_seq; lia|].
  split; [intros r Hin%elem_of_seq; lia|].
  split; [intros r Hr; by rewrite lookup_app_l|].
  intros r Hin%elem_of_seq.
  destruct (lookup_lt_is_Some_2 chunks (r - S (S (length h0))) ltac:(lia)) as [c Hc].
  exists (chunk_header (<["Content-Type" := "application/octet-stream"]> ∅) [] chunks
            (r - S (S (length h0))) c).
  split; [|split].
  - rewrite lookup_app_r by lia.
    replace (r - length h0)%nat with (S (S (r - S (S (length h0))))) by lia. simpl.
    by rewrite list_lookup_imap, Hc.
  - unfold chunk_header. rewrite !dom_insert_L, dom_empty_L. set_solver.
  - unfold chunk_header. by rewrite lookup_insert_ne, lookup_insert_eq.
Qed.

(** X3.  The two sizes for which the loop does not cut the payload: with
    [chunk_size] 0 the first read is empty, so there is no chunk header and
    the [Digest] of the file headers is the digest of the empty byte
    sequence whatever the payload; with [chunk_size] -1 a non-empty payload
    is read as one block, with one chunk header, whose digest is that of
    the file headers. *)
Theorem construct_headers_degenerate_sizes {U : Type} (payload : list byte)
    (dt_iso : string) (url : U) (op : option string) (h0 : list dict) :
  (let '((headers, lst), _, h) :=
     _construct_headers (File payload 0) dt_iso url op 0 h0 in
   lst = [] ∧ digest_of h headers = Some "md5=1B2M2Y8AsgTpgAmY7PhCfg==") ∧
  (payload ≠ [] →
   let '((headers, lst), _, h) :=
     _construct_headers (File payload 0) dt_iso url op (-1) h0 in
   ∃ r, lst = [r] ∧ digest_of h r = digest_of h headers ∧
     digest_of h headers = Some ("md5=" +:+ Base64.b64encode (Hashlib.md5 payload))).
Proof.
  split.
  - rewrite construct_headers_spec, iter_read_zero. simpl. split; [done|].
    unfold digest_of. rewrite lookup_app_r by lia. rewrite Nat.sub_diag. simpl.
    rewrite lookup_insert_eq. f_equal.
  - intros Hne. rewrite construct_headers_spec.
    rewrite (iter_read_negative (-1) (File payload 0)) by (done || lia).
    unfold remaining. simpl. eexists. split; [reflexivity|].
    unfold digest_of. rewrite !lookup_app_r by lia.
    replace (S (S (length h0)) - length h0)%nat with 2%nat by lia.
    rewrite Nat.sub_diag. simpl. unfold chunk_header. rewrite !lookup_insert_eq.
    simpl. by rewrite app_nil_r.
Qed.

End Headers.

Section SingleShot.
Import Py FileObj FusionFilesystem Spec.
Context `{Session}.

Lemma index_third_from_end (rpath seg : string) (s : pst) :
  third_from_end rpath = Some seg → index (split "/" rpath) (-3) s = (inr seg, s).
Proof.
  unfold third_from_end, index. set (segs := split "/" rpath).
  destruct (3 <=? length segs)%nat eqn:Hlen; [|done]. apply Nat.leb_le in Hlen.
  intros Hseg. simpl.
  assert ((0 <=? Z.of_nat (length segs) + -3) && (Z.of_nat (length segs) + -3 <? Z.of_nat (length segs)) = true)%bool as ->.
  { apply andb_true_iff. split; [apply Z.leb_le | apply Z.ltb_lt]; lia. }
  replace (Z.to_nat (Z.of_nat (length segs) + -3)) with (length segs - 3)%nat by lia.
  by rewrite Hseg.
Qed.

Lemma read_all_from_start (data : list byte) :
  read (-1) (File data 0) = (data, File data (length data)).
Proof. reflexivity. Qed.

(** X4.  A single-shot [put] (no multipart) with a method that is post or
    put in any letter case, on a path with a date segment, makes exactly
    one request: to the decorated path, with the lower-cased method, the
    whole content of the file as its body (the file was rewound), and
    headers whose dates are the date of the path and whose [Digest] is the
    digest of the bytes that followed the position the file was at.  What
    [put] returns is the status check of the answer to that request; in
    particular it returns normally for a status below 400. *)
Theorem put_single_shot (rpath method : string) (chunk_size : Z) (f : file)
    (h0 : list dict) (sent : list request) (seg dt_iso : string) :
  lower method ∈ ["post"; "put"] →
  third_from_end rpath = Some seg →
  timestamp_strftime seg = inr dt_iso →
  ∃ hdr h,
    let rq := single_shot method (_decorate_url rpath) hdr (content f) in
    let s' := Pst (File (content f) (length (content f))) h (sent ++ [rq]) in
    put rpath chunk_size method false (Pst f h0 sent) =
      _raise_not_found_for_status (send rq) (_decorate_url rpath) s' ∧
    (status (send rq) < 400 →
     put rpath chunk_size method false (Pst f h0 sent) = (inr tt, s')) ∧
    hdr !! "Digest" =
      Some ("md5=" +:+ Base64.b64encode (Hashlib.md5 (drop (pos f) (content f)))) ∧
    hdr !! "x-jpmc-distribution-created-date" = Some dt_iso ∧
    hdr !! "x-jpmc-distribution-from-date" = Some dt_iso ∧
    hdr !! "x-jpmc-distribution-to-date" = Some dt_iso ∧
    hdr !! "Content-Type" = Some "application/octet-stream".
Proof.
  intros Hm Hseg Hts.
  pose proof (construct_headers_spec f dt_iso chunk_size None DEFAULT_CHUNK_SIZE h0) as Hc.
  cbv zeta in Hc.
  set (chunks := (iter_read DEFAULT_CHUNK_SIZE f).1) in *.
  set (hdr := <["Digest" := digest_header (concat chunks)]> _) in Hc.
  set (h := h0 ++ hdr :: _) in Hc.
  exists hdr, h. cbv zeta.
  set (rq := single_shot method (_decorate_url rpath) hdr (content f)).
  set (s' := Pst _ h _).
  assert (put rpath chunk_size method false (Pst f h0 sent) =
          _raise_not_found_for_status (send rq) (_decorate_url rpath) s') as Hput.
  { unfold put. erewrite mbind_run by (by apply index_third_from_end).
    unfold lift. rewrite Hts. erewrite mbind_run by reflexivity.
    erewrite mbind_run by reflexivity. erewrite mbind_run by reflexivity.
    cbn [p_file p_heap]. rewrite Hc. unfold seek. rewrite iter_read_end.
    erewrite mbind_run by reflexivity. cbn [p_sent].
    unfold _put_file. rewrite bool_decide_eq_true_2 by done. cbn [negb].
    erewrite mbind_run by reflexivity. cbn [p_file].
    rewrite read_all_from_start.
    erewrite mbind_run by reflexivity. cbn [p_heap p_sent].
    unfold mbind, M_bind, bind, http. cbn [p_heap p_file p_sent mbind option_bind].
    assert (h !! length h0 = Some hdr) as ->.
    { subst h. rewrite lookup_app_r by lia. by rewrite Nat.sub_diag. }
    reflexivity. }
  split; [exact Hput|]. split.
  - intros Hok. rewrite Hput. unfold _raise_not_found_for_status.
    destruct (status (send rq) =? 404) eqn:E1; [apply Z.eqb_eq in E1; lia|].
    destruct (400 <=? status (send rq)) eqn:E2; [apply Z.leb_le in E2; lia|].
    reflexivity.
  - subst hdr. rewrite lookup_insert_eq.
    subst chunks. rewrite iter_read_concat by done.
    repeat split; by vm_compute.
Qed.

(** X5.  With a method that is neither post nor put, in any letter case,
    [put] raises and makes no request, multipart or not; on a path with a
    date segment what it raises is the [ValueError] of [_put_file]. *)
Theorem put_rejects_other_methods (rpath method : string) (chunk_size : Z)
    (multipart : bool) (s : pst) :
  lower method ∉ ["post"; "put"] →
  ∃ e s',
    put rpath chunk_size method multipart s = (inl e, s') ∧
    p_sent s' = p_sent s ∧
    (∀ seg dt_iso, third_from_end rpath = Some seg → timestamp_strftime seg = inr dt_iso →
       exn_class_of e = ValueError).
Proof.
  intros Hm. unfold put. unfold mbind, M_bind. unfold bind at 1.
  pose proof (index_state (split "/" rpath) (-3) s) as Hst.
  destruct (index (split "/" rpath) (-3) s) as [[e|seg] s1] eqn:Hidx; simpl in Hst; subst s1.
  { eexists _, _. split; [reflexivity|]. split; [done|].
    intros seg dt Hseg _. rewrite (index_third_from_end rpath seg s Hseg) in Hidx. done. }
  unfold bind at 1, lift.
  destruct (timestamp_strftime seg) as [e|dt_iso] eqn:Hts.
  { eexists _, _. split; [reflexivity|]. split; [done|].
    intros seg' dt Hseg Hts'. rewrite (index_third_from_end rpath seg' s Hseg) in Hidx.
    injection Hidx as ->. congruence. }
  cbn [ret bind gets].
  destruct (_construct_headers (p_file s) dt_iso chunk_size None DEFAULT_CHUNK_SIZE (p_heap s))
    as [[[hdr lst] f'] h'].
  unfold bind at 1, modify.
  assert (∀ cs l s0, _put_file (_decorate_url rpath) cs method multipart hdr l s0 =
            (inl (Exn ValueError ("method has to be either 'post' or 'put', not: "
                                  +:+ repr (lower method))), s0)) as Hpf.
  { intros cs l s0. unfold _put_file. by rewrite bool_decide_eq_false_2. }
  destruct multipart; rewrite Hpf; (eexists _, _; split; [reflexivity|]; split; done).
Qed.

End SingleShot.

(** ** The downloads a batch attempts *)

Section Attempts.
Import Py FsSync Spec.
Context {W : Type} `{World W}.

Lemma gets_of_app (t1 t2 : list event) : gets_of (t1 ++ t2) = gets_of t1 ++ gets_of t2.
Proof. apply omap_app. Qed.

Lemma guarded_get (u p : string) (s : st W) :
  try_except
    (_ ← command (EvGet u p) (fusion_get u p); mret (true, p, None))
    (λ ex, let msg := str ex in mret (false, p, Some msg)) s =
  (match (fusion_get u p (world s)).1 with
   | inr _ => inr (true, p, None)
   | inl e => if is_Exception e then inr (false, p, Some (str e)) else inl e
   end,
   St (fusion_get u p (world s)).2 (lists s) (trace s ++ [EvGet u p]) (stdin s)).
Proof.
  unfold try_except, command, emit, mbind, M_bind, bind, modify, mret, M_ret, ret. simpl.
  destruct (fusion_get u p (world s)) as [[e|[]] w2]; simpl; [|done].
  by destruct (is_Exception e).
Qed.

(** One task: some calls that are no download, then the one download, whose
    result decides what the task returns or raises. *)
Lemma download_files_run (row : joined local_row fusion_row) (r : fusion_row) (s : st W) :
  fetches row r → mkdir_uninterrupted →
  ∃ t w1,
    gets_of t = [] ∧
    _download_files row s =
    (match (fusion_get (f_url r) (f_path r) w1).1 with
     | inr _ => inr (true, f_path r, None)
     | inl e => if is_Exception e then inr (false, f_path r, Some (str e)) else inl e
     end,
     St (fusion_get (f_url r) (f_path r) w1).2 (lists s)
        (trace s ++ t ++ [EvGet (f_url r) (f_path r)]) (stdin s)).
Proof.
  intros [Hr Hu] Hm. unfold _download_files, path_fusion. rewrite Hr, Hu. simpl.
  erewrite mbind_run by apply (query_pure _ (λ w, fs_exists w (f_path r))).
  cbn [world logged].
  destruct (fs_exists (world s) (f_path r)); cbn [negb].
  - erewrite mbind_run by reflexivity.
    exists [EvExists (f_path r)], (world s). split; [done|].
    rewrite guarded_get. unfold logged. simpl. by rewrite <- app_assoc.
  - set (s1 := logged _ s).
    destruct (try_except (command (EvMkdir (path_parent (f_path r)))
                (fs_mkdir (path_parent (f_path r)))) (λ _, mret ()) s1)
      as [res s2] eqn:Hmk.
    assert (res = inr tt ∧ lists s2 = lists s ∧ stdin s2 = stdin s ∧
            trace s2 = trace s ++ [EvExists (f_path r); EvMkdir (path_parent (f_path r))])
      as (-> & Hl & Hi & Ht).
    { revert Hmk. unfold try_except, command, emit, bind, modify, s1, logged. simpl.
      destruct (fs_mkdir (path_parent (f_path r)) (world s)) as [[e|[]] w'] eqn:Hmkdir;
        simpl.
      - rewrite (Hm _ _ _ _ Hmkdir). intros [= <- <-]. simpl.
        by rewrite <- app_assoc.
      - intros [= <- <-]. simpl. by rewrite <- app_assoc. }
    erewrite mbind_run by exact Hmk.
    exists [EvExists (f_path r); EvMkdir (path_parent (f_path r))], (world s2).
    split; [done|].
    rewrite guarded_get, Hl, Hi, Ht. by rewrite <- !app_assoc.
Qed.

Lemma download_each_run (df : list (joined local_row fusion_row)) :
  ∀ (rows : list fusion_row) (s s' : st W) (r : exn + list outcome),
    Forall2 fetches df rows → mkdir_uninterrupted →
    mapM _download_files df s = (r, s') →
    lists s' = lists s ∧ stdin s' = stdin s ∧
    ∃ t, trace s' = trace s ++ t ∧
      match r with
      | inr res => gets_of t = task_of <$> rows ∧ length res = length rows
      | inl e => is_Exception e = false ∧
                 ∃ k, (k < length rows)%nat ∧ gets_of t = task_of <$> take (S k) rows
      end.
Proof.
  induction df as [|row df IH]; intros rows s s' r Hf Hm.
  - apply Forall2_nil_inv_l in Hf as ->. intros [= <- <-].
    repeat split. exists []. by rewrite app_nil_r.
  - apply Forall2_cons_inv_l in Hf as (r0 & rows' & Hrow & Hf & ->).
    rewrite mapM_cons.
    destruct (download_files_run row r0 s Hrow Hm) as (t0 & w1 & Ht0 & ->).
    set (s1 := St _ _ _ _).
    destruct ((fusion_get (f_url r0) (f_path r0) w1).1) as [e|[]] eqn:Hget.
    + destruct (is_Exception e) eqn:He.
      * destruct (mapM _download_files df s1) as [r1 s2] eqn:Hrest.
        destruct (IH rows' s1 s2 r1 Hf Hm Hrest) as (Hl & Hi & t & Ht & Hr).
        assert (trace s2 = trace s ++ (t0 ++ [EvGet (f_url r0) (f_path r0)]) ++ t) as Htr.
        { rewrite Ht. subst s1. simpl. by rewrite <- !app_assoc. }
        assert (gets_of ((t0 ++ [EvGet (f_url r0) (f_path r0)]) ++ t) =
                task_of r0 :: gets_of t) as Hg.
        { rewrite !gets_of_app, Ht0. reflexivity. }
        destruct r1 as [e1|res]; intros [= <- <-];
          (split; [done|]; split; [done|]; eexists; split; [exact Htr|]).
        -- destruct Hr as (He1 & k & Hk & Hgk). split; [done|].
           exists (S k). split; [simpl; lia|]. by rewrite Hg, Hgk.
        -- destruct Hr as [Hgr Hlen]. split; [by rewrite Hg, Hgr | simpl; lia].
      * intros [= <- <-]. repeat split.
        exists (t0 ++ [EvGet (f_url r0) (f_path r0)]). split; [done|].
        split; [done|]. exists 0%nat. split; [simpl; lia|].
        rewrite gets_of_app, Ht0. simpl. by destruct rows'.
    + destruct (mapM _download_files df s1) as [r1 s2] eqn:Hrest.
      destruct (IH rows' s1 s2 r1 Hf Hm Hrest) as (Hl & Hi & t & Ht & Hr).
      assert (trace s2 = trace s ++ (t0 ++ [EvGet (f_url r0) (f_path r0)]) ++ t) as Htr.
      { rewrite Ht. subst s1. simpl. by rewrite <- !app_assoc. }
      assert (gets_of ((t0 ++ [EvGet (f_url r0) (f_path r0)]) ++ t) =
              task_of r0 :: gets_of t) as Hg.
      { rewrite !gets_of_app, Ht0. reflexivity. }
      destruct r1 as [e1|res]; intros [= <- <-];
        (split; [done|]; split; [done|]; eexists; split; [exact Htr|]).
      * destruct Hr as (He1 & k & Hk & Hgk). split; [done|].
        exists (S k). split; [simpl; lia|]. by rewrite Hg, Hgk.
      * destruct Hr as [Hgr Hlen]. split; [by rewrite Hg, Hgr | simpl; lia].
Qed.

(** X6.  A download batch that returns has requested each of its tasks
    exactly once, whether the tasks failed or not: nothing is skipped after
    a failure and nothing is retried.  The requests are those of the plan
    up to their order, which the workers of the batch decide.  The batch
    has left the list objects and the operator's input alone. *)
Theorem download_attempts_each_task_once (df : list (joined local_row fusion_row))
    (rows : list fusion_row) (show_progress : bool) (s s' : st W) (res : list outcome) :
  Forall2 fetches df rows → mkdir_uninterrupted →
  _download df show_progress s = (inr res, s') →
  length res = length rows ∧ lists s' = lists s ∧ stdin s' = stdin s ∧
  ∃ t, trace s' = trace s ++ t ∧ gets_of t ≡ₚ task_of <$> rows.
Proof.
  intros Hf Hm Hrun.
  assert (mapM _download_files df s = (inr res, s')) as Hmap.
  { revert Hrun. unfold _download, _get_loop. by destruct (1 <? length df)%nat. }
  destruct (download_each_run df rows s s' (inr res) Hf Hm Hmap)
    as (Hl & Hi & t & Ht & Hg & Hlen).
  repeat split; [done..|]. exists t. by rewrite Hg.
Qed.

End Attempts.

(** ** What a cycle raises and what it leaves alone *)

Section Calm.
Import Py FsSync Spec.
Context {W : Type} `{World W}.
Variable P : exn → Prop.
Hypothesis exceptions_in : ∀ e, is_Exception e = true → P e.
Hypothesis of_world : world_raises P.

Lemma calm_ret {A} (a : A) : calm P (mret a : M (st W) A).
Proof. intros s r s' [= <- <-]. done. Qed.

Lemma calm_raise {A} (e : exn) : P e → calm P (raise e : M (st W) A).
Proof. intros He s r s' [= <- <-]. done. Qed.

Lemma calm_bind {A B} (c : M (st W) A) (k : A → M (st W) B) :
  calm P c → (∀ a, calm P (k a)) → calm P (c ≫= k).
Proof.
  intros Hc Hk s r s'. unfold mbind, M_bind, bind.
  destruct (c s) as [[e|a] s1] eqn:Hcs.
  - intros [= <- <-]. by apply (Hc s (inl e) s1).
  - intros Hks. destruct (Hc s (inr a) s1 Hcs) as (Hl & Hi & _).
    destruct (Hk a s1 r s' Hks) as (Hl' & Hi' & Hr). by rewrite Hl', Hi'.
Qed.

Lemma calm_gets {A} (f : st W → A) : calm P (gets f).
Proof. intros s r s' [= <- <-]. done. Qed.

Lemma calm_emit (ev : event) : calm P (emit ev : M (st W) unit).
Proof. intros s r s' [= <- <-]. done. Qed.

Lemma calm_query {A} (ev : event) (f : W → exn + A) :
  (∀ w e, f w = inl e → P e) → calm P (query ev f).
Proof.
  intros Hf s r s'. rewrite query_run. intros [= <- <-]. repeat split.
  destruct (f (world s)) as [e|a] eqn:E; [by apply (Hf (world s))|done].
Qed.

Lemma calm_command {A} (ev : event) (f : W → (exn + A) * W) :
  (∀ w e w', f w = (inl e, w') → P e) → calm P (command ev f).
Proof.
  intros Hf s r s'. unfold command, emit, bind, modify. simpl.
  destruct (f (world s)) as [r0 w'] eqn:E. intros [= <- <-]. repeat split.
  destruct r0 as [e|a]; [by apply (Hf (world s) e w')|done].
Qed.

Lemma calm_try_except {A} (body : M (st W) A) (handler : exn → M (st W) A) :
  calm P body → (∀ e, calm P (handler e)) → calm P (try_except body handler).
Proof.
  intros Hb Hh s r s'. unfold try_except.
  destruct (body s) as [[e|a] s1] eqn:Hbs.
  - destruct (Hb s (inl e) s1 Hbs) as (Hl & Hi & He).
    destruct (is_Exception e).
    + intros Hhs. destruct (Hh e s1 r s' Hhs) as (Hl' & Hi' & Hr). by rewrite Hl', Hi'.
    + by intros [= <- <-].
  - intros [= <- <-]. by apply (Hb s (inr a) s1).
Qed.

Lemma calm_mapM {A B} (f : A → M (st W) B) (xs : list A) :
  (∀ x, calm P (f x)) → calm P (mapM f xs).
Proof.
  intros Hf. induction xs as [|x xs IH].
  - apply calm_ret.
  - intros s r s'. rewrite mapM_cons.
    destruct (f x s) as [[e|y] s1] eqn:Hfx.
    + intros [= <- <-]. by apply (Hf x s (inl e) s1).
    + destruct (Hf x s (inr y) s1 Hfx) as (Hl & Hi & _).
      destruct (mapM f xs s1) as [[e|ys] s2] eqn:Hrest;
        destruct (IH s1 _ s2 Hrest) as (Hl' & Hi' & Hr);
        intros [= <- <-]; by rewrite Hl', Hi'.
Qed.

Lemma calm_download_files (row : joined local_row fusion_row) :
  calm P (_download_files row).
Proof.
  destruct of_world as (Hmk & _ & _ & Hget & _).
  unfold _download_files. destruct (path_fusion row) as [p|];
    [|by apply calm_raise, exceptions_in].
  apply calm_bind; [by apply calm_query|]. intros there.
  apply calm_bind.
  { destruct (negb there); [|apply calm_ret].
    apply calm_try_except; [|intros; apply calm_ret].
    apply calm_command. intros w e w'. apply Hmk. }
  intros _. apply calm_try_except; [|intros; apply calm_ret].
  destruct (url row) as [u|]; [|by apply calm_raise, exceptions_in].
  apply calm_bind; [|intros; apply calm_ret].
  apply calm_command. intros w e w'. apply Hget.
Qed.

Lemma calm_lift {A} (r : exn + A) :
  (∀ e, r = inl e → P e) → calm P (lift r : M (st W) A).
Proof. intros Hr. destruct r as [e|a]; [by apply calm_raise, Hr | apply calm_ret]. Qed.

Lemma calm_check_merge_keys {A B} (left : frame A) (right : frame B) :
  calm P (check_merge_keys left right : M (st W) unit).
Proof.
  unfold check_merge_keys. destruct (merge_refused left right); [|apply calm_ret].
  by apply calm_raise, exceptions_in.
Qed.

Lemma calm_synchronize (df_local : local_frame) (df_fusion : fusion_frame)
    (direction : string) (show_progress : bool) :
  calm P (_synchronize df_local df_fusion direction show_progress).
Proof.
  destruct of_world as (_ & _ & _ & _ & Hup & _).
  unfold _synchronize. destruct (String.eqb direction "upload").
  { apply calm_bind; [apply calm_check_merge_keys|]. intros _.
    unfold _upload. apply calm_command. intros w e w'. apply Hup. }
  destruct (String.eqb direction "download"); [|by apply calm_raise, exceptions_in].
  apply calm_bind; [apply calm_check_merge_keys|]. intros _.
  unfold _download. destruct (1 <? length _)%nat;
    apply calm_mapM; intros; apply calm_download_files.
Qed.

Lemma calm_get_local_state (datasets : list string) (catalog : string)
    (dataset_format : option string) :
  calm P (_get_local_state datasets catalog dataset_format).
Proof.
  destruct of_world as (Hmk & Hop & Hval & _ & _ & _ & Hurl).
  assert (∀ dirs acc, calm P (for_dirs dirs acc)) as Hdirs.
  { induction dirs as [|d dirs IH]; intros acc; [apply calm_ret|].
    cbn [for_dirs]. apply calm_bind; [|done].
    unfold local_dir_step. apply calm_bind; [by apply calm_query|]. intros there.
    apply calm_bind.
    { destruct (negb there); [|apply calm_ret].
      apply calm_command. intros w e w'. apply Hmk. }
    intros _. apply calm_bind; [by apply calm_query|]. intros found.
    apply calm_bind; [apply calm_query; intros w e; apply Hval|].
    intros flags. apply calm_ret. }
  unfold _get_local_state. apply calm_bind; [apply Hdirs|]. intros [files rel].
  apply calm_bind.
  { apply calm_mapM. intros path. unfold _generate_md5_token.
    apply calm_bind; [apply calm_query; intros w e; apply Hop | intros; apply calm_ret]. }
  intros md5s. apply calm_bind; [|intros; apply calm_ret].
  apply calm_mapM. intros path. apply calm_lift. apply Hurl.
Qed.

Lemma calm_cycle_body (datasets : nat) (catalog direction : string) (flatten : bool)
    (dataset_format : option string) (show_progress : bool) (local_state : dataframe) :
  calm P (cycle_body datasets catalog direction flatten dataset_format show_progress
            local_state).
Proof.
  destruct of_world as (_ & _ & _ & _ & _ & Hfus & _).
  unfold cycle_body. apply calm_bind; [apply calm_gets|]. intros ds.
  apply calm_bind; [apply calm_get_local_state|]. intros tmp.
  destruct (negb _).
  - apply calm_bind; [apply calm_query; intros w e; apply Hfus|]. intros fus.
    apply calm_bind; [apply calm_synchronize|]. intros res.
    destruct (_ || _)%bool; apply calm_ret.
  - apply calm_bind; [apply calm_emit | intros; apply calm_ret].
Qed.

End Calm.

(** ** The loop *)

Section Loop.
Import Py FsSync Spec.
Context {W : Type} `{World W}.

Lemma input_run (prompt : string) (s : st W) :
  input prompt s =
  match stdin s with
  | [] => (inl (Exn EOFError "EOF when reading a line"), logged (EvInput prompt) s)
  | Line text :: rest =>
      (inr text, St (world s) (lists s) (trace s ++ [EvInput prompt]) rest)
  | Fails e :: rest =>
      (inl e, St (world s) (lists s) (trace s ++ [EvInput prompt]) rest)
  end.
Proof.
  unfold input, emit, bind, modify, logged. simpl. by destruct (stdin s) as [|[]].
Qed.

Lemma Exception_not_interrupt (e : exn) :
  is_Exception e = true → exn_class_of e ≠ KeyboardInterrupt.
Proof. unfold is_Exception. intros He Hk. by rewrite Hk in He. Qed.

(** X8.  When no call to the world is interrupted from the keyboard (every
    exception a call raises is an [Exception]), the loop of [fsync] goes on
    for any number of iterations: no error of a cycle gets out of it, it
    does not end by itself, and it neither prompts the operator nor changes
    a list object. *)
Theorem loop_keeps_running (iterations datasets : nat) (catalog direction : string)
    (flatten : bool) (dataset_format : option string) (show_progress : bool)
    (local_state : dataframe) (s : st W) :
  uninterrupted →
  ∃ local_state' s',
    fsync_loop iterations datasets catalog direction flatten dataset_format
      show_progress local_state s = (inr (Running local_state'), s') ∧
    lists s' = lists s ∧ stdin s' = stdin s.
Proof.
  intros Hw. revert local_state s.
  induction iterations as [|n IH]; intros local_state s.
  - by exists local_state, s.
  - cbn [fsync_loop].
    assert (∃ ls1 s1,
              fsync_cycle datasets catalog direction flatten dataset_format
                show_progress local_state s = (inr (Continue ls1), s1) ∧
              lists s1 = lists s ∧ stdin s1 = stdin s) as (ls1 & s1 & Hc & Hl & Hi).
    { unfold fsync_cycle.
      destruct (cycle_body datasets catalog direction flatten dataset_format
                  show_progress local_state s) as [[e|ls1] s1] eqn:Hbody;
        destruct (calm_cycle_body (λ e, is_Exception e = true) (λ e He, He) Hw
                    datasets catalog direction flatten dataset_format show_progress
                    local_state s _ s1 Hbody) as (Hl & Hi & He).
      - rewrite bool_decide_eq_false_2 by by apply Exception_not_interrupt.
        rewrite He. by eexists _, _.
      - by eexists _, _. }
    erewrite mbind_run by exact Hc.
    destruct (IH ls1 s1) as (ls' & s' & Hrun & Hl' & Hi').
    exists ls', s'. by rewrite Hrun, Hl', Hi', Hl, Hi.
Qed.

(** X9.  In any world, what a run of the loop has read from the
    operator's input is a sequence of answers other than exit, followed by
    the answer exit exactly when the loop was left by [break].  An
    exception gets out of the loop in three ways only: the prompt raises it
    while it reads the answer (so the [KeyboardInterrupt] of an operator
    who interrupts the prompt), the prompt finds no input left and raises
    [EOFError], or the [try] block raises an exception that is neither a
    [KeyboardInterrupt] nor an [Exception], and then nothing more is read.
    No run changes a list object. *)
Theorem loop_left_by_operator_or_escape (iterations datasets : nat)
    (catalog direction : string) (flatten : bool) (dataset_format : option string)
    (show_progress : bool) (local_state : dataframe) (s s' : st W) (r : exn + run) :
  fsync_loop iterations datasets catalog direction flatten dataset_format
    show_progress local_state s = (r, s') →
  lists s' = lists s ∧
  ∃ answers,
    Forall (λ a, a ≠ "exit") answers ∧
    match r with
    | inr (Running _) => stdin s = (Line <$> answers) ++ stdin s'
    | inr Exited => stdin s = (Line <$> answers) ++ Line "exit" :: stdin s'
    | inl e =>
        stdin s = (Line <$> answers) ++ Fails e :: stdin s' ∨
        (e = Exn EOFError "EOF when reading a line" ∧
         stdin s = Line <$> answers ∧ stdin s' = []) ∨
        (exn_class_of e ≠ KeyboardInterrupt ∧ is_Exception e = false ∧
         stdin s = (Line <$> answers) ++ stdin s')
    end.
Proof.
  revert local_state s.
  induction iterations as [|n IH]; intros local_state s.
  - intros [= <- <-]. split; [done|]. by exists [].
  - cbn [fsync_loop]. unfold mbind, M_bind, bind. unfold fsync_cycle.
    destruct (cycle_body datasets catalog direction flatten dataset_format
                show_progress local_state s) as [[e|ls1] s1] eqn:Hbody;
      destruct (calm_cycle_body (λ _, True) (λ _ _, I)
                  (conj (λ _ _ _ _ _, I) (conj (λ _ _ _ _, I) (conj (λ _ _ _ _, I)
                     (conj (λ _ _ _ _ _ _, I) (conj (λ _ _ _ _ _ _, I)
                        (conj (λ _ _ _ _ _ _ _, I) (λ _ _ _, I)))))))
                  datasets catalog direction flatten dataset_format show_progress
                  local_state s _ s1 Hbody) as (Hl & Hi & _).
    + case_bool_decide as Hk.
      * unfold mbind, M_bind, bind. rewrite input_run.
        destruct (stdin s1) as [|[line|e0] rest] eqn:Hin.
        { intros [= <- <-]. simpl. split; [done|].
          exists []. split; [done|]. right. left. by rewrite <- Hi. }
        { destruct (String.eqb line "exit") eqn:Hline; simpl.
          - apply String.eqb_eq in Hline as ->. intros [= <- <-]. simpl.
            split; [done|]. exists []. split; [done|]. by rewrite <- Hi.
          - apply String.eqb_neq in Hline. intros Hrest.
            destruct (IH _ _ Hrest) as (Hl' & answers & Hans & Hread).
            simpl in Hl', Hread.
            split; [by rewrite Hl'|].
            exists (line :: answers). split; [by constructor|].
            rewrite <- Hi. simpl.
            destruct r as [e'|[|ls]]; [|by rewrite Hread..].
            destruct Hread as [Hread|[(He' & Hread & Hnil)|(Hk' & Hex' & Hread)]].
            + left. by rewrite Hread.
            + right. left. by rewrite Hread.
            + right. right. by rewrite Hread. }
        { intros [= <- <-]. simpl. split; [done|].
          exists []. split; [done|]. left. by rewrite <- Hi. }
      * destruct (is_Exception e) eqn:Hex.
        -- intros Hrest. destruct (IH _ _ Hrest) as (Hl' & answers & Hans & Hread).
           split; [by rewrite Hl'|]. exists answers. by rewrite <- Hi.
        -- intros [= <- <-]. split; [done|].
           exists []. split; [done|]. right. right. by rewrite <- Hi.
    + intros Hrest. destruct (IH _ _ Hrest) as (Hl' & answers & Hans & Hread).
      split; [by rewrite Hl'|]. exists answers. by rewrite <- Hi.
Qed.

(** X10.  A cycle whose scan returns the committed state makes no query of
    the remote inventory and no transfer: after the calls of the scan it
    only sleeps ten seconds, and the loop goes on with the same state. *)
Theorem converged_cycle_only_sleeps (datasets : nat) (catalog direction : string)
    (flatten : bool) (dataset_format : option string) (show_progress : bool)
    (tmp : local_frame) (s s1 : st W) :
  _get_local_state (default [] (lists s !! datasets)) catalog dataset_format s
    = (inr tmp, s1) →
  fsync_cycle datasets catalog direction flatten dataset_format show_progress
    (LocalState tmp) s = (inr (Continue (LocalState tmp)), logged (EvSleep 10) s1).
Proof.
  intros Hscan. unfold fsync_cycle, cycle_body, deref.
  erewrite mbind_run by reflexivity. erewrite mbind_run by exact Hscan.
  unfold equals. rewrite bool_decide_eq_true_2 by done. reflexivity.
Qed.

End Loop.

(** ** The frame a scan returns *)

Section ScanFrame.
Import Py FileObj FsSync Spec.

Lemma string_compare_trans (a : string) :
  ∀ b c, String.compare a b ≠ Gt → String.compare b c ≠ Gt → String.compare a c ≠ Gt.
Proof.
  induction a as [|x a IH]; intros [|y b] [|z c]; simpl; try done.
  destruct (Ascii.compare x y) eqn:Hxy; [|..|done].
  - apply Ascii.compare_eq_iff in Hxy as ->.
    destruct (Ascii.compare y z); [apply IH|done..].
  - intros _. destruct (Ascii.compare y z) eqn:Hyz; [|..|done].
    + apply Ascii.compare_eq_iff in Hyz as <-. by rewrite Hxy.
    + intros _. unfold Ascii.compare in *.
      rewrite N.compare_lt_iff in Hxy, Hyz.
      assert (N_of_ascii x < N_of_ascii z)%N as Hxz by lia.
      apply N.compare_lt_iff in Hxz. by rewrite Hxz.
Qed.

Lemma path_le_trans (a b c : option string) :
  path_le a b = true → path_le b c = true → path_le a c = true.
Proof.
  destruct a as [x|], b as [y|], c as [z|]; simpl; try done.
  unfold String.leb. intros Hxy Hyz.
  pose proof (string_compare_trans x y z) as Ht.
  destruct (String.compare x y); try done;
    destruct (String.compare y z); try done;
    destruct (String.compare x z); try done; exfalso; by apply Ht.
Qed.

Lemma path_le_total (a b : option string) :
  path_le a b = true ∨ path_le b a = true.
Proof.
  destruct a as [x|], b as [y|]; simpl; auto. apply String.leb_total.
Qed.

Lemma insert_sorted_sorted (r : nat * local_row) (l : indexed_rows) :
  StronglySorted path_order l → StronglySorted path_order (insert_sorted r l).
Proof.
  induction 1 as [|x l Hl IH Hx]; simpl; [by repeat constructor|].
  destruct (path_le (l_path r.2) (l_path x.2)) eqn:Hrx.
  - constructor; [by constructor|]. constructor; [done|].
    eapply Forall_impl; [exact Hx|]. intros y Hxy. unfold path_order in *.
    by eapply path_le_trans.
  - constructor; [done|]. apply Forall_forall. intros y Hy.
    apply elem_of_insert_sorted in Hy as [->|Hy].
    + unfold path_order. destruct (path_le_total (l_path r.2) (l_path x.2)); congruence.
    + rewrite Forall_forall in Hx. by apply Hx.
Qed.

Lemma sort_values_sorted (df : indexed_rows) : StronglySorted path_order (sort_values df).
Proof.
  unfold sort_values. induction df as [|x df IH]; simpl; [constructor|].
  by apply insert_sorted_sorted.
Qed.

Lemma elem_of_drop_duplicates_from (df : indexed_rows) :
  ∀ (seen : list local_row) (x : nat * local_row),
    x ∈ drop_duplicates_from seen df → x ∈ df ∧ x.2 ∉ seen.
Proof.
  induction df as [|y df IH]; intros seen x; simpl; [by intros ?%elem_of_nil|].
  case_bool_decide as Hy.
  - intros Hx. destruct (IH _ _ Hx). split; [by right|done].
  - intros [->|Hx]%elem_of_cons; [split; [by left|done]|].
    destruct (IH _ _ Hx) as [Hin Hseen]. split; [by right|].
    intros Hs. apply Hseen. by right.
Qed.

Lemma drop_duplicates_from_sorted (df : indexed_rows) :
  ∀ seen, StronglySorted path_order df →
          StronglySorted path_order (drop_duplicates_from seen df).
Proof.
  induction df as [|y df IH]; intros seen Hs; simpl; [constructor|].
  apply StronglySorted_inv in Hs as [Hs Hy].
  case_bool_decide; [by apply IH|].
  constructor; [by apply IH|]. apply Forall_forall. intros x Hx.
  apply elem_of_drop_duplicates_from in Hx as [Hx _].
  rewrite Forall_forall in Hy. by apply Hy.
Qed.

Lemma drop_duplicates_from_NoDup (df : indexed_rows) :
  ∀ seen, NoDup (snd <$> drop_duplicates_from seen df).
Proof.
  induction df as [|y df IH]; intros seen; simpl; [constructor|].
  case_bool_decide; [apply IH|]. simpl. constructor; [|apply IH].
  intros (x & Hx & Hin)%list_elem_of_fmap.
  apply elem_of_drop_duplicates_from in Hin as [_ Hseen]. apply Hseen.
  rewrite <- Hx. by left.
Qed.

Context {W : Type} `{World W}.

(** The frame a scan returns is a sorted, deduplicated frame. *)
Lemma scan_result_form (datasets : list string) (catalog : string)
    (dataset_format : option string) (s s' : st W) (df : local_frame) :
  _get_local_state datasets catalog dataset_format s = (inr df, s') →
  ∃ rel urls md5s,
    df_rows df =
      drop_duplicates (sort_values
        (match dataset_format with
         | Some fmt =>
             if (truthy dataset_format
                 && (0 <? length (rows_of_columns rel urls md5s))%nat)%bool
             then List.filter (has_format fmt) (rows_of_columns rel urls md5s)
             else rows_of_columns rel urls md5s
         | None => rows_of_columns rel urls md5s
         end)).
Proof.
  unfold _get_local_state. unfold mbind, M_bind. unfold bind at 1.
  destruct (for_dirs _ _ s) as [[e|[files rel]] s1]; [done|].
  unfold bind at 1.
  destruct (mapM _generate_md5_token files s1) as [[e|md5s] s2]; [done|].
  unfold bind at 1.
  destruct (mapM (M := M (st W)) _ files s2) as [[e|urls] s3]; [done|].
  intros [= <- _]. exists rel, urls, md5s.
  destruct dataset_format as [fmt|]; [|done]. cbn [df_rows on_rows].
  by destruct (truthy (Some fmt) && (0 <? length (rows_of_columns rel urls md5s))%nat)%bool.
Qed.

(** X11.  The frame a scan returns is sorted by path, rows without a path
    last, and no two of its rows are equal. *)
Theorem scan_sorted_without_duplicates (datasets : list string) (catalog : string)
    (dataset_format : option string) (s s' : st W) (df : local_frame) :
  _get_local_state datasets catalog dataset_format s = (inr df, s') →
  StronglySorted path_order (df_rows df) ∧ NoDup (snd <$> df_rows df).
Proof.
  intros (rel & urls & md5s & ->)%scan_result_form. split.
  - apply drop_duplicates_from_sorted, sort_values_sorted.
  - apply drop_duplicates_from_NoDup.
Qed.

(** X12.  With a non-empty [dataset_format], every row of the frame a scan
    returns has a URL whose last segment is that format; rows without a
    URL are dropped.  An empty [dataset_format] filters nothing: it gives
    what no format gives. *)
Theorem scan_format_filter (datasets : list string) (catalog : string) :
  (∀ (fmt : string) (s s' : st W) (df : local_frame),
     fmt ≠ EmptyString →
     _get_local_state datasets catalog (Some fmt) s = (inr df, s') →
     ∀ row, row ∈ df_rows df →
       ∃ u, l_url row.2 = Some u ∧ last (split "/" u) = Some fmt) ∧
  _get_local_state (W := W) datasets catalog (Some EmptyString) =
  _get_local_state datasets catalog None.
Proof.
  split; [|reflexivity].
  intros fmt s s' df Hne (rel & urls & md5s & Hdf)%scan_result_form row Hrow.
  rewrite Hdf in Hrow.
  apply elem_of_drop_duplicates_from in Hrow as [Hrow _].
  apply (proj1 (elem_of_sort_values _ _)) in Hrow.
  assert (truthy (Some fmt) = true) as Ht by (by destruct fmt).
  rewrite Ht in Hrow. simpl in Hrow.
  destruct (0 <? length (rows_of_columns rel urls md5s))%nat eqn:Hlen.
  - apply list_elem_of_In, filter_In in Hrow as [_ Hfmt].
    unfold has_format in Hfmt. destruct (l_url row.2) as [u|]; [|done].
    exists u. split; [done|]. by apply bool_decide_eq_true in Hfmt.
  - apply Nat.ltb_ge in Hlen. destruct (rows_of_columns rel urls md5s); [|simpl in Hlen; lia].
    by apply elem_of_nil in Hrow.
Qed.

End ScanFrame.

(** ** More on the plans *)

Section Plans.
Import Py FsSync Spec.

Lemma elem_of_join_df_upload {A B} `{Row A, Row B} (L : list A) (R : list B)
    (j : joined A B) :
  j ∈ join_df_upload L R ↔
  j ∈ merge_left L R ∧ ne (md5_local j) (md5_fusion j) = true.
Proof. unfold join_df_upload. by rewrite list_elem_of_In, filter_In, <- list_elem_of_In. Qed.

(** X13.  Every task of an Upload plan has a local row, taken from the
    local frame, and if it has a remote row too, that row is of the remote
    frame and has the same key; every task of a Download plan has a remote
    row, taken from the remote frame, and if it has a local row too, that
    row is of the local frame and has the same key. *)
Theorem tasks_have_their_source {A B} `{Row A, Row B} (L : list A) (R : list B) :
  (∀ j, j ∈ join_df_upload L R →
     ∃ l, j.1 = Some l ∧ l ∈ L ∧ url j = row_url l ∧
       ∀ r, j.2 = Some r → r ∈ R ∧ row_url r = row_url l) ∧
  (∀ j, j ∈ join_df_download L R →
     ∃ r, j.2 = Some r ∧ r ∈ R ∧ url j = row_url r ∧
       ∀ l, j.1 = Some l → l ∈ L ∧ row_url l = row_url r).
Proof.
  split.
  - intros j [Hj _]%elem_of_join_df_upload.
    apply elem_of_merge_left in Hj as (l & Hl & [[-> _] | (r & Hr & Hu & ->)]);
      exists l; simpl; (split; [done|]; split; [done|]; split; [done|]).
    + intros r' Heq. discriminate.
    + intros r' [= <-]. done.
  - intros j Hj. rewrite (join_df_mirror R L) in Hj.
    apply list_elem_of_fmap in Hj as (j' & -> & [Hj' _]%elem_of_join_df_upload).
    apply elem_of_merge_left in Hj' as (r & Hr & [[-> _] | (l & Hl & Hu & ->)]);
      exists r; simpl; (split; [done|]; split; [done|]; split; [done|]).
    + intros l' Heq. discriminate.
    + intros l' [= <-]. done.
Qed.

(** X14.  The Upload plan is empty exactly when every row of the local
    frame has a remote row of its key, and every remote row of its key has
    its digest. *)
Theorem upload_plan_empty_iff {A B} `{Row A, Row B} (L : list A) (R : list B) :
  join_df_upload L R = [] ↔
  ∀ l, l ∈ L →
    (∃ r, r ∈ R ∧ row_url r = row_url l) ∧
    ∀ r, r ∈ R → row_url r = row_url l →
      ∃ d, row_md5 l = Some d ∧ row_md5 r = Some d.
Proof.
  split.
  - intros Hempty l Hl.
    assert (∀ j, j ∈ merge_left L R → ne (md5_local j) (md5_fusion j) = false) as Hno.
    { intros j Hj. destruct (ne (md5_local j) (md5_fusion j)) eqn:Hne; [|done].
      assert (j ∈ join_df_upload L R) as Hin by (by apply elem_of_join_df_upload).
      rewrite Hempty in Hin. by apply elem_of_nil in Hin. }
    assert (∀ r, r ∈ R → row_url r = row_url l →
              ∃ d, row_md5 l = Some d ∧ row_md5 r = Some d) as Hsame.
    { intros r Hr Hu. apply ne_false. apply (Hno (Some l, Some r)).
      apply elem_of_merge_left. exists l. split; [done|]. right. by exists r. }
    split; [|done].
    destruct (decide (Exists (λ r, row_url r = row_url l) R)) as [He|Hn].
    + apply Exists_exists in He as (r & Hr & Hu). by exists r.
    + exfalso. assert (ne (md5_local (Some l, @None B)) (md5_fusion (Some l, @None B)) = false)
        as Hf.
      { apply Hno, elem_of_merge_left. exists l. split; [done|]. left. split; [done|].
        intros r Hr Hu. apply Hn, Exists_exists. by exists r. }
      unfold md5_local, md5_fusion in Hf. simpl in Hf. by destruct (row_md5 l).
  - intros Hsync. destruct (join_df_upload L R) as [|j plan] eqn:Hplan; [done|].
    exfalso. assert (j ∈ join_df_upload L R) as Hj by (rewrite Hplan; left).
    apply elem_of_join_df_upload in Hj as [Hj Hne].
    apply elem_of_merge_left in Hj as (l & Hl & [[-> Hno] | (r & Hr & Hu & ->)]).
    + destruct (Hsync l Hl) as [(r & Hr & Hu) _]. by apply (Hno r).
    + destruct (Hsync l Hl) as [_ Hd]. specialize (Hd r Hr Hu).
      apply ne_false in Hd.
      unfold md5_local, md5_fusion in Hne. simpl in Hne. congruence.
Qed.

Lemma filter_key_unique {B} `{Row B} (R : list B) (k : option string) :
  NoDup (row_url <$> R) → (length (filter (λ r, row_url r = k) R) ≤ 1)%nat.
Proof.
  induction R as [|r R IH]; [simpl; lia|].
  rewrite fmap_cons. intros [Hr HR]%NoDup_cons. rewrite filter_cons.
  case_decide as Hk; [|by apply IH].
  assert (filter (λ r0, row_url r0 = k) R = []) as ->; [|simpl; lia].
  destruct (filter (λ r0, row_url r0 = k) R) as [|x xs] eqn:Hf; [done|].
  exfalso. assert (x ∈ filter (λ r0, row_url r0 = k) R) as Hx by (rewrite Hf; left).
  apply list_elem_of_filter in Hx as [Hx Hin]. apply Hr.
  apply list_elem_of_fmap. exists x. split; [congruence|done].
Qed.

(** With unique remote keys the left join has one row per local row. *)
Lemma merge_left_unique {A B} `{Row A, Row B} (L : list A) (R : list B) :
  NoDup (row_url <$> R) → url <$> merge_left L R = row_url <$> L.
Proof.
  intros HR. unfold merge_left. induction L as [|l L IH]; [done|].
  rewrite bind_cons, fmap_app, IH, fmap_cons. 
  change (row_url l :: (row_url <$> L)) with ([row_url l] ++ (row_url <$> L)).
  f_equal. pose proof (filter_key_unique R (row_url l) HR) as Hlen.
  destruct (filter _ R) as [|m [|m' ms]]; simpl in *; [done..|lia].
Qed.

Lemma filter_fmap_sublist {X Y} (f : X → Y) (p : X → bool) (l : list X) :
  (f <$> List.filter p l) `sublist_of` (f <$> l).
Proof.
  induction l as [|x l IH]; simpl; [constructor|].
  destruct (p x); simpl; by constructor.
Qed.

(** X15.  When no two rows of the remote frame have the same key, the
    Upload plan has at most one task for each row of the local frame, in
    the order of the local frame: its keys are a sub-sequence of the local
    keys.  If the local keys are distinct too, no key has two tasks. *)
Theorem upload_one_task_per_key {A B} `{Row A, Row B} (L : list A) (R : list B) :
  NoDup (row_url <$> R) →
  keys (join_df_upload L R) `sublist_of` (row_url <$> L) ∧
  (length (join_df_upload L R) ≤ length L)%nat ∧
  (NoDup (row_url <$> L) → NoDup (keys (join_df_upload L R))).
Proof.
  intros HR.
  assert (keys (join_df_upload L R) `sublist_of` (row_url <$> L)) as Hsub.
  { rewrite <- (merge_left_unique L R HR). apply filter_fmap_sublist. }
  split; [done|]. split.
  - apply sublist_length in Hsub. unfold keys in Hsub. by rewrite !length_fmap in Hsub.
  - intros HL. by eapply sublist_NoDup.
Qed.

End Plans.

(** ** More on the statements before the loop *)

Section StartupMore.
Import Py FsSync Spec.
Context {W : Type} `{World W}.

Lemma for_each_app {St A} (xs ys : list A) (body : A → M St unit) (s : St) :
  for_each (xs ++ ys) body s =
  match for_each xs body s with
  | (inl e, s') => (inl e, s')
  | (inr _, s') => for_each ys body s'
  end.
Proof.
  revert s. induction xs as [|x xs IH]; intros s; [done|].
  simpl. unfold bind. destruct (body x s) as [[e|[]] s1]; [done|]. apply IH.
Qed.

(** The expansion writes to the one list object it was given. *)
Lemma expand_products_frame (products : list string) :
  ∀ (r : nat) (s s' : st W) (res : exn + unit),
    for_each products (expand_product r) s = (res, s') →
    length (lists s') = length (lists s) ∧
    ∀ i, i ≠ r → lists s' !! i = lists s !! i.
Proof.
  induction products as [|p ps IH]; intros r s s' res.
  - intros [= <- <-]. done.
  - cbn [for_each]. unfold bind at 1.
    unfold expand_product, query, extend, emit, mbind, M_bind, bind, modify, gets, lift.
    simpl. destruct (cat_resources (world s) p) as [e|ids]; simpl.
    + intros [= <- <-]. done.
    + intros Hrest. apply IH in Hrest as [Hlen Hframe]. simpl in *.
      rewrite length_alter in Hlen. split; [done|].
      intros i Hi. rewrite Hframe by done. by apply list_lookup_alter_ne.
Qed.

Lemma checks_frame (products : list string) (r : nat) (direction : string)
    (s s' : st W) (res : exn + unit) :
  fsync_checks products r direction s = (res, s') →
  length (lists s') = length (lists s) ∧
  ∀ i, i ≠ r → lists s' !! i = lists s !! i.
Proof.
  unfold fsync_checks, deref. unfold mbind, M_bind. unfold bind at 1. unfold gets at 1.
  unfold bind at 1. destruct (_ || _)%bool; simpl; [|by intros [= <- <-]].
  unfold bind at 1. destruct (bool_decide _); simpl; [|by intros [= <- <-]].
  unfold bind at 1.
  destruct (for_each products (expand_product r) s) as [[e|[]] s1] eqn:Hexp;
    apply expand_products_frame in Hexp.
  - by intros [= <- <-].
  - unfold bind at 1, gets at 1. destruct (0 <? length _)%nat; simpl;
      by intros [= <- <-].
Qed.

(** X16.  When the caller gives no list of datasets, or an empty one,
    [fsync] works on a list object of its own: whatever the statements
    before the loop do, return or raise, every list object that existed
    keeps its content, the caller's empty list included, and the reference
    they return is a new one. *)
Theorem startup_spares_an_empty_list (products : option (list string))
    (datasets : option nat) (catalog : option string) (direction : string)
    (s s' : st W) (res : exn + string * nat) :
  default [] (datasets ≫= λ r, lists s !! r) = [] →
  fsync_startup products datasets catalog direction s = (res, s') →
  take (length (lists s)) (lists s') = lists s ∧
  ∀ c r, res = inr (c, r) → r = length (lists s).
Proof.
  intros Hgiven. unfold fsync_startup.
  assert (datasets_or_new datasets s =
          (inr (length (lists s)), St (world s) (lists s ++ [[]]) (trace s) (stdin s)))
    as Hnew.
  { unfold datasets_or_new, deref, mbind, M_bind, bind, gets, new_list, mret, M_ret, ret.
    destruct datasets as [r|]; simpl in *; [|done].
    destruct (lists s !! r) as [[|x l]|]; simpl in *; done. }
  erewrite mbind_run by exact Hnew.
  unfold mbind, M_bind. unfold bind at 1.
  destruct (fsync_checks _ _ _ _) as [[e|[]] s1] eqn:Hchecks;
    apply checks_frame in Hchecks as [Hlen Hframe]; simpl in Hlen, Hframe;
    intros [= <- <-].
  all: split; [|try done; by intros c r [= _ <-]].
  all: apply list_eq; intros i; destruct (decide (i < length (lists s))%nat) as [Hi|Hi].
  all: try (rewrite lookup_take_lt by done; rewrite Hframe by lia;
            by rewrite lookup_app_l).
  all: rewrite lookup_take_ge by lia; symmetry; apply lookup_ge_None; lia.
Qed.

(** X17.  When the lookup of a product raises, [fsync] raises the same
    exception before its first cycle, and the caller's non-empty list is
    left extended by the datasets of the products that came before it: the
    lookups are made in the order of the list, up to the one that failed. *)
Theorem startup_failed_lookup_leaves_partial_list (iterations : nat)
    (before after : list string) (product : string) (idss : list (list string))
    (r : nat) (l : list string) (catalog : option string) (direction : string)
    (flatten : bool) (dataset_format : option string) (show_progress : bool)
    (e : exn) (s : st W) :
  lists s !! r = Some l → l ≠ [] →
  direction = "upload" ∨ direction = "download" →
  Forall2 (λ p ids, cat_resources (world s) p = inr ids) before idss →
  cat_resources (world s) product = inl e →
  ∃ s',
    fsync iterations (Some (before ++ product :: after)) (Some r) catalog direction
      flatten dataset_format show_progress s = (inl e, s') ∧
    lists s' !! r = Some (l ++ concat idss) ∧
    trace s' = trace s ++ lookups (before ++ [product]).
Proof.
  intros Hl Hne Hdir Hbefore Hfail.
  assert (datasets_or_new (Some r) s = (inr r, s)) as Hnorm.
  { unfold datasets_or_new, deref, mbind, M_bind, bind, gets. rewrite Hl.
    simpl. by destruct l. }
  assert (for_each (before ++ product :: after) (expand_product r) s =
          (inl e, logged (EvCat ("common/products/" +:+ product))
                    (expanded before (concat idss) r s))) as Hexp.
  { rewrite for_each_app, (expand_products before idss r s Hbefore).
    cbn [for_each]. unfold bind at 1.
    unfold expand_product. unfold mbind, M_bind. unfold bind at 1.
    rewrite query_run. cbn [world expanded]. by rewrite Hfail. }
  eexists. split; [|split].
  - unfold fsync, fsync_startup. unfold mbind, M_bind. unfold bind at 1. unfold bind at 1.
    rewrite Hnorm. unfold bind at 1. cbn [default].
    unfold fsync_checks, deref. unfold mbind, M_bind. unfold bind at 1. unfold gets at 1.
    rewrite Hl. cbn [default]. unfold id.
    assert (((0 <? length (before ++ product :: after))%nat || (0 <? length l)%nat)%bool
            = true) as ->.
    { apply orb_true_iff. right. apply Nat.ltb_lt. destruct l; [done|simpl; lia]. }
    unfold bind at 1. cbn [assert ret].
    apply direction_test in Hdir. rewrite Hdir. unfold bind at 1. cbn [assert ret].
    unfold bind at 1. rewrite Hexp. reflexivity.
  - simpl. by rewrite list_lookup_alter_eq, Hl.
  - simpl. unfold lookups. by rewrite fmap_app, <- app_assoc.
Qed.

End StartupMore.

(** ** Strings: [in], [split], [join] and [replace] *)

Section Strings.
Import Py FusionDf.
#[local] Arguments String.append : simpl nomatch.

Lemma append_assoc (a b c : string) : (a +:+ b) +:+ c = a +:+ (b +:+ c).
Proof. induction a as [|x a IH]; [done|]. cbn [String.append]. by f_equal. Qed.

Lemma append_empty_r (a : string) : a +:+ EmptyString = a.
Proof. induction a as [|x a IH]; [done|]. cbn [String.append]. by f_equal. Qed.

Lemma contains_empty (sub : string) :
  sub ≠ EmptyString → contains sub EmptyString = false.
Proof. by destruct sub. Qed.

Lemma contains_cons (sub : string) (c : ascii) (s : string) :
  contains sub (String c s) = (String.prefix sub (String c s) || contains sub s)%bool.
Proof.
  unfold contains. cbn [String.index].
  destruct (String.prefix sub (String c s)); [done|].
  by destruct (String.index 0 sub s).
Qed.

Lemma prefix_cons (a c : ascii) (old s : string) :
  String.prefix (String a old) (String c s) = (bool_decide (a = c) && String.prefix old s)%bool.
Proof.
  cbn [String.prefix]. destruct (ascii_dec a c) as [->|Hne].
  - by rewrite bool_decide_eq_true_2.
  - by rewrite bool_decide_eq_false_2.
Qed.

Lemma prefix_empty (s : string) : String.prefix EmptyString s = true.
Proof. by destruct s. Qed.

(** A character that is not in a string. *)
Lemma char_absent_cons (sep c : ascii) (s : string) :
  contains (String sep EmptyString) (String c s) = false ↔
  sep ≠ c ∧ contains (String sep EmptyString) s = false.
Proof.
  rewrite contains_cons, prefix_cons, prefix_empty, andb_true_r, orb_false_iff.
  by rewrite bool_decide_eq_false.
Qed.

Lemma prefix_length (old s : string) :
  String.prefix old s = true → (String.length old ≤ String.length s)%nat.
Proof.
  revert old. induction s as [|c s IH]; intros [|a old]; simpl; try done; try lia.
  destruct (ascii_dec a c); [|done]. intros Hp%IH. lia.
Qed.

Lemma prefix_append (s t : string) : String.prefix s (s +:+ t) = true.
Proof.
  induction s as [|c s IH]; [apply prefix_empty|].
  simpl. by destruct (ascii_dec c c).
Qed.

(** A word without the separator starts before a separator only if it ends
    before it. *)
Lemma prefix_over_sep (sep : ascii) (x rest : string) :
  ∀ old, contains (String sep EmptyString) old = false →
    String.prefix old (x +:+ String sep rest) = String.prefix old x.
Proof.
  induction x as [|c x IH]; intros [|a old] Hfree; try by rewrite !prefix_empty.
  - apply char_absent_cons in Hfree as [Hne _]. simpl.
    by destruct (ascii_dec a sep).
  - apply char_absent_cons in Hfree as [_ Hfree].
    cbn [String.append]. rewrite !prefix_cons. by rewrite IH.
Qed.

Lemma prefix_at_sep (sep : ascii) (old rest : string) :
  old ≠ EmptyString → contains (String sep EmptyString) old = false →
  String.prefix old (String sep rest) = false.
Proof.
  destruct old as [|a old]; [done|]. intros _ [Ha _]%char_absent_cons.
  rewrite prefix_cons. rewrite bool_decide_eq_false_2; [done|congruence].
Qed.

Lemma contains_over_sep (sep : ascii) (sub x rest : string) :
  sub ≠ EmptyString → contains (String sep EmptyString) sub = false →
  contains sub (x +:+ String sep rest) = (contains sub x || contains sub rest)%bool.
Proof.
  intros Hne Hfree. induction x as [|c x IH].
  - cbn [String.append]. rewrite contains_cons, contains_empty by done.
    by rewrite prefix_at_sep.
  - cbn [String.append]. rewrite !contains_cons, IH, orb_assoc. f_equal.
    by rewrite <- (prefix_over_sep sep (String c x) rest sub Hfree).
Qed.

Lemma concat_cons (sep : ascii) (x y : string) (ys : list string) :
  String.concat (String sep EmptyString) (x :: y :: ys) =
  x +:+ String sep (String.concat (String sep EmptyString) (y :: ys)).
Proof. reflexivity. Qed.

Lemma contains_concat (sep : ascii) (sub : string) (xs : list string) :
  sub ≠ EmptyString → contains (String sep EmptyString) sub = false →
  contains sub (String.concat (String sep EmptyString) xs) = existsb (contains sub) xs.
Proof.
  intros Hne Hfree. induction xs as [|x xs IH]; [by apply contains_empty|].
  destruct xs as [|y ys]; [simpl; by rewrite orb_false_r|].
  rewrite concat_cons, contains_over_sep, IH by done. done.
Qed.

Lemma split_from_free (sep : ascii) (x : string) :
  ∀ cur, contains (String sep EmptyString) x = false → split_from sep cur x = [cur +:+ x].
Proof.
  induction x as [|c x IH]; intros cur Hfree; simpl.
  - by rewrite append_empty_r.
  - apply char_absent_cons in Hfree as [Hne Hfree].
    rewrite (proj2 (Ascii.eqb_neq c sep)) by congruence.
    rewrite IH by done. by rewrite append_assoc.
Qed.

Lemma split_from_over_sep (sep : ascii) (x rest : string) :
  ∀ cur, contains (String sep EmptyString) x = false →
    split_from sep cur (x +:+ String sep rest) =
    (cur +:+ x) :: split_from sep EmptyString rest.
Proof.
  induction x as [|c x IH]; intros cur Hfree; simpl.
  - by rewrite Ascii.eqb_refl, append_empty_r.
  - apply char_absent_cons in Hfree as [Hne Hfree].
    rewrite (proj2 (Ascii.eqb_neq c sep)) by congruence.
    rewrite IH by done. by rewrite append_assoc.
Qed.

(** Splitting undoes joining, for pieces without the separator. *)
Lemma split_concat (sep : ascii) (xs : list string) :
  xs ≠ [] → Forall (λ x, contains (String sep EmptyString) x = false) xs →
  split sep (String.concat (String sep EmptyString) xs) = xs.
Proof.
  unfold split. induction xs as [|x xs IH]; [done|]. intros _ Hfree.
  apply Forall_cons_1 in Hfree as [Hx Hfree]. destruct xs as [|y ys].
  - simpl. by rewrite split_from_free.
  - rewrite concat_cons, split_from_over_sep by done.
    cbn [String.append]. f_equal. by apply IH.
Qed.

Lemma replace_from_over_sep (sep : ascii) (old new rest : string) :
  old ≠ EmptyString → contains (String sep EmptyString) old = false →
  ∀ x k, (k ≤ String.length x)%nat →
    replace_from old new k (x +:+ String sep rest) =
    replace_from old new k x +:+ String sep (replace_from old new 0 rest).
Proof.
  intros Hne Hfree. induction x as [|c x IH]; intros k Hk.
  - assert (k = 0%nat) as -> by (simpl in Hk; lia).
    cbn [String.append replace_from]. by rewrite prefix_at_sep.
  - destruct k as [|k].
    + cbn [String.append replace_from].
      change (String c (x +:+ String sep rest)) with (String c x +:+ String sep rest).
      rewrite (prefix_over_sep sep (String c x) rest old Hfree).
      destruct (String.prefix old (String c x)) eqn:Hp.
      * apply prefix_length in Hp. simpl in Hp.
        rewrite IH by lia. by rewrite append_assoc.
      * rewrite IH by lia. done.
    + cbn [String.append replace_from]. apply IH. simpl in Hk. lia.
Qed.

(** Replacing a word without the separator works piece by piece. *)
Lemma replace_concat (sep : ascii) (old new : string) (xs : list string) :
  old ≠ EmptyString → contains (String sep EmptyString) old = false →
  replace old new (String.concat (String sep EmptyString) xs) =
  String.concat (String sep EmptyString) (replace old new <$> xs).
Proof.
  intros Hne Hfree. unfold replace. induction xs as [|x xs IH]; [done|].
  destruct xs as [|y ys]; [done|].
  rewrite !fmap_cons, !concat_cons, replace_from_over_sep by (done || lia).
  rewrite IH. by rewrite !fmap_cons.
Qed.

Lemma replace_absent (old new s : string) :
  contains old s = false → replace old new s = s.
Proof.
  unfold replace. induction s as [|c s IH]; [done|].
  rewrite contains_cons. intros [Hp Hs]%orb_false_iff.
  cbn [replace_from]. rewrite Hp. by rewrite IH.
Qed.

Lemma split_str_from_absent (sep t : string) :
  ∀ cur, contains sep t = false → split_str_from sep 0 cur t = [cur +:+ t].
Proof.
  induction t as [|c t IH]; intros cur.
  - intros _. simpl. by rewrite append_empty_r.
  - rewrite contains_cons. intros [Hp Hs]%orb_false_iff.
    cbn [split_str_from]. rewrite Hp, IH by done. by rewrite append_assoc.
Qed.

Lemma split_str_from_skip (sep a t : string) :
  ∀ cur, split_str_from sep (String.length a) cur (a +:+ t) = split_str_from sep 0 cur t.
Proof. induction a as [|c a IH]; intros cur; [done|]. simpl. apply IH. Qed.

(** A string that starts with the separator: an empty piece, then the
    pieces of what follows. *)
Lemma split_str_prefixed (sep t : string) :
  sep ≠ EmptyString → split_str sep (sep +:+ t) = EmptyString :: split_str sep t.
Proof.
  destruct sep as [|c sep]; [done|]. intros _. unfold split_str.
  cbn [String.append split_str_from].
  change (String c (sep +:+ t)) with (String c sep +:+ t). rewrite prefix_append.
  replace (String.length (String c sep) - 1)%nat with (String.length sep) by (simpl; lia).
  by rewrite split_str_from_skip.
Qed.

Lemma md5_of_plain_value (v : string) :
  contains "md5=" v = false → md5_of_value v = v ∧ md5_of_value ("md5=" +:+ v) = v.
Proof.
  intros Hv. unfold md5_of_value. rewrite split_str_prefixed by done.
  unfold split_str. rewrite split_str_from_absent by done. done.
Qed.

End Strings.

(** ** The remote inventory *)

Section Inventory.
Import Py FsSync FusionDf.
Context `{Remote}.

Lemma mapM_result_cons {A B} (f : A → result B) (x : A) (xs : list A) :
  mapM f (x :: xs) =
  match f x with
  | inl e => inl e
  | inr y =>
      match mapM f xs with
      | inl e => inl e
      | inr ys => inr (y :: ys)
      end
  end.
Proof. reflexivity. Qed.

Lemma mapM_result_inv {A B} (f : A → result B) (xs : list A) :
  ∀ ys, mapM f xs = inr ys → Forall2 (λ x y, f x = inr y) xs ys.
Proof.
  induction xs as [|x xs IH]; intros ys.
  - intros [= <-]. constructor.
  - rewrite mapM_result_cons. destruct (f x) as [e|y] eqn:Hx; [done|].
    destruct (mapM f xs) as [e|ys'] eqn:Hxs; [done|].
    intros [= <-]. constructor; [done|]. by apply IH.
Qed.

Lemma mapM_result_raises {A B} (f : A → result B) (xs : list A) (x : A) (e : exn) :
  x ∈ xs → f x = inl e → ∃ e', mapM f xs = inl e'.
Proof.
  intros Hin Hx. induction xs as [|x' xs IH]; [by apply elem_of_nil in Hin|].
  rewrite mapM_result_cons. destruct (f x') as [e'|y] eqn:Hx'; [by eexists|].
  apply elem_of_cons in Hin as [->|Hin]; [congruence|].
  destruct (IH Hin) as [e' ->]. by eexists.
Qed.

Lemma frame_rows_url (keys urls : list string) (sz : list Z) (md : list string)
    (r : fusion_row) :
  r ∈ frame_rows keys urls sz md → f_url r ∈ urls.
Proof.
  unfold frame_rows. intros ([k u] & [z m] & -> & Hku & _)%elem_of_zip_with.
  simpl. by eapply elem_of_zip_r.
Qed.

(** After the third comprehension every URL mentions [datasetseries]. *)
Lemma url_of_key_datasetseries (catalog key : string) :
  contains "datasetseries" (url_of_key catalog key) = true.
Proof.
  unfold url_of_key.
  set (i := replace "distribution" "distributions" _).
  destruct (contains "datasetseries" i) eqn:Hc; simpl; [done|].
  rewrite (contains_concat "/") by done.
  rewrite existsb_app. simpl. by rewrite orb_true_r.
Qed.

(** The rows of the frame of one dataset. *)
Lemma dataset_frame_rows (catalog : string) (flatten : bool)
    (dataset_format : option string) (changes : list (list distribution))
    (df : list fusion_row) (r : fusion_row) :
  dataset_frame catalog flatten dataset_format changes = inr df → r ∈ df →
  ∃ first more d,
    changes = first :: more ∧ d ∈ first ∧ f_url r = url_of_key catalog (key d) ∧
    (truthy dataset_format = true → last (split "/" (f_url r)) = dataset_format).
Proof.
  destruct changes as [|first more]; [intros [= <-] Hin; by apply elem_of_nil in Hin|].
  unfold dataset_frame. unfold mbind at 1, result_bind.
  destruct (mapM _ first) as [e|sz]; [done|].
  unfold mbind at 1. destruct (mapM _ first) as [e|md]; [done|].
  unfold mbind at 1. destruct (mapM _url_to_path _) as [e|keys]; [done|].
  set (rows := frame_rows _ _ sz md). intros [= <-] Hin.
  assert (r ∈ rows ∧
          (truthy dataset_format = true → last (split "/" (f_url r)) = dataset_format))
    as [Hrow Hfmt].
  { destruct (truthy dataset_format) eqn:Ht; simpl in Hin.
    - destruct (0 <? length rows)%nat eqn:Hlen.
      + apply list_elem_of_In, filter_In in Hin as [Hin Hf].
        apply bool_decide_eq_true in Hf. split; [by apply list_elem_of_In|done].
      + apply Nat.ltb_ge in Hlen. assert (rows = []) as Hnil by (apply nil_length_inv; lia).
        rewrite Hnil in Hin. by apply elem_of_nil in Hin.
    - split; [done|]. done. }
  apply frame_rows_url, list_elem_of_fmap in Hrow as (d & Hurl & Hd).
  by exists first, more, d.
Qed.

(** X18.  Every row of the frame [_get_fusion_df] returns comes from a
    distribution of the first change set of one of the datasets asked for,
    the later change sets being ignored; its URL mentions [datasetseries],
    and with a non-empty [dataset_format] the last segment of its URL is
    that format. *)
Theorem inventory_rows_come_from_first_changes (datasets_lst : list string)
    (catalog : string) (flatten : bool) (dataset_format : option string)
    (df : list fusion_row) :
  _get_fusion_df datasets_lst catalog flatten dataset_format = inr df →
  ∀ r, r ∈ df →
    (∃ dataset first more d,
       dataset ∈ datasets_lst ∧
       info_changes (catalog +:+ "/datasets/" +:+ dataset) = inr (first :: more) ∧
       d ∈ first ∧ f_url r = url_of_key catalog (key d)) ∧
    contains "datasetseries" (f_url r) = true ∧
    (truthy dataset_format = true → last (split "/" (f_url r)) = dataset_format).
Proof.
  unfold _get_fusion_df. unfold mbind at 1, result_bind.
  destruct (mapM _ datasets_lst) as [e|df_lst] eqn:Hmap; [done|].
  apply mapM_result_inv in Hmap.
  intros Hdf r Hr.
  assert (df = concat df_lst) as -> by (destruct df_lst; [done|by injection Hdf]).
  apply list_elem_of_In, in_concat in Hr as (frame & Hframe & Hr).
  apply list_elem_of_In, list_elem_of_lookup in Hframe as [i Hi].
  destruct (Forall2_lookup_r _ _ _ _ _ Hmap Hi) as (dataset & Hds & Hrun).
  unfold mbind, result_bind in Hrun.
  destruct (info_changes _) as [e|changes] eqn:Hinfo; [done|].
  apply list_elem_of_In in Hr.
  destruct (dataset_frame_rows _ _ _ _ _ _ Hrun Hr) as (first & more & d & -> & Hd & Hurl & Hfmt).
  split; [|split; [|done]].
  - exists dataset, first, more, d. split; [|done].
    apply list_elem_of_lookup. by exists i.
  - rewrite Hurl. apply url_of_key_datasetseries.
Qed.

Lemma plain_segments (xs : list string) :
  Forall plain xs → Forall (λ x, contains "/" x = false) xs.
Proof. intros Hxs. eapply Forall_impl; [exact Hxs|]. by intros x (? & _). Qed.

Lemma plain_parts (xs : list string) :
  Forall plain xs → Forall (λ x, contains "." x = false) xs.
Proof. intros Hxs. eapply Forall_impl; [exact Hxs|]. by intros x (_ & ? & _). Qed.

(** The URL of a key with the parts dataset, series, the word
    [distribution] and possibly more. *)
Lemma url_of_plain_key (catalog ds series : string) (rest : list string) :
  plain catalog → plain ds → plain series → Forall plain rest →
  url_of_key catalog (String.concat "." (ds :: series :: "distribution" :: rest)) =
  String.concat "/"
    (catalog :: "datasets" :: ds :: "datasetseries" :: series :: "distributions" :: rest).
Proof.
  intros Hc Hds Hse Hrest. unfold url_of_key.
  rewrite (split_concat ".");
    [|done|repeat (apply Forall_cons; split; [try apply Hds; try apply Hse; done|]);
           by apply plain_parts].
  set (L := catalog :: "datasets" :: ds :: series :: "distributions" :: rest).
  assert (replace "distribution" "distributions"
            (catalog +:+ "/datasets/" +:+
             String.concat "/" (ds :: series :: "distribution" :: rest)) =
          String.concat "/" L) as ->.
  { change (catalog +:+ "/datasets/" +:+
            String.concat "/" (ds :: series :: "distribution" :: rest))
      with (String.concat "/" (catalog :: "datasets" :: ds :: series :: "distribution" :: rest)).
    rewrite (replace_concat "/") by done. rewrite !fmap_cons.
    rewrite (replace_absent _ _ catalog) by apply Hc.
    rewrite (replace_absent _ _ ds) by apply Hds.
    rewrite (replace_absent _ _ series) by apply Hse.
    change (replace "distribution" "distributions" "datasets") with "datasets".
    change (replace "distribution" "distributions" "distribution") with "distributions".
    subst L. do 6 f_equal.
    induction Hrest as [|x xs Hx Hxs IH]; [done|].
    rewrite fmap_cons, IH. f_equal. apply replace_absent, Hx. }
  assert (Forall plain rest → existsb (contains "datasetseries") rest = false) as Hex.
  { clear. induction 1 as [|x xs Hx Hxs IH]; [done|]. simpl. rewrite IH.
    destruct Hx as (_ & _ & _ & ->). done. }
  assert (contains "datasetseries" (String.concat "/" L) = false) as ->.
  { rewrite (contains_concat "/") by done. subst L. cbn [existsb].
    destruct Hc as (_ & _ & _ & ->), Hds as (_ & _ & _ & ->), Hse as (_ & _ & _ & ->).
    rewrite Hex by done. done. }
  cbn [negb]. rewrite (split_concat "/"); [done|done|].
  subst L. apply plain_segments in Hrest.
  repeat (apply Forall_cons; split; [try apply Hc; try apply Hds; try apply Hse; done|]).
  done.
Qed.

Lemma url_to_path_plain (catalog ds series fmt : string) :
  plain catalog → plain ds → plain series → plain fmt →
  _url_to_path
    (String.concat "/" [catalog; "datasets"; ds; "datasetseries"; series;
                        "distributions"; fmt]) =
  match distribution_to_filename EmptyString ds series fmt catalog with
  | inl e => inl e
  | inr file_name => inr (catalog +:+ "/" +:+ ds +:+ "/" +:+ series +:+ "/" +:+ file_name)
  end.
Proof.
  intros Hc Hds Hse Hfmt. unfold _url_to_path.
  rewrite (split_concat "/"); [done|done|].
  repeat (apply Forall_cons; split;
          [try apply Hc; try apply Hds; try apply Hse; try apply Hfmt; done|]).
  done.
Qed.

(** X19.  The key [dataset.series.distribution.format] of a distribution,
    its parts and the catalog being plain names, gives the URL
    [catalog/datasets/dataset/datasetseries/series/distributions/format],
    and the path of that URL is [catalog/dataset/series/] followed by what
    [distribution_to_filename] makes of the four names; it is the one call
    made to [distribution_to_filename], and its error is the error of
    [_url_to_path]. *)
Theorem canonical_key_url_and_path (catalog ds series fmt : string) :
  plain catalog → plain ds → plain series → plain fmt →
  let u := catalog +:+ "/datasets/" +:+ ds +:+ "/datasetseries/" +:+ series
           +:+ "/distributions/" +:+ fmt in
  url_of_key catalog (ds +:+ "." +:+ series +:+ ".distribution." +:+ fmt) = u ∧
  _url_to_path u =
    match distribution_to_filename EmptyString ds series fmt catalog with
    | inl e => inl e
    | inr file_name => inr (catalog +:+ "/" +:+ ds +:+ "/" +:+ series +:+ "/" +:+ file_name)
    end.
Proof.
  intros Hc Hds Hse Hfmt u.
  pose proof (url_of_plain_key catalog ds series [fmt] Hc Hds Hse
                (Forall_cons_2 _ _ _ Hfmt (Forall_nil_2 _))) as Hurl.
  change (String.concat "." [ds; series; "distribution"; fmt])
    with (ds +:+ "." +:+ series +:+ ".distribution." +:+ fmt) in Hurl.
  change (String.concat "/" [catalog; "datasets"; ds; "datasetseries"; series;
                             "distributions"; fmt]) with u in Hurl.
  split; [exact Hurl|]. by apply url_to_path_plain.
Qed.

(** X22.  The inventory of one dataset whose first change set holds one
    distribution with the key [dataset.series.distribution.format], a size
    that [int] accepts and a digest value [md5=token]: one row, with the
    URL and the path of the key, the size as a number and the token as its
    digest.  A non-empty [dataset_format] other than the format of the
    key leaves no row.  The change sets after the first play no part. *)
Theorem inventory_of_one_distribution (dataset catalog ds series fmt : string)
    (v0 v1 token file_name : string) (vs : list string) (size : Z)
    (more : list (list distribution)) (flatten : bool) (dataset_format : option string) :
  plain catalog → plain ds → plain series → plain fmt →
  info_changes (catalog +:+ "/datasets/" +:+ dataset) =
    inr ([Distribution (ds +:+ "." +:+ series +:+ ".distribution." +:+ fmt)
            (v0 :: v1 :: ("md5=" +:+ token) :: vs)] :: more) →
  py_int v1 = inr size →
  contains "md5=" token = false →
  distribution_to_filename EmptyString ds series fmt catalog = inr file_name →
  let path := catalog +:+ "/" +:+ ds +:+ "/" +:+ series +:+ "/" +:+ file_name in
  let row :=
    FusionRow (if flatten then flatten_key path else path)
      (catalog +:+ "/datasets/" +:+ ds +:+ "/datasetseries/" +:+ series
       +:+ "/distributions/" +:+ fmt) size token in
  _get_fusion_df [dataset] catalog flatten dataset_format =
    inr (if (truthy dataset_format && negb (bool_decide (dataset_format = Some fmt)))%bool
         then [] else [row]).
Proof.
  intros Hc Hds Hse Hfmt Hinfo Hint Htoken Hname path row.
  pose proof (url_of_plain_key catalog ds series [fmt] Hc Hds Hse
                (Forall_cons_2 _ _ _ Hfmt (Forall_nil_2 _))) as Hurl.
  change (String.concat "." [ds; series; "distribution"; fmt])
    with (ds +:+ "." +:+ series +:+ ".distribution." +:+ fmt) in Hurl.
  pose proof (url_to_path_plain catalog ds series fmt Hc Hds Hse Hfmt) as Hpath.
  rewrite Hname in Hpath.
  assert (last (split "/" (String.concat "/" [catalog; "datasets"; ds; "datasetseries";
                                              series; "distributions"; fmt])) = Some fmt)
    as Hlast.
  { rewrite (split_concat "/"); [done|done|].
    repeat (apply Forall_cons; split;
            [try apply Hc; try apply Hds; try apply Hse; try apply Hfmt; done|]).
    done. }
  unfold _get_fusion_df. rewrite mapM_result_cons.
  unfold mbind at 1, result_bind at 1. rewrite Hinfo.
  cbn -[String.append String.concat url_of_key _url_to_path md5_of_value flatten_key
        truthy split Nat.ltb].
  rewrite Hint, Hurl, Hpath. destruct (md5_of_plain_value token Htoken) as [_ ->].
  subst row.
  destruct flatten; cbn -[String.append String.concat flatten_key truthy split];
    rewrite Hlast, andb_true_r, app_nil_r;
    (destruct (truthy dataset_format) eqn:Ht; cbn [andb]; [|done]);
    (destruct (decide (dataset_format = Some fmt)) as [->|Hne];
     [by rewrite !bool_decide_eq_true_2 by done
     |by rewrite !bool_decide_eq_false_2 by congruence]).
Qed.

(** X21.  One URL of fewer than seven segments in the first change set of
    one dataset, and [_get_fusion_df] raises: no inventory is returned for
    any of the datasets.  The key [dataset.series.distribution], without
    a format, has such a URL: it has six segments. *)
Theorem short_url_fails_whole_inventory (datasets_lst : list string)
    (catalog : string) (flatten : bool) (dataset_format : option string) :
  (∀ dataset first more d,
     dataset ∈ datasets_lst →
     info_changes (catalog +:+ "/datasets/" +:+ dataset) = inr (first :: more) →
     d ∈ first →
     (length (split "/" (url_of_key catalog (key d))) < 7)%nat →
     ∃ e, _get_fusion_df datasets_lst catalog flatten dataset_format = inl e) ∧
  ∀ ds series, plain catalog → plain ds → plain series →
    length (split "/" (url_of_key catalog (ds +:+ "." +:+ series +:+ ".distribution")))
    = 6%nat.
Proof.
  split.
  - intros dataset first more d Hds Hinfo Hd Hlen.
    assert (∃ e, _url_to_path (url_of_key catalog (key d)) = inl e) as [e He].
    { unfold _url_to_path. set (segs := split "/" _) in *.
      unfold item. unfold mbind, result_bind.
      destruct (segs !! 2%nat); [|by eexists].
      destruct (segs !! 4%nat); [|by eexists].
      destruct (segs !! 6%nat) eqn:H6; [|by eexists].
      apply lookup_lt_Some in H6. lia. }
    assert (∃ e', dataset_frame catalog flatten dataset_format (first :: more) = inl e')
      as [e' He'].
    { unfold dataset_frame. unfold mbind at 1, result_bind at 1.
      destruct (mapM _ first) as [e1|sz]; [by eexists|].
      unfold mbind at 1, result_bind at 1.
      destruct (mapM _ first) as [e2|md]; [by eexists|].
      unfold mbind at 1, result_bind at 1.
      destruct (mapM_result_raises _url_to_path
                  ((λ i, url_of_key catalog (key i)) <$> first)
                  (url_of_key catalog (key d)) e) as [e3 ->]; [|done|by eexists].
      apply list_elem_of_fmap. by exists d. }
    unfold _get_fusion_df. unfold mbind at 1, result_bind at 1.
    edestruct (mapM_result_raises
                 (λ dataset,
                    changes ← info_changes (catalog +:+ "/datasets/" +:+ dataset);
                    dataset_frame catalog flatten dataset_format changes)
                 datasets_lst dataset e') as [e'' ->]; [done| |by eexists].
    unfold mbind, result_bind. by rewrite Hinfo.
  - intros ds series Hc Hds Hse.
    pose proof (url_of_plain_key catalog ds series [] Hc Hds Hse (Forall_nil_2 _)) as Hurl.
    change (String.concat "." [ds; series; "distribution"])
      with (ds +:+ "." +:+ series +:+ ".distribution") in Hurl.
    rewrite Hurl, (split_concat "/"); [done|done|].
    repeat (apply Forall_cons; split; [try apply Hc; try apply Hds; try apply Hse; done|]).
    done.
Qed.

End Inventory.

(** ** The digest column *)

Section DigestColumn.
Import Py FusionDf.

Lemma md5_length (msg : list byte) : length (Hashlib.md5 msg) = 16%nat.
Proof. reflexivity. Qed.

Lemma sextet_not_pad (z : Z) : Base64.sextet z ≠ "="%char.
Proof.
  unfold Base64.sextet.
  assert (Z.to_nat (Z.land z 63) < 64)%nat as Hlt.
  { change 63 with (Z.ones 6). rewrite Z.land_ones by lia.
    pose proof (Z.mod_pos_bound z (2 ^ 6)). lia. }
  revert Hlt. generalize (Z.to_nat (Z.land z 63)). intros n Hlt.
  do 64 (destruct n as [|n]; [vm_compute; discriminate|]). lia.
Qed.

(** The second character of a final group of one byte carries two bits. *)
Lemma last_sextet_not_five (a : byte) :
  Base64.sextet (Z.shiftr (Hashlib.byteZ a * 65536) 12) ≠ "5"%char.
Proof. destruct a; vm_compute; discriminate. Qed.

Lemma prefix_md5_inv (c1 c2 c3 c4 : ascii) (rest : string) :
  String.prefix "md5=" (String c1 (String c2 (String c3 (String c4 rest)))) = true →
  c3 = "5"%char ∧ c4 = "="%char.
Proof.
  rewrite !prefix_cons, !andb_true_iff, !bool_decide_eq_true.
  intros (_ & _ & H3 & H4 & _). by split.
Qed.

Lemma contains_md5_skip (c1 c2 c3 c4 : ascii) (rest : string) :
  c4 ≠ "="%char →
  contains "md5=" (String c2 (String c3 (String c4 rest))) = false →
  contains "md5=" (String c1 (String c2 (String c3 (String c4 rest)))) = false.
Proof.
  intros Hc4 Hrest. rewrite contains_cons, Hrest, orb_false_r.
  destruct (String.prefix _ _) eqn:Hp; [|done].
  apply prefix_md5_inv in Hp as [_ Hp]. done.
Qed.

Lemma contains_step (sub : string) (c : ascii) (s : string) :
  String.prefix sub (String c s) = false → contains sub s = false →
  contains sub (String c s) = false.
Proof. intros Hp Hs. by rewrite contains_cons, Hp, Hs. Qed.

Lemma contains_longer (sub s : string) :
  (String.length s < String.length sub)%nat → contains sub s = false.
Proof.
  induction s as [|c s IH]; intros Hlen.
  - apply contains_empty. intros ->. simpl in Hlen. lia.
  - rewrite contains_cons, IH by (simpl in Hlen; lia).
    destruct (String.prefix sub (String c s)) eqn:Hp; [|done].
    apply prefix_length in Hp. lia.
Qed.

(** The base64 text of sixteen bytes does not contain [md5=]. *)
Lemma b64_digest_without_md5 (bs : list byte) :
  length bs = 16%nat → contains "md5=" (Base64.b64encode bs) = false.
Proof.
  intros Hlen.
  do 16 (destruct bs as [|? bs]; [discriminate Hlen|]).
  destruct bs; [|discriminate Hlen]. cbn [Base64.b64encode].
  repeat (apply contains_md5_skip; [apply sextet_not_pad|]).
  apply contains_step.
  { destruct (String.prefix _ _) eqn:Hp; [|done].
    apply prefix_md5_inv in Hp as [Hp _]. by apply last_sextet_not_five in Hp. }
  apply contains_step.
  { destruct (String.prefix _ _) eqn:Hp; [|done].
    apply prefix_md5_inv in Hp as [Hp _]. discriminate Hp. }
  apply contains_longer. simpl. lia.
Qed.

(** X20.  The digest column undoes the [Digest] header: from the header
    [_construct_headers] writes for some bytes, the comprehension of
    [_get_fusion_df] takes the base64 MD5 of these bytes, which is the token
    [_generate_md5_token] computes for a file of these bytes.  In general
    a value that does not contain [md5=] is taken as it is, with or without
    one [md5=] put before it. *)
Theorem digest_column_undoes_digest_header (data : list byte) :
  md5_of_value (FusionFilesystem.digest_header data) =
    Base64.b64encode (Hashlib.md5 data) ∧
  (∀ block_size f, block_size ≠ 0 → FileObj.content f = data → FileObj.pos f = 0%nat →
     md5_of_value (FusionFilesystem.digest_header data) =
     FsSync.md5_token_of_blocks block_size f) ∧
  ∀ v, contains "md5=" v = false → md5_of_value v = v ∧ md5_of_value ("md5=" +:+ v) = v.
Proof.
  assert (md5_of_value (FusionFilesystem.digest_header data) =
          Base64.b64encode (Hashlib.md5 data)) as Hmd.
  { unfold FusionFilesystem.digest_header, Hashlib.digest.
    apply md5_of_plain_value, b64_digest_without_md5, md5_length. }
  split; [exact Hmd|]. split; [|apply md5_of_plain_value].
  intros block_size [content pos] Hb Hcontent Hpos. simpl in Hcontent, Hpos. subst.
  rewrite Hmd. symmetry. by apply md5_token_of_blocks_whole.
Qed.

End DigestColumn.

(** ** The statements on concrete inputs *)

Section Concrete.
Import Py FileObj FusionFilesystem FsSync Spec Demo.

Example md5_empty :
  Hashlib.hexdigest_of (Hashlib.md5 []) = "d41d8cd98f00b204e9800998ecf8427e".
Proof. vm_compute. reflexivity. Qed.

Example md5_abc :
  Hashlib.hexdigest_of (Hashlib.md5 (bytes_of "abc")) = "900150983cd24fb0d6963f7d28e17f72".
Proof. vm_compute. reflexivity. Qed.

Example md5_two_blocks :
  Base64.b64encode (Hashlib.md5 (repeat "q"%byte 70)) = "UmBr8jYLlsw9B6IkQf6ATA==".
Proof. vm_compute. reflexivity. Qed.

Example md5_padding_block :
  Base64.b64encode (Hashlib.md5 (repeat "y"%byte 56)) = "bIMKXSPfWNvgFx61Y5vz5A==".
Proof. vm_compute. reflexivity. Qed.

Example b64_foobar : Base64.b64encode (bytes_of "foobar") = "Zm9vYmFy".
Proof. vm_compute. reflexivity. Qed.

Example b64_fo : Base64.b64encode (bytes_of "fo") = "Zm8=".
Proof. vm_compute. reflexivity. Qed.

(** Eleven bytes in blocks of four: the digests of ["hell"], ["hello wo"]
    and ["hello world"], the last one also in the headers of the file. *)
Example construct_headers_hello :
  let '((headers, lst), _, h) :=
    _construct_headers (File (bytes_of "hello world") 0) "2024-01-05" tt None 4 [] in
  digest_of h <$> lst =
    [ Some "md5=QinWkbB7EzQdpT8Xq58kFg=="; Some "md5=ZKWaOwujQWRa1Pg23/4f6g==";
      Some "md5=XrY7u+Ae7tCTyyK7j1rNww==" ] ∧
  digest_of h headers = Some "md5=XrY7u+Ae7tCTyyK7j1rNww==".
Proof. vm_compute. split; reflexivity. Qed.

Lemma C1_cumulative_digest_witness :
  0 < 4 ∧
  let chunks := (iter_read 4 (File (bytes_of "hello world") 0)).1 in
  let '((headers, lst), _, h) :=
    _construct_headers (File (bytes_of "hello world") 0) "2024-01-05" tt None 4 [] in
  concat chunks = bytes_of "hello world" ∧
  length lst = length chunks ∧
  (∀ i c, chunks !! i = Some c →
     (S i < length chunks → length c = Z.to_nat 4)%nat ∧
     ∃ r d, lst !! i = Some r ∧ h !! r = Some d ∧
       d !! "Digest" =
         Some ("md5=" +:+ Base64.b64encode (Hashlib.md5 (concat (take (S i) chunks))))) ∧
  (∃ d, h !! headers = Some d ∧
     d !! "Digest" =
       Some ("md5=" +:+ Base64.b64encode (Hashlib.md5 (bytes_of "hello world")))) ∧
  (∀ r, last lst = Some r →
     ∃ d, h !! r = Some d ∧
       d !! "Digest" =
         Some ("md5=" +:+ Base64.b64encode (Hashlib.md5 (bytes_of "hello world")))).
Proof.
  split; [lia|].
  apply (C1_cumulative_digest (bytes_of "hello world") "2024-01-05" 4 []). lia.
Defined.

(** The multipart upload of an empty file against a server that accepts
    everything: one request, then the [TypeError]. *)
Example put_empty_multipart :
  let '(r, s) :=
    put "common/datasets/ds/datasetseries/20240105/distributions/csv" DEFAULT_CHUNK_SIZE
      "put" true (Pst (File [] 0) [] []) in
  r = inl (Exn TypeError "An asyncio.Future, a coroutine or an awaitable is required") ∧
  p_sent s =
    [ negotiate ("https://fusion-api.jpmorgan.com/fusion/v1/catalogs/"
                 +:+ "common/datasets/ds/datasetseries/20240105/distributions/csv") ].
Proof. vm_compute. split; reflexivity. Qed.

(** What the generator [put_data] would yield for the same payload, were it
    iterated: [i] stays 0, so every part is numbered 1 and carries the
    header of the first block. *)
Example put_data_reuses_first_header :
  let '((headers, lst), f, h) :=
    _construct_headers (File (bytes_of "hello world") 0) "2024-01-05" tt None 4 [] in
  match (put_data "r" (Some 4) "put" "op1" lst (Pst f h [])).1 with
  | inl _ => False
  | inr parts =>
      (λ rq, (rq_url rq, rq_headers rq ≫= λ d, d !! "Digest")) <$> parts =
      [ ("r/operations/upload?operationId=op1&partNumber=1",
         Some "md5=QinWkbB7EzQdpT8Xq58kFg==");
        ("r/operations/upload?operationId=op1&partNumber=1",
         Some "md5=QinWkbB7EzQdpT8Xq58kFg==");
        ("r/operations/upload?operationId=op1&partNumber=1",
         Some "md5=QinWkbB7EzQdpT8Xq58kFg==") ]
  end.
Proof. vm_compute. reflexivity. Qed.

Lemma C7_md5_token_whole_content_witness :
  fs_open (world (start two_files [])) "common/ds/notes.txt" = inr (bytes_of "todo") ∧
  (_generate_md5_token "common/ds/notes.txt" (start two_files [])).1 =
    inr (Base64.b64encode (Hashlib.md5 (bytes_of "todo"))) ∧
  ∀ block_size, 0 < block_size →
    md5_token_of_blocks block_size (File (bytes_of "todo") 0) =
    Base64.b64encode (Hashlib.md5 (bytes_of "todo")).
Proof.
  split; [reflexivity|].
  apply (C7_md5_token_whole_content "common/ds/notes.txt" (bytes_of "todo")
           (start two_files [])).
  reflexivity.
Defined.

(** The scenarios of the specification: equal digests, no task; different
    digests, one task in each direction. *)
Example same_digest_no_task :
  let L := [LocalRow (Some "common/ds/a.csv") (Some "a") (Some "X")] in
  let R := [FusionRow "common/ds/a.csv" "a" 3 "X"] in
  join_df "upload" L R = Some [] ∧ join_df "download" L R = Some [].
Proof. vm_compute. split; reflexivity. Qed.

Example different_digest_one_task :
  let l := LocalRow (Some "common/ds/a.csv") (Some "a") (Some "X") in
  let r := FusionRow "common/ds/a.csv" "a" 3 "Y" in
  join_df "upload" [l] [r] = Some [(Some l, Some r)] ∧
  join_df "download" [l] [r] = Some [(Some l, Some r)].
Proof. vm_compute. split; reflexivity. Qed.


(** Three downloads, the second of which fails. *)
Lemma C5_partial_failure_isolated_witness :
  ∃ res s',
    _download (join_df_download [] (remote three_remote)) false (start three_remote [])
      = (inr res, s') ∧
    res = [ (true, "common/ds/a.csv", None);
            (false, "common/ds/b.csv", Some "connection reset");
            (true, "common/ds/c.csv", None) ].
Proof.
  destruct (C5_partial_failure_isolated
              (join_df_download [] (remote three_remote)) (remote three_remote)
              1%nat "connection reset" false (start three_remote []))
    as (res & s' & Hrun & Hlen & Hres).
  - repeat constructor.
  - intros p w e w' Hm. discriminate Hm.
  - intros r [= <-] w. eexists _, _. split; [reflexivity|]. split; reflexivity.
  - intros j r Hj Hr w.
    destruct j as [|[|[|j]]]; try done; injection Hr as <-; eexists; reflexivity.
  - exists res, s'. split; [exact Hrun|].
    pose proof (Hres 0%nat _ eq_refl) as H0.
    pose proof (Hres 1%nat _ eq_refl) as H1.
    pose proof (Hres 2%nat _ eq_refl) as H2.
    destruct res as [|o0 [|o1 [|o2 [|o3 res]]]]; try discriminate Hlen.
    vm_compute in H0, H1, H2.
    injection H0 as ->. injection H1 as ->. injection H2 as ->. reflexivity.
Defined.

(** A dataset without local files and without remote distributions, in
    the first cycle of an upload. *)
Lemma C4_empty_inventories_do_not_commit_witness :
  let s := start empty_product [["d"]] in
  (_get_local_state ["d"] "common" None s).1 = inr (Frame float64 []) ∧
  _get_fusion_df empty_product ["d"] "common" false None = inr (Frame object []) ∧
  join_df "upload" ([] : list local_row) ([] : list fusion_row) = Some [] ∧
  ∃ s2,
    fsync_cycle 0 "common" "upload" false None false EmptyDataFrame s
      = (inr (Continue EmptyDataFrame), s2).
Proof.
  intros s.
  split; [vm_compute; reflexivity|]. split; [reflexivity|].
  set (s1 := (_get_local_state ["d"] "common" None s).2).
  destruct (C4_empty_inventories_do_not_commit 0 "common" "upload" false None false
              EmptyDataFrame s s1) as [Hplan Hrun].
  - by left.
  - vm_compute. reflexivity.
  - reflexivity.
  - discriminate.
  - split; [exact Hplan|]. eexists. exact Hrun.
Defined.

(** The same dataset after three iterations: the baseline is still the
    empty frame the loop started with, every iteration has asked for the
    remote inventory, and none has slept. *)
Example empty_inventories_never_settle :
  let run :=
    fsync_loop 3 0 "common" "upload" false None false EmptyDataFrame
      (start empty_product [["d"]]) in
  run.1 = inr (Running EmptyDataFrame) ∧
  List.filter (λ ev, match ev with EvFusionDf _ | EvSleep _ => true | _ => false end)
    (trace run.2) =
    [EvFusionDf ["d"]; EvFusionDf ["d"]; EvFusionDf ["d"]].
Proof. vm_compute. split; reflexivity. Qed.

Lemma C10_caller_datasets_list_extended_witness :
  ∃ c s',
    fsync_startup (Some ["p"]) (Some 0%nat) None "upload" (start one_product [["d"]])
      = (inr (c, 0%nat), s') ∧
    lists s' = [["d"; "x"; "y"]].
Proof.
  destruct (C10_caller_datasets_list_extended ["p"] [["x"; "y"]] 0 ["d"] None "upload"
              (start one_product [["d"]]))
    as (c & s' & Hrun & Hl & Hlen & _).
  - reflexivity.
  - discriminate.
  - discriminate.
  - by left.
  - repeat constructor.
  - exists c, s'. split; [exact Hrun|].
    destruct (lists s') as [|l0 [|l1 ls]]; try discriminate Hlen.
    simpl in Hl. congruence.
Defined.

(** A caller that passes an empty list keeps it: the loop works on a new
    list object. *)
Example empty_list_not_mutated :
  let '(r, s') :=
    fsync_startup (Some ["p"]) (Some 0%nat) None "upload" (start one_product [[]]) in
  r = inr ("common", 1%nat) ∧ lists s' = [[]; ["x"; "y"]].
Proof. vm_compute. split; reflexivity. Qed.

Lemma C8_startup_preconditions_witness :
  ∃ msg s',
    fsync 3 (Some ["p"]) None None "upload" false None false (start empty_product [])
      = (inl (Exn AssertionError msg), s') ∧
    trace s' = [EvCat "common/products/p"].
Proof.
  destruct (C8_startup_preconditions 3 (Some ["p"]) None None "upload" false None false
              (start empty_product []))
    as (msg & s' & Hrun & _ & _ & done_ & Ht).
  - right. right. split; [reflexivity|]. repeat constructor.
  - exists msg, s'. split; [exact Hrun|].
    revert Hrun. vm_compute. intros [= _ <-]. reflexivity.
Defined.

(** C8 as the specification words it does not hold: the one product
    expands to no dataset, and [fsync], given a dataset of its own, passes
    its assertions and scans the directory of that dataset. *)
Lemma C8_products_without_datasets_counterexample :
  let s := start empty_product [["d"]] in
  Forall (λ p, cat_resources (world s) p = inr []) ["p"] ∧
  ∃ run s',
    fsync 1 (Some ["p"]) (Some 0%nat) None "upload" false None false s = (inr run, s') ∧
    EvFind "common/d" ∈ trace s'.
Proof.
  split; [repeat constructor|].
  eexists _, _. split; [vm_compute; reflexivity|].
  vm_compute. apply list_elem_of_In. simpl. tauto.
Qed.

(** C3.  A directory with a well-named file and a stray one: the
    validator rejects the stray file, and the inventory holds it all the
    same, next to the well-named one. *)
Theorem C3_rejected_file_in_inventory :
  validate_file_names two_files
    ["common/ds/ds__common__20240105.csv"; "common/ds/notes.txt"] = inr [true; false] ∧
  (_get_local_state ["ds"] "common" None (start two_files [])).1 =
    inr (Frame object
           [ (0%nat, LocalRow (Some "common/ds/ds__common__20240105.csv")
                       (Some "common/ds/ds__common__20240105.csv")
                       (Some "s0Xh3AnyD9796kafCRZ4kg=="));
             (1%nat, LocalRow (Some "common/ds/notes.txt") (Some "common/ds/notes.txt")
                       (Some "6ly4/wq/a0ygCABp2q6toA==")) ]).
Proof. split; vm_compute; reflexivity. Qed.

End Concrete.

(** ** The further properties on concrete inputs *)

Section ConcreteMore.
Import Py FileObj FusionFilesystem FsSync Spec Demo Interrupted.


Lemma construct_headers_fresh_witness :
  let '((headers, lst), _, h) :=
    _construct_headers (File (bytes_of "hello world") 0) "2024-01-05" tt None 4 [∅] in
  NoDup lst ∧ (headers ∉ lst) ∧ h !! 0%nat = Some ∅.
Proof.
  pose proof (construct_headers_fresh (File (bytes_of "hello world") 0) "2024-01-05" tt
                None 4 [∅]) as Hfresh.
  destruct (_construct_headers _ _ _ _ _ _) as [[[headers lst] f'] h].
  destruct Hfresh as (Hnd & Hhd & _ & Hold & _).
  split; [exact Hnd|]. split; [exact Hhd|]. apply (Hold 0%nat). simpl. lia.
Defined.

Lemma construct_headers_degenerate_sizes_witness :
  bytes_of "abc" ≠ [] ∧
  let '((headers, lst), _, h) :=
    _construct_headers (File (bytes_of "abc") 0) "2024-01-05" tt None (-1) [] in
  ∃ r, lst = [r] ∧ digest_of h r = digest_of h headers ∧
    digest_of h headers = Some ("md5=" +:+ Base64.b64encode (Hashlib.md5 (bytes_of "abc"))).
Proof.
  split; [discriminate|].
  apply (proj2 (construct_headers_degenerate_sizes (bytes_of "abc") "2024-01-05" tt None []));
    discriminate.
Defined.

(** A single-shot upload of three bytes against the server that accepts
    everything. *)
Lemma put_single_shot_witness :
  let rpath := "common/datasets/ds/datasetseries/20240105/distributions/csv" in
  ∃ hdr h,
    put rpath 4 "PUT" false (Pst (File (bytes_of "a,b") 0) [] []) =
      (inr tt, Pst (File (bytes_of "a,b") 3) h
                 [Request "put" ("https://fusion-api.jpmorgan.com/fusion/v1/catalogs/" +:+ rpath)
                    (Some hdr) (Bytes (bytes_of "a,b"))]) ∧
    hdr !! "x-jpmc-distribution-created-date" = Some "2024-01-05".
Proof.
  intros rpath.
  destruct (put_single_shot rpath "PUT" 4 (File (bytes_of "a,b") 0) [] [] "20240105"
              "2024-01-05")
    as (hdr & h & _ & Hok & _ & Hdate & _).
  - vm_compute. right. left.
  - reflexivity.
  - reflexivity.
  - exists hdr, h. split; [|exact Hdate]. apply Hok. reflexivity.
Defined.

Lemma put_rejects_other_methods_witness :
  ∃ e s',
    put "common/datasets/ds/datasetseries/20240105/distributions/csv" 4 "GET" true
      (Pst (File (bytes_of "a,b") 0) [] []) = (inl e, s') ∧
    p_sent s' = [] ∧ exn_class_of e = ValueError.
Proof.
  destruct (put_rejects_other_methods
              "common/datasets/ds/datasetseries/20240105/distributions/csv" "GET" 4 true
              (Pst (File (bytes_of "a,b") 0) [] []))
    as (e & s' & Hrun & Hsent & Hcls).
  - vm_compute. intros Hin%list_elem_of_In. simpl in Hin.
    destruct Hin as [Hin|[Hin|[]]]; discriminate Hin.
  - exists e, s'. split; [exact Hrun|]. split; [exact Hsent|].
    apply (Hcls "20240105" "2024-01-05"); reflexivity.
Defined.

(** Three downloads, the second of which fails: three requests all the
    same. *)
Lemma download_attempts_each_task_once_witness :
  let s := start three_remote [] in
  let run := _download (join_df_download [] (remote three_remote)) false s in
  ∃ t, trace run.2 = trace s ++ t ∧
    gets_of t ≡ₚ [ ("common/datasets/ds/a/csv", "common/ds/a.csv");
                   ("common/datasets/ds/b/csv", "common/ds/b.csv");
                   ("common/datasets/ds/c/csv", "common/ds/c.csv") ].
Proof.
  intros s run.
  destruct (download_attempts_each_task_once
              (join_df_download [] (remote three_remote)) (remote three_remote) false s
              run.2
              [ (true, "common/ds/a.csv", None);
                (false, "common/ds/b.csv", Some "connection reset");
                (true, "common/ds/c.csv", None) ])
    as (_ & _ & _ & t & Ht & Hgets).
  - repeat constructor.
  - intros p w e w' Hm. discriminate Hm.
  - vm_compute. reflexivity.
  - exists t. split; [exact Ht|exact Hgets].
Defined.

(** Three cycles of failed downloads in the world of the three
    distributions: the loop is still running. *)
Lemma loop_keeps_running_witness :
  ∃ local_state' s',
    fsync_loop 3 0 "common" "download" false None false EmptyDataFrame
      (start three_remote [["ds"]]) = (inr (Running local_state'), s') ∧
    lists s' = [["ds"]].
Proof.
  destruct (loop_keeps_running 3 0 "common" "download" false None false EmptyDataFrame
              (start three_remote [["ds"]]))
    as (ls & s' & Hrun & Hl & _).
  - repeat split.
    + intros p w e w' Hm. discriminate Hm.
    + intros w p e. simpl. destruct (assoc p (files w)); intros [= <-]. reflexivity.
    + intros w ps e Hv. discriminate Hv.
    + intros u p w e w'. simpl. destruct (unreachable u); intros [= <- _]. reflexivity.
    + intros rows par w e w' Hu. discriminate Hu.
    + intros w ds c fl fmt e Hd. discriminate Hd.
    + intros p e Hp. discriminate Hp.
  - exists ls, s'. split; [exact Hrun|exact Hl].
Defined.

(** The second download is interrupted in every cycle.  An operator who
    answers no and then exit leaves the loop by [break]; one who answers no
    and then interrupts the prompt leaves it by the [KeyboardInterrupt]. *)
Lemma loop_left_by_operator_or_escape_witness :
  let loop := fsync_loop 5 0 "common" "download" false None false EmptyDataFrame in
  let s := St (InterruptedWorld three_remote) [["ds"]] []
              [Line "no"; Line "exit"; Line "later"] in
  let s' := St (InterruptedWorld three_remote) [["ds"]] []
               [Line "no"; CtrlC; Line "later"] in
  ((loop s).1 = inr Exited ∧ stdin (loop s).2 = [Line "later"] ∧
   lists (loop s).2 = [["ds"]]) ∧
  ((loop s').1 = inl (Exn KeyboardInterrupt EmptyString) ∧
   stdin (loop s').2 = [Line "later"] ∧ lists (loop s').2 = [["ds"]]).
Proof.
  intros loop s s'. split.
  - split; [vm_compute; reflexivity|]. split; [vm_compute; reflexivity|].
    apply (loop_left_by_operator_or_escape 5 0 "common" "download" false None false
             EmptyDataFrame s (loop s).2 (loop s).1).
    apply surjective_pairing.
  - split; [vm_compute; reflexivity|]. split; [vm_compute; reflexivity|].
    apply (loop_left_by_operator_or_escape 5 0 "common" "download" false None false
             EmptyDataFrame s' (loop s').2 (loop s').1).
    apply surjective_pairing.
Defined.

(** The upload of the two files, all of whose outcomes report success,
    commits the scanned state; the download whose second transfer fails
    leaves the baseline as it was. *)
Lemma cycle_commits_iff_batch_succeeded_witness :
  (∃ tmp s3,
     fsync_cycle 0 "common" "upload" false None false EmptyDataFrame
       (start two_files [["ds"]]) = (inr (Continue (LocalState tmp)), s3) ∧
     length (df_rows tmp) = 2%nat) ∧
  ∃ s3,
    fsync_cycle 0 "common" "download" false None false EmptyDataFrame
      (start three_remote [["ds"]]) = (inr (Continue EmptyDataFrame), s3).
Proof.
  split.
  - set (s := start two_files [["ds"]]).
    set (s1 := (_get_local_state ["ds"] "common" None s).2).
    set (tmp := Frame object
                  [ (0%nat, LocalRow (Some "common/ds/ds__common__20240105.csv")
                              (Some "common/ds/ds__common__20240105.csv")
                              (Some "s0Xh3AnyD9796kafCRZ4kg=="));
                    (1%nat, LocalRow (Some "common/ds/notes.txt")
                              (Some "common/ds/notes.txt")
                              (Some "6ly4/wq/a0ygCABp2q6toA==")) ]).
    set (sync := _synchronize tmp (Frame object []) "upload" false
                   (logged (EvFusionDf ["ds"]) s1)).
    destruct (cycle_commits_iff_batch_succeeded 0 "common" "upload" false None false
                EmptyDataFrame s s1 sync.2 tmp (Frame object [])
                [ (true, "common/ds/ds__common__20240105.csv", None);
                  (true, "common/ds/notes.txt", None) ])
      as (new & Hrun & Hiff & _).
    + vm_compute. reflexivity.
    + discriminate.
    + reflexivity.
    + vm_compute. reflexivity.
    + exists tmp, sync.2. split; [|reflexivity]. rewrite Hrun. do 3 f_equal.
      apply Hiff. right. repeat constructor.
  - set (s := start three_remote [["ds"]]).
    set (s1 := (_get_local_state ["ds"] "common" None s).2).
    set (sync := _synchronize (Frame float64 []) (Frame object (remote three_remote))
                   "download" false (logged (EvFusionDf ["ds"]) s1)).
    destruct (cycle_commits_iff_batch_succeeded 0 "common" "download" false None false
                EmptyDataFrame s s1 sync.2 (Frame float64 [])
                (Frame object (remote three_remote))
                [ (true, "common/ds/a.csv", None);
                  (false, "common/ds/b.csv", Some "connection reset");
                  (true, "common/ds/c.csv", None) ])
      as (new & Hrun & _ & Hfail).
    + vm_compute. reflexivity.
    + discriminate.
    + reflexivity.
    + vm_compute. reflexivity.
    + exists sync.2. rewrite Hrun. do 3 f_equal. apply Hfail.
      apply Exists_cons_tl, Exists_cons_hd. reflexivity.
Defined.

(** The scan of the two files, with the state it returns as the committed
    one. *)
Lemma converged_cycle_only_sleeps_witness :
  let s := start two_files [["ds"]] in
  let scan := _get_local_state ["ds"] "common" None s in
  ∃ tmp, scan.1 = inr tmp ∧
    fsync_cycle 0 "common" "upload" false None false (LocalState tmp) s =
      (inr (Continue (LocalState tmp)), logged (EvSleep 10) scan.2).
Proof.
  intros s scan.
  set (tmp := Frame object
                [ (0%nat, LocalRow (Some "common/ds/ds__common__20240105.csv")
                            (Some "common/ds/ds__common__20240105.csv")
                            (Some "s0Xh3AnyD9796kafCRZ4kg=="));
                  (1%nat, LocalRow (Some "common/ds/notes.txt")
                            (Some "common/ds/notes.txt")
                            (Some "6ly4/wq/a0ygCABp2q6toA==")) ]).
  exists tmp. split; [vm_compute; reflexivity|].
  apply (converged_cycle_only_sleeps 0 "common" "upload" false None false tmp s scan.2).
  vm_compute. reflexivity.
Defined.

Lemma scan_sorted_without_duplicates_witness :
  let s := start two_files [] in
  ∃ df, (_get_local_state ["ds"] "common" None s).1 = inr df ∧
    length (df_rows df) = 2%nat ∧
    StronglySorted path_order (df_rows df) ∧ NoDup (snd <$> df_rows df).
Proof.
  intros s.
  set (df := Frame object
               [ (0%nat, LocalRow (Some "common/ds/ds__common__20240105.csv")
                           (Some "common/ds/ds__common__20240105.csv")
                           (Some "s0Xh3AnyD9796kafCRZ4kg=="));
                 (1%nat, LocalRow (Some "common/ds/notes.txt")
                           (Some "common/ds/notes.txt")
                           (Some "6ly4/wq/a0ygCABp2q6toA==")) ]).
  exists df. split; [vm_compute; reflexivity|]. split; [reflexivity|].
  apply (scan_sorted_without_duplicates ["ds"] "common" None s
           (_get_local_state ["ds"] "common" None s).2 df).
  vm_compute. reflexivity.
Defined.

(** The same scan with the format [notes.txt]: the one row whose URL ends
    in it. *)
Lemma scan_format_filter_witness :
  let s := start two_files [] in
  let row := (1%nat, LocalRow (Some "common/ds/notes.txt") (Some "common/ds/notes.txt")
                       (Some "6ly4/wq/a0ygCABp2q6toA==")) in
  (_get_local_state ["ds"] "common" (Some "notes.txt") s).1 = inr (Frame object [row]) ∧
  ∃ u, l_url row.2 = Some u ∧ last (split "/" u) = Some "notes.txt".
Proof.
  intros s row. split; [vm_compute; reflexivity|].
  apply (proj1 (scan_format_filter ["ds"] "common") "notes.txt" s
           (_get_local_state ["ds"] "common" (Some "notes.txt") s).2 (Frame object [row])).
  - discriminate.
  - vm_compute. reflexivity.
  - left.
Defined.

Lemma tasks_have_their_source_witness :
  let l := LocalRow (Some "common/ds/a.csv") (Some "a") (Some "X") in
  let r := FusionRow "common/ds/a.csv" "a" 3 "Y" in
  ∃ l', (Some l, Some r).1 = Some l' ∧ l' ∈ [l] ∧ url (Some l, Some r) = row_url l' ∧
    ∀ r', (Some l, Some r).2 = Some r' → r' ∈ [r] ∧ row_url r' = row_url l'.
Proof.
  intros l r.
  apply (proj1 (tasks_have_their_source [l] [r]) (Some l, Some r)).
  vm_compute. left.
Defined.

Lemma upload_plan_empty_iff_witness :
  let l := LocalRow (Some "common/ds/a.csv") (Some "a") (Some "X") in
  let r := FusionRow "common/ds/a.csv" "a" 3 "X" in
  join_df_upload [l] [r] = [].
Proof.
  intros l r. apply (proj2 (upload_plan_empty_iff [l] [r])).
  intros l' ->%list_elem_of_singleton. split.
  - exists r. split; [left|reflexivity].
  - intros r' ->%list_elem_of_singleton _. exists "X". split; reflexivity.
Defined.

Lemma upload_one_task_per_key_witness :
  let L := [ LocalRow (Some "common/ds/a.csv") (Some "a") (Some "X");
             LocalRow (Some "common/ds/b.csv") (Some "b") (Some "X") ] in
  let R := [ FusionRow "common/ds/a.csv" "a" 3 "Y";
             FusionRow "common/ds/b.csv" "b" 3 "X" ] in
  NoDup (row_url <$> R) ∧
  keys (join_df_upload L R) `sublist_of` (row_url <$> L) ∧
  (length (join_df_upload L R) ≤ 2)%nat.
Proof.
  intros L R.
  assert (NoDup (row_url <$> R)) as Hnd.
  { apply (proj2 (NoDup_ListNoDup _)). simpl. repeat constructor; simpl.
    - intros [Heq|[]]. discriminate Heq.
    - intros []. }
  split; [exact Hnd|].
  destruct (upload_one_task_per_key L R Hnd) as (Hsub & Hlen & _).
  split; [exact Hsub|exact Hlen].
Defined.

(** The caller's empty list and a product of two datasets. *)
Lemma startup_spares_an_empty_list_witness :
  let s := start one_product [[]; ["z"]] in
  let run := fsync_startup (Some ["p"]) (Some 0%nat) None "upload" s in
  run.1 = inr ("common", 2%nat) ∧ take 2 (lists run.2) = [[]; ["z"]].
Proof.
  intros s run. split; [vm_compute; reflexivity|].
  apply (startup_spares_an_empty_list (Some ["p"]) (Some 0%nat) None "upload" s run.2 run.1).
  - reflexivity.
  - apply surjective_pairing.
Defined.

(** The second product is unknown: the datasets of the first one are in the
    caller's list all the same. *)
Lemma startup_failed_lookup_leaves_partial_list_witness :
  ∃ s',
    fsync 3 (Some ["p"; "q"; "p"]) (Some 0%nat) None "upload" false None false
      (start one_product [["d"]]) = (inl (Exn FileNotFoundError "q"), s') ∧
    lists s' !! 0%nat = Some ["d"; "x"; "y"] ∧
    trace s' = [EvCat "common/products/p"; EvCat "common/products/q"].
Proof.
  apply (startup_failed_lookup_leaves_partial_list 3 ["p"] ["p"] "q" [["x"; "y"]] 0 ["d"]
           None "upload" false None false (Exn FileNotFoundError "q")
           (start one_product [["d"]])).
  - reflexivity.
  - discriminate.
  - by left.
  - repeat constructor.
  - reflexivity.
Defined.

End ConcreteMore.

(** ** The remote inventory on the sample catalog *)

Section ConcreteInventory.
Import Py FileObj FsSync FusionDf DemoRemote.

(** The two distributions of the sample, filtered by format. *)
Example fusion_df_sample :
  _get_fusion_df ["ds"] "common" false (Some "csv") =
  inr [ FusionRow "common/ds/20240105//ds__common__20240105.csv"
          "common/datasets/ds/datasetseries/20240105/distributions/csv" 3
          "kAFQmDzST7DWlj99KOF/cg==" ].
Proof. vm_compute. reflexivity. Qed.

(** A key whose dataset has the word [distribution] in its name: the
    replacement reaches the name of the dataset too. *)
Example url_of_key_rewrites_names :
  url_of_key "common" "my_distribution.20240105.distribution.csv" =
  "common/datasets/my_distributions/datasetseries/20240105/distributions/csv".
Proof. vm_compute. reflexivity. Qed.

Lemma inventory_rows_come_from_first_changes_witness :
  match _get_fusion_df ["ds"] "common" false (Some "csv") with
  | inr df =>
      length df = 1%nat ∧
      ∀ r, r ∈ df →
        contains "datasetseries" (f_url r) = true ∧
        last (split "/" (f_url r)) = Some "csv"
  | inl _ => False
  end.
Proof.
  pose proof (inventory_rows_come_from_first_changes ["ds"] "common" false (Some "csv"))
    as Hthm.
  destruct (_get_fusion_df ["ds"] "common" false (Some "csv")) as [e|df] eqn:Hrun.
  - vm_compute in Hrun. discriminate Hrun.
  - split.
    + vm_compute in Hrun. injection Hrun as <-. reflexivity.
    + intros r Hr. destruct (Hthm df eq_refl r Hr) as (_ & Hc & Hf).
      split; [exact Hc|]. apply Hf. reflexivity.
Defined.

Lemma canonical_key_url_and_path_witness :
  url_of_key "common" "ds.20240105.distribution.csv" =
    "common/datasets/ds/datasetseries/20240105/distributions/csv" ∧
  _url_to_path "common/datasets/ds/datasetseries/20240105/distributions/csv" =
    inr "common/ds/20240105//ds__common__20240105.csv".
Proof.
  refine (canonical_key_url_and_path "common" "ds" "20240105" "csv" _ _ _ _);
    repeat split; reflexivity.
Defined.

Lemma digest_column_undoes_digest_header_witness :
  md5_of_value (FusionFilesystem.digest_header (bytes_of "a,b")) =
  md5_token_of_blocks 4096 (File (bytes_of "a,b") 0).
Proof.
  apply (proj1 (proj2 (digest_column_undoes_digest_header (bytes_of "a,b")))
           4096 (File (bytes_of "a,b") 0)); [lia|reflexivity|reflexivity].
Defined.

(** The dataset with the key without a format, asked for after a sound
    one. *)
Lemma short_url_fails_whole_inventory_witness :
  ∃ e, _get_fusion_df ["ds"; "short"] "common" false None = inl e.
Proof.
  apply (proj1 (short_url_fails_whole_inventory ["ds"; "short"] "common" false None)
           "short"
           [Distribution "ds.20240105.distribution"
              ["2024-01-05"; "3"; "md5=kAFQmDzST7DWlj99KOF/cg=="]]
           []
           (Distribution "ds.20240105.distribution"
              ["2024-01-05"; "3"; "md5=kAFQmDzST7DWlj99KOF/cg=="])).
  - right. left.
  - reflexivity.
  - left.
  - vm_compute. lia.
Defined.

Lemma inventory_of_one_distribution_witness :
  _get_fusion_df ["one"] "common" true (Some "csv") =
    inr [ FusionRow "common/ds/ds__common__20240105.csv"
            "common/datasets/ds/datasetseries/20240105/distributions/csv" 3
            "kAFQmDzST7DWlj99KOF/cg==" ] ∧
  _get_fusion_df ["one"] "common" true (Some "parquet") = inr [].
Proof.
  split.
  - apply (inventory_of_one_distribution "one" "common" "ds" "20240105" "csv" "2024-01-05"
             "3" "kAFQmDzST7DWlj99KOF/cg==" "/ds__common__20240105.csv" [] 3
             [[Distribution "ds.20240104.distribution.csv"
                 ["2024-01-04"; "3"; "md5=1B2M2Y8AsgTpgAmY7PhCfg=="]]]
             true (Some "csv")); repeat split; reflexivity.
  - apply (inventory_of_one_distribution "one" "common" "ds" "20240105" "csv" "2024-01-05"
             "3" "kAFQmDzST7DWlj99KOF/cg==" "/ds__common__20240105.csv" [] 3
             [[Distribution "ds.20240104.distribution.csv"
                 ["2024-01-04"; "3"; "md5=1B2M2Y8AsgTpgAmY7PhCfg=="]]]
             true (Some "parquet")); repeat split; reflexivity.
Defined.

End ConcreteInventory.
